(** * Order workflow and inventory consistency

    A shallow embedding of the order-processing core of the business
    management backend:

    - [backend/app/models/product.py]  (stock ledger: [reduce_stock],
      [increase_stock]; [profit_margin], [to_dict]),
    - [backend/app/models/order.py]    (status state machine, totals,
      order-number generation, line totals, [to_dict]),
    - [backend/app/routes/order_routes.py] ([create_order],
      [update_order_status], [cancel_order]).

    Conventions of the embedding.

    - Python values keep what decides the behaviour of the code.  An int is
      a [Z].  A number that can be an int, a [decimal.Decimal] or a float
      at run time is a [number], tagged with its type: [+] and [*] are
      defined on an int with anything and on two numbers of the same type,
      and raise [TypeError] on a Decimal with a float, as Python does.  A
      Decimal and a float carry the rational they stand for.  [+] and [*]
      are exact: of the sums and products of [calculate_totals] only the
      types decide what the code does.  [profit_margin], whose value is
      sent to a client, rounds as Python does: every Decimal operation to
      the 28 significant digits of the default context and [float(...)] to
      the nearest double, ties to even; the exponent ranges of the two
      formats are out of reach of column values and are not modelled.
    - A value read from a [Numeric(10, 2)] column is a Decimal (the models'
      [to_dict] turn these values into floats for JSON), with two decimal
      places: what is written to such a column is rounded by
      [numeric_10_2] (ties away from zero, as PostgreSQL does).  The
      precision bound of the column, the width of [Integer] columns and the
      length of [String] columns are not modelled.
    - Request bodies are taken at their documented shape: ids and
      quantities are integers, amounts are numbers, and a key may be
      absent.  The integer columns of a product hold integers.
    - Tables keyed by their primary key are finite maps; [order_items] is
      the list of its rows in insertion order.
    - A request runs in its own session: a working copy of the store that
      becomes the store on [commit], is reset by [rollback], and is dropped
      when the request ends.
    - The answer of a route is rendered where the code renders it, after
      the commit: [to_dict] of an order renders its lines and their
      products, and raises where [profit_margin] does.  Of the JSON it
      produces the body keeps the order and its lines.
    - The clock and the random source are inputs ([Env]); the readings of
      the clock inside one request are identified. *)

From Stdlib Require Import ZArith QArith String List Lia DecimalString.
From stdpp Require Import gmap.

Open Scope Z_scope.

(** ** Numbers *)

(** Nearest integer, ties away from zero. *)
Definition round_half_away (q : Q) : Z :=
  let n := Qnum q in
  let d := Z.pos (Qden q) in
  Z.sgn n * ((2 * Z.abs n + d) / (2 * d)).

(** The value kept by a [Numeric(10, 2)] column. *)
Definition numeric_10_2 (q : Q) : Q :=
  round_half_away (q * 100)%Q # 100.

(** The integer logarithm: for [2 <= base] and [1 <= n], the [k] with
    [base ^ k <= n < base ^ (k + 1)]. *)
Fixpoint ilog_fuel (fuel : nat) (base n : Z) : Z :=
  match fuel with
  | O => 0
  | S fuel => if n <? base then 0 else 1 + ilog_fuel fuel base (n / base)
  end.

Definition ilog (base n : Z) : Z :=
  ilog_fuel (S (Z.to_nat (Z.log2 n))) base n.

(** Nearest integer to [n / d], for [0 <= n] and [0 < d], ties to even. *)
Definition round_half_even (n d : Z) : Z :=
  let k := n / d in
  let r := n mod d in
  if 2 * r <? d then k
  else if d <? 2 * r then k + 1
  else if Z.even k then k else k + 1.

(** [n / d / base ^ e] as a fraction of two integers. *)
Definition scale (base e n d : Z) : Z * Z :=
  if 0 <=? e then (n, d * base ^ e) else (n * base ^ (- e), d).

(** [n / d], for [0 < n] and [0 < d], rounded to [precision] significant
    digits in [base]: [lead] is the exponent of the leading digit, [m] the
    digits kept and [e] their exponent. *)
Definition round_magnitude (base precision n d : Z) : Q :=
  let k := ilog base n - ilog base d in
  let lead :=
    let '(n', d') := scale base k n d in
    if d' <=? n' then k else k - 1 in
  let e := lead - (precision - 1) in
  let '(n', d') := scale base e n d in
  let m := round_half_even n' d' in
  if 0 <=? e then inject_Z (m * base ^ e)
  else m # Z.to_pos (base ^ (- e)).

(** The nearest number with [precision] significant digits in [base], ties
    to even. *)
Definition round_digits (base precision : Z) (q : Q) : Q :=
  let n := Z.abs (Qnum q) in
  if n =? 0 then 0%Q
  else
    let magnitude := round_magnitude base precision n (Z.pos (Qden q)) in
    if Qnum q <? 0 then (- magnitude)%Q else magnitude.

(** The result of a Decimal operation in the default context:
    [prec=28], [ROUND_HALF_EVEN]. *)
Definition decimal_context (q : Q) : Q := round_digits 10 28 q.

(** [float(d)] for a Decimal [d]: the nearest double. *)
Definition float_ (q : Q) : Q := round_digits 2 53 q.

(** [str(n)] for a Python int. *)
Definition str_int (n : Z) : string :=
  NilZero.string_of_int (Z.to_int n).

(** [s[-n:]]: the last [n] characters of [s] (all of [s] when it is
    shorter). *)
Definition last_chars (n : nat) (s : string) : string :=
  let len := String.length s in
  String.substring (len - n) (Nat.min n len) s.

(** [x in l] for a list of strings. *)
Definition str_in (x : string) (l : list string) : bool :=
  existsb (String.eqb x) l.

(** [d.get(k, default)] for a dictionary literal with string keys, given as
    its list of entries. *)
Fixpoint dict_get {A} (d : list (string * A)) (k : string) (default : A) : A :=
  match d with
  | [] => default
  | (k', v) :: d' => if String.eqb k k' then v else dict_get d' k default
  end.

(** ** Exceptions *)

Inductive Exn :=
| IntegrityError   (* unique constraint on [orders.order_number] *)
| NotFound         (* raised by [get_or_404] *)
| AttributeError   (* attribute access on [None] *)
| TypeError        (* unsupported operand types *)
| DivisionByZero.  (* [decimal.DivisionByZero] *)

(** The result of an expression that can raise. *)
Inductive Raises (A : Type) :=
| Ok (a : A)
| Raise (e : Exn).
Arguments Ok {A} a.
Arguments Raise {A} e.

#[export] Instance raises_ret : MRet Raises := fun A a => Ok a.

#[export] Instance raises_bind : MBind Raises := fun A B f m =>
  match m with
  | Ok a => f a
  | Raise e => Raise e
  end.

(** ** Python numbers *)

Inductive number :=
| Int (z : Z)       (* [int] *)
| Decimal (q : Q)   (* [decimal.Decimal] *)
| Float (q : Q).    (* [float] *)

Definition number_value (n : number) : Q :=
  match n with
  | Int z => inject_Z z
  | Decimal q => q
  | Float q => q
  end.

Module Py.

(** [a + b]. *)
Definition add (a b : number) : Raises number :=
  match a, b with
  | Int x, Int y => Ok (Int (x + y))
  | Int x, Decimal y => Ok (Decimal (inject_Z x + y))
  | Decimal x, Int y => Ok (Decimal (x + inject_Z y))
  | Decimal x, Decimal y => Ok (Decimal (x + y))
  | Int x, Float y => Ok (Float (inject_Z x + y))
  | Float x, Int y => Ok (Float (x + inject_Z y))
  | Float x, Float y => Ok (Float (x + y))
  | Decimal _, Float _ => Raise TypeError
  | Float _, Decimal _ => Raise TypeError
  end.

(** [a * b]. *)
Definition mul (a b : number) : Raises number :=
  match a, b with
  | Int x, Int y => Ok (Int (x * y))
  | Int x, Decimal y => Ok (Decimal (inject_Z x * y))
  | Decimal x, Int y => Ok (Decimal (x * inject_Z y))
  | Decimal x, Decimal y => Ok (Decimal (x * y))
  | Int x, Float y => Ok (Float (inject_Z x * y))
  | Float x, Int y => Ok (Float (x * inject_Z y))
  | Float x, Float y => Ok (Float (x * y))
  | Decimal _, Float _ => Raise TypeError
  | Float _, Decimal _ => Raise TypeError
  end.

(** [sum(l)]: it starts from the int [0] and adds from the left. *)
Definition sum (l : list number) : Raises number :=
  fold_left (fun acc x => a ← acc; add a x) l (Ok (Int 0)).

End Py.

(** ** Models *)

Module Customer.

Record t := {
  first_name : string;
  last_name : string;
  email : string;
  tier : string;
  is_active : bool
}.

End Customer.

Module Product.

(** [price] and [cost] are [Numeric(10, 2)] columns, Decimals; [cost] can
    be [None]. *)
Record t := {
  name : string;
  sku : string;
  price : Q;
  cost : option Q;
  stock_quantity : Z;
  low_stock_threshold : Z;
  reorder_point : Z;
  is_active : bool
}.

Definition with_stock_quantity (self : t) (n : Z) : t :=
  {| name := name self;
     sku := sku self;
     price := price self;
     cost := cost self;
     stock_quantity := n;
     low_stock_threshold := low_stock_threshold self;
     reorder_point := reorder_point self;
     is_active := is_active self |}.

Definition is_low_stock (self : t) : bool :=
  stock_quantity self <=? low_stock_threshold self.

Definition needs_reorder (self : t) : bool :=
  stock_quantity self <=? reorder_point self.

(** [reduce_stock]: the returned pair is the method's result and the
    object after the call. *)
Definition reduce_stock (self : t) (quantity : Z) : bool * t :=
  if stock_quantity self >=? quantity
  then (true, with_stock_quantity self (stock_quantity self - quantity))
  else (false, self).

Definition increase_stock (self : t) (quantity : Z) : t :=
  with_stock_quantity self (stock_quantity self + quantity).

(** [profit_margin]: [None] unless [self.cost and self.cost > 0]; then
    [float((self.price - self.cost) / self.price * 100)], three Decimal
    operations and a conversion.  The division raises for a price of zero
    (the numerator is then [- self.cost], not zero). *)
Definition profit_margin (self : t) : Raises (option Q) :=
  match cost self with
  | None => Ok None
  | Some cost =>
      if negb (Qeq_bool cost 0) && negb (Qle_bool cost 0)
      then
        if Qeq_bool (price self) 0
        then Raise DivisionByZero
        else
          let difference := decimal_context (price self - cost) in
          let ratio := decimal_context (difference / price self) in
          Ok (Some (float_ (decimal_context (ratio * 100))))
      else Ok None
  end.

(** [to_dict]: the columns, and of the computed entries the one that can
    raise. *)
Definition to_dict (self : t) : Raises (t * option Q) :=
  margin ← profit_margin self;
  mret (self, margin).

End Product.

Module OrderItem.

(** [unit_price] and [line_total] are Decimals: the one is a product's
    price, the other an int times it. *)
Record t := {
  id : Z;
  order_id : Z;
  product_id : Z;
  quantity : Z;
  unit_price : Q;
  line_total : Q
}.

(** [OrderItem(order_id=..., product_id=..., quantity=..., unit_price=...)];
    [line_total] is set by [calculate_line_total]. *)
Definition new (order_id product_id quantity : Z) (unit_price : Q) : t :=
  {| id := 0;
     order_id := order_id;
     product_id := product_id;
     quantity := quantity;
     unit_price := unit_price;
     line_total := 0 |}.

(** [self.line_total = self.quantity * self.unit_price]: an int times a
    Decimal. *)
Definition calculate_line_total (self : t) : t :=
  {| id := id self;
     order_id := order_id self;
     product_id := product_id self;
     quantity := quantity self;
     unit_price := unit_price self;
     line_total := (inject_Z (quantity self) * unit_price self)%Q |}.

(** The row written for the object: primary key assigned, [Numeric]
    columns at their scale. *)
Definition row (key : Z) (self : t) : t :=
  {| id := key;
     order_id := order_id self;
     product_id := product_id self;
     quantity := quantity self;
     unit_price := numeric_10_2 (unit_price self);
     line_total := numeric_10_2 (line_total self) |}.

End OrderItem.

Module Order.

Definition STATUS_PENDING : string := "Pending".
Definition STATUS_PROCESSING : string := "Processing".
Definition STATUS_SHIPPED : string := "Shipped".
Definition STATUS_DELIVERED : string := "Delivered".
Definition STATUS_CANCELLED : string := "Cancelled".

Definition VALID_STATUSES : list string :=
  [STATUS_PENDING; STATUS_PROCESSING; STATUS_SHIPPED; STATUS_DELIVERED;
   STATUS_CANCELLED].

(** The four amounts are Decimals in an order read from the store; in an
    order the session has built they are what the code has assigned. *)
Record t := {
  order_number : string;
  customer_id : Z;
  status : string;
  order_date : Z;
  shipping_address : option string;
  shipping_city : option string;
  shipping_state : option string;
  shipping_zip : option string;
  shipping_country : option string;
  subtotal : number;
  tax_amount : number;
  shipping_amount : number;
  total_amount : number;
  created_at : Z;
  updated_at : Z;
  shipped_date : option Z;
  delivered_date : option Z
}.

(** [generate_order_number]: [now] is [int(datetime.utcnow().timestamp())]
    and [random_part] the digits drawn by [random.choices]. *)
Definition generate_order_number (now : Z) (random_part : string) : string :=
  let prefix := "ORD"%string in
  let timestamp := last_chars 6 (str_int now) in
  (prefix ++ timestamp ++ random_part)%string.

Definition valid_transitions : list (string * list string) :=
  [ (STATUS_PENDING, [STATUS_PROCESSING; STATUS_CANCELLED]);
    (STATUS_PROCESSING, [STATUS_SHIPPED; STATUS_CANCELLED]);
    (STATUS_SHIPPED, [STATUS_DELIVERED]);
    (STATUS_DELIVERED, []);
    (STATUS_CANCELLED, []) ].

Definition can_transition_to (self : t) (new_status : string) : bool :=
  str_in new_status (dict_get valid_transitions (status self) []).

(** The assignments of [update_status] once the transition is allowed. *)
Definition set_status (self : t) (new_status : string) (now : Z) : t :=
  {| order_number := order_number self;
     customer_id := customer_id self;
     status := new_status;
     order_date := order_date self;
     shipping_address := shipping_address self;
     shipping_city := shipping_city self;
     shipping_state := shipping_state self;
     shipping_zip := shipping_zip self;
     shipping_country := shipping_country self;
     subtotal := subtotal self;
     tax_amount := tax_amount self;
     shipping_amount := shipping_amount self;
     total_amount := total_amount self;
     created_at := created_at self;
     updated_at := now;
     shipped_date :=
       if String.eqb new_status STATUS_SHIPPED then Some now
       else shipped_date self;
     delivered_date :=
       if String.eqb new_status STATUS_SHIPPED then delivered_date self
       else if String.eqb new_status STATUS_DELIVERED then Some now
       else delivered_date self |}.

(** [update_status]: the method's result and the object after the call. *)
Definition update_status (self : t) (new_status : string) (now : Z) : bool * t :=
  if negb (can_transition_to self new_status) then (false, self)
  else (true, set_status self new_status now).

Definition with_totals (self : t) (sub tax total : number) : t :=
  {| order_number := order_number self;
     customer_id := customer_id self;
     status := status self;
     order_date := order_date self;
     shipping_address := shipping_address self;
     shipping_city := shipping_city self;
     shipping_state := shipping_state self;
     shipping_zip := shipping_zip self;
     shipping_country := shipping_country self;
     subtotal := sub;
     tax_amount := tax;
     shipping_amount := shipping_amount self;
     total_amount := total;
     created_at := created_at self;
     updated_at := updated_at self;
     shipped_date := shipped_date self;
     delivered_date := delivered_date self |}.

(** [calculate_totals]; [items] is [self.items], whose line totals are
    Decimals, and [0.08] is a float.  An exception leaves the method before
    the assignments that follow it. *)
Definition calculate_totals (self : t) (items : list OrderItem.t) : Raises t :=
  subtotal ← Py.sum (map (fun item => Decimal (OrderItem.line_total item)) items);
  tax_amount ← Py.mul subtotal (Float 0.08);  (* 8% tax rate *)
  subtotal_and_tax ← Py.add subtotal tax_amount;
  total_amount ← Py.add subtotal_and_tax (shipping_amount self);
  mret (with_totals self subtotal tax_amount total_amount).

(** The row written for the object: [Numeric] columns at their scale. *)
Definition row (self : t) : t :=
  {| order_number := order_number self;
     customer_id := customer_id self;
     status := status self;
     order_date := order_date self;
     shipping_address := shipping_address self;
     shipping_city := shipping_city self;
     shipping_state := shipping_state self;
     shipping_zip := shipping_zip self;
     shipping_country := shipping_country self;
     subtotal := Decimal (numeric_10_2 (number_value (subtotal self)));
     tax_amount := Decimal (numeric_10_2 (number_value (tax_amount self)));
     shipping_amount := Decimal (numeric_10_2 (number_value (shipping_amount self)));
     total_amount := Decimal (numeric_10_2 (number_value (total_amount self)));
     created_at := created_at self;
     updated_at := updated_at self;
     shipped_date := shipped_date self;
     delivered_date := delivered_date self |}.

End Order.

(** ** The store and the session *)

Record DB := {
  customers : gmap Z Customer.t;
  products : gmap Z Product.t;
  orders : gmap Z Order.t;
  order_items : list OrderItem.t
}.

(** [db.session]: [committed] is the store, [working] what the current
    transaction sees. *)
Record Session := {
  committed : DB;
  working : DB
}.

Definition session_begin (db : DB) : Session :=
  {| committed := db; working := db |}.

Definition session_commit (s : Session) : Session :=
  {| committed := working s; working := working s |}.

Definition session_rollback (s : Session) : Session :=
  {| committed := committed s; working := committed s |}.

(** End of the request: Flask-SQLAlchemy removes the scoped session when
    the application context is torn down, and uncommitted work is lost.
    This, not a rollback of their own, is what undoes the work of the
    routes that return early. *)
Definition session_remove (s : Session) : DB := committed s.

(** A JSON response: [jsonify(body), status_code]. *)
Inductive Body :=
| error (msg : string)
| error_str (e : Exn)
| message (msg : string)
| order_dict (id : Z) (order : Order.t) (items : list OrderItem.t).

Record Response := {
  body : Body;
  status_code : Z
}.

(** The body of a view function: it goes on with a value, returns a
    response, or raises; the session is threaded through. *)
Inductive Outcome (A : Type) :=
| Next (a : A)
| Returned (r : Response)
| Raised (e : Exn).
Arguments Next {A} a.
Arguments Returned {A} r.
Arguments Raised {A} e.

Definition View (A : Type) : Type := Session -> Outcome A * Session.

#[export] Instance view_ret : MRet View := fun A a s => (Next a, s).

#[export] Instance view_bind : MBind View := fun A B f m s =>
  match m s with
  | (Next a, s') => f a s'
  | (Returned r, s') => (Returned r, s')
  | (Raised e, s') => (Raised e, s')
  end.

Definition return_ {A} (b : Body) (code : Z) : View A :=
  fun s => (Returned {| body := b; status_code := code |}, s).

Definition raise {A} (e : Exn) : View A :=
  fun s => (Raised e, s).

(** An expression that can raise, inside a view. *)
Definition lift {A} (r : Raises A) : View A :=
  match r with
  | Ok a => mret a
  | Raise e => raise e
  end.

Definition get_working : View DB :=
  fun s => (Next (working s), s).

Definition put_working (w : DB) : View unit :=
  fun s => (Next tt, {| committed := committed s; working := w |}).

Definition commit : View unit :=
  fun s => (Next tt, session_commit s).

(** [try: ... except Exception as e: db.session.rollback(); return
    jsonify({'error': str(e)}), 500]. *)
Definition try_except (view_body : View Response) (s : Session) : Response * Session :=
  match view_body s with
  | (Next r, s') => (r, s')
  | (Returned r, s') => (r, s')
  | (Raised e, s') =>
      ({| body := error_str e; status_code := 500 |}, session_rollback s')
  end.

(** One request against the store, in a session of its own: the response
    and the store afterwards. *)
Definition handle (view : Session -> Response * Session) (db : DB) : Response * DB :=
  let '(r, s) := view (session_begin db) in (r, session_remove s).

(** *** Queries and writes *)

Definition Customer_query_get (key : Z) : View (option Customer.t) :=
  w ← get_working; mret (customers w !! key).

Definition Product_query_get (key : Z) : View (option Product.t) :=
  w ← get_working; mret (products w !! key).

Definition Order_query_get_or_404 (key : Z) : View Order.t :=
  w ← get_working;
  match orders w !! key with
  | Some order => mret order
  | None => raise NotFound
  end.

(** The next value of an autoincrement primary key. *)
Definition next_key {A} (m : gmap Z A) : Z :=
  1 + map_fold (fun k _ acc => Z.max k acc) 0 m.

Definition next_item_id (rows : list OrderItem.t) : Z :=
  1 + fold_right (fun r acc => Z.max (OrderItem.id r) acc) 0 rows.

Definition order_number_taken (number : string) (m : gmap Z Order.t) : bool :=
  bool_decide (map_Exists (fun _ o => Order.order_number o = number) m).

(** [db.session.add(order); db.session.flush()]: the insert is refused when
    the order number is already in the table; otherwise the row gets its
    key, which is the result. *)
Definition add_order (order : Order.t) : View Z :=
  w ← get_working;
  if order_number_taken (Order.order_number order) (orders w)
  then raise IntegrityError
  else
    let key := next_key (orders w) in
    put_working {| customers := customers w;
                   products := products w;
                   orders := <[key := Order.row order]> (orders w);
                   order_items := order_items w |};;
    mret key.

(** The update of an order the session has modified; [row] is the row
    after the update. *)
Definition write_order (key : Z) (row : Order.t) : View unit :=
  w ← get_working;
  put_working {| customers := customers w;
                 products := products w;
                 orders := <[key := row]> (orders w);
                 order_items := order_items w |}.

(** The update of a product the session has modified. *)
Definition write_product (key : Z) (product : Product.t) : View unit :=
  w ← get_working;
  put_working {| customers := customers w;
                 products := <[key := product]> (products w);
                 orders := orders w;
                 order_items := order_items w |}.

(** [db.session.add(order_item)]. *)
Definition add_order_item (item : OrderItem.t) : View unit :=
  w ← get_working;
  put_working {| customers := customers w;
                 products := products w;
                 orders := orders w;
                 order_items :=
                   order_items w ++ [OrderItem.row (next_item_id (order_items w)) item] |}.

(** [order.items]: the rows of [order_items] that point to the order. *)
Definition items_of (key : Z) (rows : list OrderItem.t) : list OrderItem.t :=
  List.filter (fun r => OrderItem.order_id r =? key) rows.

Definition Order_items (key : Z) : View (list OrderItem.t) :=
  w ← get_working; mret (items_of key (order_items w)).

(** [item.to_dict()]: the row, and under ['product'] the product's
    [to_dict()] when the product exists. *)
Definition OrderItem_to_dict (item : OrderItem.t) : View OrderItem.t :=
  product ← Product_query_get (OrderItem.product_id item);
  match product with
  | Some product => _ ← lift (Product.to_dict product); mret item
  | None => mret item
  end.

(** [[item.to_dict() for item in self.items]]. *)
Fixpoint items_to_dict (items : list OrderItem.t) : View (list OrderItem.t) :=
  match items with
  | [] => mret []
  | item :: rest =>
      item_json ← OrderItem_to_dict item;
      rest_json ← items_to_dict rest;
      mret (item_json :: rest_json)
  end.

(** [order.to_dict()] on the order as the store has it. *)
Definition Order_to_dict (key : Z) : View Body :=
  order ← Order_query_get_or_404 key;
  items ← Order_items key;
  items_json ← items_to_dict items;
  mret (order_dict key order items_json).

(** ** Requests *)

(** The clock and the random source of one request. *)
Record Env := {
  utcnow : Z;               (* [datetime.utcnow()], in seconds *)
  random_choices : string   (* [''.join(random.choices(string.digits, k=3))] *)
}.

(** One entry of ['items']: a key that is absent is [None]. *)
Module ItemData.
Record t := {
  product_id : option Z;
  quantity : option Z
}.
End ItemData.

(** The JSON body of [POST /api/orders].  A key that is absent is [None];
    [items] is also [None] when the value is not a list. *)
Module OrderData.
Record t := {
  customer_id : option Z;
  shipping_address : option string;
  shipping_city : option string;
  shipping_state : option string;
  shipping_zip : option string;
  shipping_country : option string;
  shipping_amount : option number;
  items : option (list ItemData.t)
}.
End OrderData.

(** The JSON body of [PUT /api/orders/<id>/status]. *)
Module StatusData.
Record t := {
  status : option string
}.
End StatusData.

(** ** Routes *)

(** [Order(customer_id=..., shipping_...=...)] with its order number, and
    the column defaults the insert fills in ([0.00] is a float). *)
Definition new_order (env : Env) (data : OrderData.t) (customer_id : Z) : Order.t :=
  {| Order.order_number :=
       Order.generate_order_number (utcnow env) (random_choices env);
     Order.customer_id := customer_id;
     Order.status := Order.STATUS_PENDING;
     Order.order_date := utcnow env;
     Order.shipping_address := OrderData.shipping_address data;
     Order.shipping_city := OrderData.shipping_city data;
     Order.shipping_state := OrderData.shipping_state data;
     Order.shipping_zip := OrderData.shipping_zip data;
     Order.shipping_country :=
       Some (default "USA"%string (OrderData.shipping_country data));
     Order.subtotal := Float 0;
     Order.tax_amount := Float 0;
     Order.shipping_amount := default (Float 0) (OrderData.shipping_amount data);
     Order.total_amount := Float 0;
     Order.created_at := utcnow env;
     Order.updated_at := utcnow env;
     Order.shipped_date := None;
     Order.delivered_date := None |}.

(** The loop [for item_data in data['items']] of [create_order].  Its value
    is the list of the order items it has added, as the session holds
    them. *)
Fixpoint create_order_items (order_id : Z) (items : list ItemData.t)
  : View (list OrderItem.t) :=
  match items with
  | [] => mret []
  | item_data :: rest =>
      match ItemData.product_id item_data, ItemData.quantity item_data with
      | Some product_id, Some quantity =>
          product ← Product_query_get product_id;
          match product with
          | None =>
              return_ (error ("Product " ++ str_int product_id ++ " not found")) 404
          | Some product =>
              (* Check stock availability *)
              if Product.stock_quantity product <? quantity
              then return_ (error ("Insufficient stock for product "
                                     ++ Product.name product)) 400
              else
                (* Create order item *)
                let order_item :=
                  OrderItem.calculate_line_total
                    (OrderItem.new order_id product_id quantity
                                   (Product.price product)) in
                (* Reduce product stock *)
                write_product product_id
                  (snd (Product.reduce_stock product quantity));;
                add_order_item order_item;;
                added ← create_order_items order_id rest;
                mret (order_item :: added)
          end
      | _, _ =>
          return_ (error "Each item must have product_id and quantity") 400
      end
  end.

(** [POST /api/orders].  [order.items], read by [calculate_totals], are the
    rows that point to the new key: the items the loop has added. *)
Definition create_order (env : Env) (data : OrderData.t) : Session -> Response * Session :=
  try_except (
    (* Validate required fields *)
    match OrderData.customer_id data with
    | None => return_ (error "customer_id is required") 400
    | Some customer_id =>
        if customer_id =? 0
        then return_ (error "customer_id is required") 400
        else
          match OrderData.items data with
          | None | Some [] => return_ (error "items array is required") 400
          | Some items =>
              (* Validate customer exists *)
              customer ← Customer_query_get customer_id;
              match customer with
              | None => return_ (error "Customer not found") 404
              | Some _ =>
                  (* Create order *)
                  let order := new_order env data customer_id in
                  order_id ← add_order order;
                  (* Create order items *)
                  order_items ← create_order_items order_id items;
                  (* Calculate order totals *)
                  order ← lift (Order.calculate_totals order order_items);
                  write_order order_id (Order.row order);;
                  commit;;
                  order_json ← Order_to_dict order_id;
                  return_ order_json 201
              end
          end
    end).

(** [PUT /api/orders/<order_id>/status]. *)
Definition update_order_status (env : Env) (order_id : Z) (data : StatusData.t)
  : Session -> Response * Session :=
  try_except (
    order ← Order_query_get_or_404 order_id;
    match StatusData.status data with
    | None | Some EmptyString => return_ (error "status is required") 400
    | Some new_status =>
        if negb (str_in new_status Order.VALID_STATUSES)
        then return_ (error "Invalid status. Valid options: ['Pending', 'Processing', 'Shipped', 'Delivered', 'Cancelled']") 400
        else
          let '(ok, order') := Order.update_status order new_status (utcnow env) in
          if negb ok
          then return_ (error ("Cannot transition from " ++ Order.status order
                                 ++ " to " ++ new_status)) 400
          else
            write_order order_id order';;
            commit;;
            order_json ← Order_to_dict order_id;
            return_ order_json 200
    end).

(** The loop [for item in order.items: item.product.increase_stock(...)]. *)
Fixpoint restore_stock (items : list OrderItem.t) : View unit :=
  match items with
  | [] => mret tt
  | item :: rest =>
      product ← Product_query_get (OrderItem.product_id item);
      match product with
      | None => raise AttributeError
      | Some product =>
          write_product (OrderItem.product_id item)
            (Product.increase_stock product (OrderItem.quantity item));;
          restore_stock rest
      end
  end.

(** [DELETE /api/orders/<order_id>]. *)
Definition cancel_order (env : Env) (order_id : Z) : Session -> Response * Session :=
  try_except (
    order ← Order_query_get_or_404 order_id;
    if negb (String.eqb (Order.status order) Order.STATUS_PENDING)
    then return_ (error "Only pending orders can be cancelled") 400
    else
      (* Restore stock for all items *)
      items ← Order_items order_id;
      restore_stock items;;
      (* Update order status *)
      write_order order_id
        (snd (Order.update_status order Order.STATUS_CANCELLED (utcnow env)));;
      commit;;
      return_ (message "Order cancelled successfully") 200).

(** ** Notions used in the statements *)

(** The transition table of the order state machine, as the design
    document lists it: the pairs (current status, allowed target). *)
Definition transition_table (current target : string) : Prop :=
  (current = "Pending"%string /\
     (target = "Processing"%string \/ target = "Cancelled"%string)) \/
  (current = "Processing"%string /\
     (target = "Shipped"%string \/ target = "Cancelled"%string)) \/
  (current = "Shipped"%string /\ target = "Delivered"%string).

(** A product that cannot be rendered: with a price of zero and a positive
    cost, [profit_margin] divides by zero. *)
Definition sold_for_nothing (p : Product.t) : Prop :=
  (Product.price p == 0)%Q /\
  exists c, Product.cost p = Some c /\ (0 < c)%Q.

(** The line items that can be rendered on a store: none is on such a
    product. *)
Definition renders (db : DB) (items : list OrderItem.t) : Prop :=
  Forall (fun item =>
            forall p, products db !! OrderItem.product_id item = Some p ->
                      ~ sold_for_nothing p) items.

(** The fields of an order that a status change leaves alone. *)
Definition same_order_details (o o' : Order.t) : Prop :=
  Order.order_number o' = Order.order_number o /\
  Order.customer_id o' = Order.customer_id o /\
  Order.order_date o' = Order.order_date o /\
  Order.shipping_address o' = Order.shipping_address o /\
  Order.shipping_city o' = Order.shipping_city o /\
  Order.shipping_state o' = Order.shipping_state o /\
  Order.shipping_zip o' = Order.shipping_zip o /\
  Order.shipping_country o' = Order.shipping_country o /\
  Order.subtotal o' = Order.subtotal o /\
  Order.tax_amount o' = Order.tax_amount o /\
  Order.shipping_amount o' = Order.shipping_amount o /\
  Order.total_amount o' = Order.total_amount o /\
  Order.created_at o' = Order.created_at o.

(** The stock of a product in a store ([0] for a key that is absent). *)
Definition stock_of (db : DB) (product_id : Z) : Z :=
  match products db !! product_id with
  | Some p => Product.stock_quantity p
  | None => 0
  end.

(** The product after its stock has moved by [n], all else equal. *)
Definition move_stock (n : Z) (p : Product.t) : Product.t :=
  Product.with_stock_quantity p (Product.stock_quantity p + n).

(** The total quantity of a product over a list of order items. *)
Definition quantity_for (product_id : Z) (rows : list OrderItem.t) : Z :=
  fold_right
    (fun r acc => if OrderItem.product_id r =? product_id
                  then OrderItem.quantity r + acc else acc)
    0 rows.

(** An order is active when it is in the store and not cancelled. *)
Definition order_active (db : DB) (order_id : Z) : bool :=
  match orders db !! order_id with
  | Some o => negb (String.eqb (Order.status o) Order.STATUS_CANCELLED)
  | None => false
  end.

(** The quantity of a product held by the line items of active orders. *)
Definition active_quantity (db : DB) (product_id : Z) : Z :=
  quantity_for product_id
    (List.filter (fun r => order_active db (OrderItem.order_id r)) (order_items db)).

(** Referential integrity of [order_items]: every row points to an order
    and to a product of the store. *)
Definition foreign_keys_ok (db : DB) : Prop :=
  forall r, In r (order_items db) ->
    is_Some (orders db !! OrderItem.order_id r) /\
    is_Some (products db !! OrderItem.product_id r).

(** ** Sample data *)

Definition ada : Customer.t :=
  {| Customer.first_name := "Ada";
     Customer.last_name := "Lovelace";
     Customer.email := "ada@example.com";
     Customer.tier := "Standard";
     Customer.is_active := true |}.

Definition product (name sku : string) (price : Q) (stock : Z) : Product.t :=
  {| Product.name := name;
     Product.sku := sku;
     Product.price := price;
     Product.cost := None;
     Product.stock_quantity := stock;
     Product.low_stock_threshold := 10;
     Product.reorder_point := 20;
     Product.is_active := true |}.

(** A store with one customer, three products and no order. *)
Definition shop : DB :=
  {| customers := {[ 1 := ada ]};
     products := {[ 1 := product "Widget" "W-1" 19.99 10;
                    2 := product "Gadget" "G-1" 5.00 4;
                    3 := product "Gizmo" "Z-1" 12.50 5 ]};
     orders := ∅;
     order_items := [] |}.

Definition line (product_id quantity : Z) : ItemData.t :=
  {| ItemData.product_id := Some product_id;
     ItemData.quantity := Some quantity |}.

(** A request body with the given customer and items and no shipping
    details. *)
Definition order_data (customer_id : option Z) (items : option (list ItemData.t))
  : OrderData.t :=
  {| OrderData.customer_id := customer_id;
     OrderData.shipping_address := None;
     OrderData.shipping_city := None;
     OrderData.shipping_state := None;
     OrderData.shipping_zip := None;
     OrderData.shipping_country := None;
     OrderData.shipping_amount := None;
     OrderData.items := items |}.

Definition monday : Env := {| utcnow := 1730000123; random_choices := "042" |}.
Definition tuesday : Env := {| utcnow := 1730086523; random_choices := "042" |}.
Definition monday_again : Env := {| utcnow := 1730000123; random_choices := "977" |}.

(** The sample shop with one order in it: customer 1 holds two widgets on
    a Pending order taken on [monday]. *)
Definition first_order : Order.t :=
  {| Order.order_number := "ORD000123042";
     Order.customer_id := 1;
     Order.status := "Pending";
     Order.order_date := 1730000123;
     Order.shipping_address := None;
     Order.shipping_city := None;
     Order.shipping_state := None;
     Order.shipping_zip := None;
     Order.shipping_country := Some "USA"%string;
     Order.subtotal := Decimal 39.98;
     Order.tax_amount := Decimal 3.20;
     Order.shipping_amount := Decimal 0.00;
     Order.total_amount := Decimal 43.18;
     Order.created_at := 1730000123;
     Order.updated_at := 1730000123;
     Order.shipped_date := None;
     Order.delivered_date := None |}.

Definition first_line : OrderItem.t :=
  {| OrderItem.id := 1;
     OrderItem.order_id := 1;
     OrderItem.product_id := 1;
     OrderItem.quantity := 2;
     OrderItem.unit_price := 19.99;
     OrderItem.line_total := 39.98 |}.

Definition shop_with_order : DB :=
  {| customers := customers shop;
     products := <[1 := product "Widget" "W-1" 19.99 8]> (products shop);
     orders := {[ 1 := first_order ]};
     order_items := [first_line] |}.

(** The sample shop with an order whose one line has quantity -4: the
    stock of widgets stands at 14. *)
Definition negative_line : OrderItem.t :=
  {| OrderItem.id := 1;
     OrderItem.order_id := 1;
     OrderItem.product_id := 1;
     OrderItem.quantity := -4;
     OrderItem.unit_price := 19.99;
     OrderItem.line_total := -79.96 |}.

Definition shop_with_negative_order : DB :=
  {| customers := customers shop;
     products := <[1 := product "Widget" "W-1" 19.99 14]> (products shop);
     orders := {[ 1 := first_order ]};
     order_items := [negative_line] |}.

(** [create_order] as the design document words its handling of a conflict
    on the order number: regenerate the number and retry once before any
    error reaches the caller.  [retry_env] is the clock and random source of
    the second attempt. *)
Definition is_conflict (r : Response) : bool :=
  match body r with
  | error_str IntegrityError => true
  | _ => false
  end.

Definition create_order_with_retry (env retry_env : Env) (data : OrderData.t)
    (db : DB) : Response * DB :=
  let first_attempt := handle (create_order env data) db in
  if is_conflict (fst first_attempt)
  then handle (create_order retry_env data) db
  else first_attempt.

(** ** More of the models and routes *)

(** Further conventions.
    - A stock request carries an action that is a string and a quantity
      that is an integer, or lacks them.
    - A product route answers with [product.to_dict()]; its body keeps the
      product and the profit margin rendered. *)

(** [Order.full_shipping_address]: [', '.join(part for part in parts if
    part)]; a part that is [None] or empty is left out. *)
Definition present_parts (parts : list (option string)) : list string :=
  omap (fun part =>
          match part with
          | Some EmptyString => None
          | _ => part
          end) parts.

Definition full_shipping_address (self : Order.t) : string :=
  let parts :=
    [ Order.shipping_address self;
      Order.shipping_city self;
      Order.shipping_state self;
      Order.shipping_zip self;
      Order.shipping_country self ] in
  String.concat ", " (present_parts parts).

(** The responses of the product routes. *)
Inductive ProductBody :=
| product_error (msg : string)
| product_error_str (e : Exn)
| product_dict (id : Z) (product : Product.t) (margin : option Q).

Record ProductResponse := {
  product_body : ProductBody;
  product_status_code : Z
}.

(** The JSON body of [PUT /api/products/<id>/stock]. *)
Module StockData.
Record t := {
  action : option string;
  quantity : option Z
}.
End StockData.

Definition double_quote : string :=
  String (Ascii.Ascii false true false false false true false false) EmptyString.

(** The end of [update_stock]: the product is written, the session
    commits, and [product.to_dict()] renders the answer, which is where
    [profit_margin] can raise; the handler then rolls back what is left. *)
Definition commit_product (product_id : Z) (product : Product.t)
    (s : Session) : ProductResponse * Session :=
  let w :=
    {| customers := customers (working s);
       products := <[product_id := product]> (products (working s));
       orders := orders (working s);
       order_items := order_items (working s) |} in
  let s' := session_commit {| committed := committed s; working := w |} in
  match Product.to_dict product with
  | Raise e =>
      ({| product_body := product_error_str e;
          product_status_code := 500 |}, session_rollback s')
  | Ok (product, margin) =>
      ({| product_body := product_dict product_id product margin;
          product_status_code := 200 |}, s')
  end.

(** [PUT /api/products/<product_id>/stock] of [product_routes.py]. *)
Definition update_stock (product_id : Z) (data : StockData.t)
    (s : Session) : ProductResponse * Session :=
  match products (working s) !! product_id with
  | None =>
      ({| product_body := product_error_str NotFound;
          product_status_code := 500 |}, session_rollback s)
  | Some product =>
      match StockData.action data, StockData.quantity data with
      | Some action, Some quantity =>
          if String.eqb action EmptyString || (quantity =? 0)
          then ({| product_body := product_error "Action and quantity are required";
                   product_status_code := 400 |}, s)
          else if String.eqb action "add"
          then commit_product product_id
                 (Product.increase_stock product quantity) s
          else if String.eqb action "subtract"
          then
            if negb (fst (Product.reduce_stock product quantity))
            then ({| product_body := product_error "Insufficient stock";
                     product_status_code := 400 |}, s)
            else commit_product product_id
                   (snd (Product.reduce_stock product quantity)) s
          else ({| product_body :=
                     product_error ("Invalid action. Use " ++ double_quote ++ "add"
                                      ++ double_quote ++ " or " ++ double_quote
                                      ++ "subtract" ++ double_quote);
                   product_status_code := 400 |}, s)
      | _, _ =>
          ({| product_body := product_error "Action and quantity are required";
              product_status_code := 400 |}, s)
      end
  end.

(** One request to a product route against the store. *)
Definition handle_product (view : Session -> ProductResponse * Session) (db : DB)
  : ProductResponse * DB :=
  let '(r, s) := view (session_begin db) in (r, session_remove s).

(** ** More notions used in the statements *)

(** A run of [update_status] calls, each with its target and its time,
    that all succeed. *)
Fixpoint update_status_run (self : Order.t) (targets : list (string * Z))
  : option Order.t :=
  match targets with
  | [] => Some self
  | (new_status, now) :: rest =>
      if fst (Order.update_status self new_status now)
      then update_status_run (snd (Order.update_status self new_status now)) rest
      else None
  end.

(** The dates an order has when its status says it has been shipped or
    delivered. *)
Definition dates_stamped (o : Order.t) : Prop :=
  (Order.status o = "Shipped"%string -> is_Some (Order.shipped_date o)) /\
  (Order.status o = "Delivered"%string ->
     is_Some (Order.shipped_date o) /\ is_Some (Order.delivered_date o)).

(** No product of the store has a negative stock. *)
Definition stocks_non_negative (db : DB) : Prop :=
  forall pid p, products db !! pid = Some p -> 0 <= Product.stock_quantity p.

(** A store with an order of two products, the second of which is gone. *)
Definition orphan_line : OrderItem.t :=
  {| OrderItem.id := 2;
     OrderItem.order_id := 1;
     OrderItem.product_id := 77;
     OrderItem.quantity := 1;
     OrderItem.unit_price := 1.00;
     OrderItem.line_total := 1.00 |}.

Definition shop_with_orphan_line : DB :=
  {| customers := customers shop_with_order;
     products := products shop_with_order;
     orders := orders shop_with_order;
     order_items := [first_line; orphan_line] |}.

(** [GET /api/orders/<order_id>] of [order_routes.py]: its handler answers
    404 for every exception and has no rollback. *)
Definition get_order (order_id : Z) (s : Session) : Response * Session :=
  match (_ ← Order_query_get_or_404 order_id; Order_to_dict order_id) s with
  | (Next order_json, s') => ({| body := order_json; status_code := 200 |}, s')
  | (Returned r, s') => (r, s')
  | (Raised e, s') => ({| body := error_str e; status_code := 404 |}, s')
  end.

Definition Product_query_get_or_404 (key : Z) : View Product.t :=
  w ← get_working;
  match products w !! key with
  | Some product => mret product
  | None => raise NotFound
  end.

(** [product.is_active = value]. *)
Definition set_is_active (self : Product.t) (value : bool) : Product.t :=
  {| Product.name := Product.name self;
     Product.sku := Product.sku self;
     Product.price := Product.price self;
     Product.cost := Product.cost self;
     Product.stock_quantity := Product.stock_quantity self;
     Product.low_stock_threshold := Product.low_stock_threshold self;
     Product.reorder_point := Product.reorder_point self;
     Product.is_active := value |}.

(** [DELETE /api/products/<product_id>] of [product_routes.py]: a soft
    delete. *)
Definition delete_product (product_id : Z) : Session -> Response * Session :=
  try_except (
    product ← Product_query_get_or_404 product_id;
    write_product product_id (set_is_active product false);;
    commit;;
    return_ (message "Product deleted successfully") 200).

(** The body of a stock request. *)
Definition stock_data (action : string) (quantity : Z) : StockData.t :=
  {| StockData.action := Some action; StockData.quantity := Some quantity |}.

(** A product bought at 2.50 whose price has been set to zero. *)
Definition free_sample : Product.t :=
  {| Product.name := "Sample";
     Product.sku := "S-1";
     Product.price := 0;
     Product.cost := Some 2.50%Q;
     Product.stock_quantity := 6;
     Product.low_stock_threshold := 10;
     Product.reorder_point := 20;
     Product.is_active := true |}.

(** The sample shop with that product. *)
Definition shop_with_free_sample : DB :=
  {| customers := customers shop;
     products := <[4 := free_sample]> (products shop);
     orders := orders shop;
     order_items := order_items shop |}.

(** The same shop with a Pending order of one such sample. *)
Definition sample_line : OrderItem.t :=
  {| OrderItem.id := 1;
     OrderItem.order_id := 1;
     OrderItem.product_id := 4;
     OrderItem.quantity := 1;
     OrderItem.unit_price := 0;
     OrderItem.line_total := 0 |}.

Definition shop_with_sample_order : DB :=
  {| customers := customers shop_with_free_sample;
     products := products shop_with_free_sample;
     orders := {[ 1 := first_order ]};
     order_items := [sample_line] |}.

(** The widget of the sample shop, bought at 12.00. *)
Definition widget_at_cost : Product.t :=
  {| Product.name := "Widget";
     Product.sku := "W-1";
     Product.price := 19.99;
     Product.cost := Some 12.00%Q;
     Product.stock_quantity := 10;
     Product.low_stock_threshold := 10;
     Product.reorder_point := 20;
     Product.is_active := true |}.

(** ** Running a view body *)

Lemma bind_run {A B} (m : View A) (f : A -> View B) (s : Session) :
  (m ≫= f) s =
  match m s with
  | (Next a, s') => f a s'
  | (Returned r, s') => (Returned r, s')
  | (Raised e, s') => (Raised e, s')
  end.
Proof. reflexivity. Qed.

Lemma ret_run {A} (a : A) (s : Session) : (mret a : View A) s = (Next a, s).
Proof. reflexivity. Qed.

Lemma return_run {A} (b : Body) (code : Z) (s : Session) :
  (return_ b code : View A) s =
  (Returned {| body := b; status_code := code |}, s).
Proof. reflexivity. Qed.

Lemma raise_run {A} (e : Exn) (s : Session) :
  (raise e : View A) s = (Raised e, s).
Proof. reflexivity. Qed.

Lemma get_working_run (s : Session) : get_working s = (Next (working s), s).
Proof. reflexivity. Qed.

Lemma put_working_run (w : DB) (s : Session) :
  put_working w s = (Next tt, {| committed := committed s; working := w |}).
Proof. reflexivity. Qed.

Lemma commit_run (s : Session) : commit s = (Next tt, session_commit s).
Proof. reflexivity. Qed.

Lemma Customer_query_get_run (key : Z) (s : Session) :
  Customer_query_get key s = (Next (customers (working s) !! key), s).
Proof. reflexivity. Qed.

Lemma Product_query_get_run (key : Z) (s : Session) :
  Product_query_get key s = (Next (products (working s) !! key), s).
Proof. reflexivity. Qed.

Lemma Order_query_get_or_404_run (key : Z) (s : Session) :
  Order_query_get_or_404 key s =
  match orders (working s) !! key with
  | Some order => (Next order, s)
  | None => (Raised NotFound, s)
  end.
Proof.
  unfold Order_query_get_or_404. rewrite bind_run, get_working_run.
  destruct (orders (working s) !! key); reflexivity.
Qed.

Lemma Order_items_run (key : Z) (s : Session) :
  Order_items key s = (Next (items_of key (order_items (working s))), s).
Proof. reflexivity. Qed.

(** *** Rendering *)

Lemma cost_test (c : Q) :
  negb (Qeq_bool c 0) && negb (Qle_bool c 0) = true <-> (0 < c)%Q.
Proof.
  rewrite Bool.andb_true_iff, !Bool.negb_true_iff. split.
  - intros [_ H]. apply Qnot_le_lt. intros Hle.
    apply Qle_bool_iff in Hle. congruence.
  - intros H. split; apply Bool.not_true_is_false; intros H'.
    + apply Qeq_bool_iff in H'. rewrite H' in H. exact (Qlt_irrefl 0 H).
    + apply Qle_bool_iff in H'. exact (Qlt_not_le _ _ H H').
Qed.

(** [profit_margin] raises exactly on a product sold for nothing, and then
    [DivisionByZero]. *)
Lemma profit_margin_outcome (p : Product.t) :
  (sold_for_nothing p /\ Product.profit_margin p = Raise DivisionByZero) \/
  (~ sold_for_nothing p /\ exists m, Product.profit_margin p = Ok m).
Proof.
  unfold sold_for_nothing, Product.profit_margin.
  destruct (Product.cost p) as [c|].
  2: { right. split; [intros (_ & c & H & _); discriminate H | eauto]. }
  pose proof (cost_test c) as Hc.
  destruct (negb (Qeq_bool c 0) && negb (Qle_bool c 0)).
  - assert (Hpos : (0 < c)%Q) by (apply Hc; reflexivity).
    destruct (Qeq_bool (Product.price p) 0) eqn:Hprice.
    + apply Qeq_bool_iff in Hprice. left. split; [| reflexivity].
      split; [exact Hprice | exists c; auto].
    + apply Qeq_bool_neq in Hprice. right. split; [| eauto].
      intros [H _]. contradiction.
  - right. split; [| eauto].
    intros (_ & c' & [= <-] & Hpos). apply Hc in Hpos. discriminate Hpos.
Qed.

Lemma OrderItem_to_dict_run (item : OrderItem.t) (s : Session) :
  OrderItem_to_dict item s =
  match products (working s) !! OrderItem.product_id item with
  | Some product =>
      match Product.profit_margin product with
      | Ok _ => (Next item, s)
      | Raise e => (Raised e, s)
      end
  | None => (Next item, s)
  end.
Proof.
  unfold OrderItem_to_dict. rewrite bind_run, Product_query_get_run.
  destruct (products (working s) !! OrderItem.product_id item) as [p|];
    [| reflexivity].
  unfold Product.to_dict. destruct (Product.profit_margin p); reflexivity.
Qed.

(** Rendering reads the session and leaves it as it is: it gives the items
    back, or raises at the first product sold for nothing. *)
Lemma items_to_dict_run (items : list OrderItem.t) (s : Session) :
  (renders (working s) items /\ items_to_dict items s = (Next items, s)) \/
  (~ renders (working s) items /\
   items_to_dict items s = (Raised DivisionByZero, s)).
Proof.
  unfold renders.
  induction items as [| item rest IH]; cbn [items_to_dict].
  - left. split; [constructor | reflexivity].
  - rewrite bind_run, OrderItem_to_dict_run.
    destruct (products (working s) !! OrderItem.product_id item) as [p|] eqn:Hp.
    + destruct (profit_margin_outcome p) as [[Hsold ->] | [Hok [m ->]]].
      * right. split; [| reflexivity].
        intros H. inversion H as [| x l Hx _]; subst. exact (Hx p Hp Hsold).
      * rewrite bind_run.
        destruct IH as [[Hr ->] | [Hr ->]].
        -- left. split; [| reflexivity].
           constructor; [| exact Hr]. intros p' Hp'.
           rewrite Hp in Hp'. injection Hp' as <-. exact Hok.
        -- right. split; [| reflexivity].
           intros H. inversion H; subst. contradiction.
    + rewrite bind_run.
      destruct IH as [[Hr ->] | [Hr ->]].
      * left. split; [| reflexivity].
        constructor; [| exact Hr]. intros p' Hp'. rewrite Hp in Hp'.
        discriminate Hp'.
      * right. split; [| reflexivity].
        intros H. inversion H; subst. contradiction.
Qed.

Lemma Order_to_dict_run (key : Z) (s : Session) :
  Order_to_dict key s =
  match orders (working s) !! key with
  | Some order =>
      match items_to_dict (items_of key (order_items (working s))) s with
      | (Next items_json, s') => (Next (order_dict key order items_json), s')
      | (Returned r, s') => (Returned r, s')
      | (Raised e, s') => (Raised e, s')
      end
  | None => (Raised NotFound, s)
  end.
Proof.
  unfold Order_to_dict. rewrite bind_run, Order_query_get_or_404_run.
  destruct (orders (working s) !! key); reflexivity.
Qed.

Lemma add_order_run (order : Order.t) (s : Session) :
  add_order order s =
  if order_number_taken (Order.order_number order) (orders (working s))
  then (Raised IntegrityError, s)
  else (Next (next_key (orders (working s))),
        {| committed := committed s;
           working :=
             {| customers := customers (working s);
                products := products (working s);
                orders := <[next_key (orders (working s)) := Order.row order]>
                            (orders (working s));
                order_items := order_items (working s) |} |}).
Proof.
  unfold add_order. rewrite bind_run, get_working_run.
  destruct (order_number_taken _ _); reflexivity.
Qed.

Lemma write_order_run (key : Z) (row : Order.t) (s : Session) :
  write_order key row s =
  (Next tt,
   {| committed := committed s;
      working :=
        {| customers := customers (working s);
           products := products (working s);
           orders := <[key := row]> (orders (working s));
           order_items := order_items (working s) |} |}).
Proof. reflexivity. Qed.

Lemma write_product_run (key : Z) (product : Product.t) (s : Session) :
  write_product key product s =
  (Next tt,
   {| committed := committed s;
      working :=
        {| customers := customers (working s);
           products := <[key := product]> (products (working s));
           orders := orders (working s);
           order_items := order_items (working s) |} |}).
Proof. reflexivity. Qed.

Lemma add_order_item_run (item : OrderItem.t) (s : Session) :
  add_order_item item s =
  (Next tt,
   {| committed := committed s;
      working :=
        {| customers := customers (working s);
           products := products (working s);
           orders := orders (working s);
           order_items :=
             order_items (working s)
               ++ [OrderItem.row (next_item_id (order_items (working s))) item] |} |}).
Proof. reflexivity. Qed.

Create Rewrite HintDb view.

#[local] Hint Rewrite @bind_run @ret_run @return_run @raise_run
  get_working_run put_working_run commit_run Customer_query_get_run
  Product_query_get_run Order_query_get_or_404_run Order_items_run
  Order_to_dict_run add_order_run write_order_run write_product_run
  add_order_item_run : view.

Ltac run_view :=
  repeat (autorewrite with view;
          cbn [working committed fst snd session_commit session_rollback
               session_remove session_begin customers products orders
               order_items]).


(** ** Keys *)

Lemma next_key_above {A} (m : gmap Z A) (k : Z) :
  is_Some (m !! k) -> k < next_key m.
Proof.
  unfold next_key.
  revert k.
  apply (map_fold_weak_ind
           (fun (b : Z) (m : gmap Z A) => forall k, is_Some (m !! k) -> k < 1 + b)).
  - intros k [x Hx]. rewrite lookup_empty in Hx. discriminate.
  - intros i x m' r _ IH k Hk.
    destruct (decide (i = k)) as [-> | Hne].
    + lia.
    + rewrite lookup_insert_ne in Hk by exact Hne.
      specialize (IH k Hk). lia.
Qed.

(** The key of an insert is not in the table: [add_order] overwrites no
    order. *)
Lemma next_key_fresh {A} (m : gmap Z A) : m !! next_key m = None.
Proof.
  destruct (m !! next_key m) eqn:E; [| reflexivity].
  assert (next_key m < next_key m) by (apply next_key_above; eauto).
  lia.
Qed.

(** ** Quantities *)

(** Splitting the rows kept by [f] into those kept by [f'] and those kept
    by [g], when [f] is the disjoint union of [f'] and [g]. *)
Lemma quantity_for_filter_split (pid : Z) (f f' g : OrderItem.t -> bool)
    (l : list OrderItem.t) :
  (forall r, In r l -> f r = orb (f' r) (g r) /\ andb (f' r) (g r) = false) ->
  quantity_for pid (List.filter f l) =
  quantity_for pid (List.filter f' l) + quantity_for pid (List.filter g l).
Proof.
  induction l as [| r l IH]; intros H; [reflexivity |].
  destruct (H r (or_introl eq_refl)) as [Hf Hd].
  assert (IH' := IH (fun r' Hr' => H r' (or_intror Hr'))).
  simpl. rewrite Hf.
  destruct (f' r), (g r); simpl in *; try discriminate;
    destruct (OrderItem.product_id r =? pid); lia.
Qed.

(** ** The loops *)

Lemma move_stock_0 (p : Product.t) : move_stock 0 p = p.
Proof.
  destruct p; unfold move_stock, Product.with_stock_quantity; simpl.
  f_equal; lia.
Qed.

Lemma move_stock_move_stock (n m : Z) (p : Product.t) :
  move_stock n (move_stock m p) = move_stock (m + n) p.
Proof.
  unfold move_stock, Product.with_stock_quantity; simpl. f_equal; lia.
Qed.

(** When the loop runs to its end on a list that is not empty, it has
    added an item. *)
Lemma create_order_items_added (order_id : Z) (item_data : ItemData.t)
    (rest : list ItemData.t) (s s' : Session) (added : list OrderItem.t) :
  create_order_items order_id (item_data :: rest) s = (Next added, s') ->
  exists item added', added = item :: added'.
Proof.
  simpl.
  destruct (ItemData.product_id item_data) as [product_id|]; [| discriminate].
  destruct (ItemData.quantity item_data) as [quantity|]; [| discriminate].
  run_view.
  destruct (products (working s) !! product_id) as [product|]; [| discriminate].
  destruct (Product.stock_quantity product <? quantity); [discriminate |].
  run_view.
  match goal with
  | |- context [create_order_items order_id rest ?s1] =>
      destruct (create_order_items order_id rest s1) as [[added'| |] s2]
  end; try discriminate.
  run_view. intros [= <- <-]. eauto.
Qed.

(** Whatever the loop does, the store itself is not touched. *)
Lemma create_order_items_committed (order_id : Z) (items : list ItemData.t)
    (s : Session) :
  committed (snd (create_order_items order_id items s)) = committed s.
Proof.
  revert s. induction items as [| item_data rest IH]; intros s; simpl;
    [reflexivity |].
  destruct (ItemData.product_id item_data) as [product_id|]; [| reflexivity].
  destruct (ItemData.quantity item_data) as [quantity|]; [| reflexivity].
  run_view.
  destruct (products (working s) !! product_id) as [product|];
    [| reflexivity].
  destruct (Product.stock_quantity product <? quantity); [reflexivity |].
  run_view.
  match goal with
  | |- context [create_order_items order_id rest ?s1] =>
      specialize (IH s1);
      destruct (create_order_items order_id rest s1) as [[added'| |] s2]
  end; run_view; exact IH.
Qed.

(** The loop never raises. *)
Lemma create_order_items_no_raise (order_id : Z) (items : list ItemData.t)
    (s : Session) (e : Exn) :
  fst (create_order_items order_id items s) <> Raised e.
Proof.
  revert s. induction items as [| item_data rest IH]; intros s; simpl;
    [discriminate |].
  destruct (ItemData.product_id item_data) as [product_id|]; [| discriminate].
  destruct (ItemData.quantity item_data) as [quantity|]; [| discriminate].
  run_view.
  destruct (products (working s) !! product_id) as [product|];
    [| discriminate].
  destruct (Product.stock_quantity product <? quantity); [discriminate |].
  run_view.
  match goal with
  | |- context [create_order_items order_id rest ?s1] =>
      specialize (IH s1);
      destruct (create_order_items order_id rest s1) as [[added'| |] s2]
  end; run_view; try discriminate. exact IH.
Qed.

(** A response the loop returns is one of its errors. *)
Lemma create_order_items_returns (order_id : Z) (items : list ItemData.t)
    (s : Session) (r : Response) :
  fst (create_order_items order_id items s) = Returned r ->
  status_code r = 400 \/ status_code r = 404.
Proof.
  revert s. induction items as [| item_data rest IH]; intros s; simpl;
    [discriminate |].
  destruct (ItemData.product_id item_data) as [product_id|];
    [| intros [= <-]; left; reflexivity].
  destruct (ItemData.quantity item_data) as [quantity|];
    [| intros [= <-]; left; reflexivity].
  run_view.
  destruct (products (working s) !! product_id) as [product|];
    [| intros [= <-]; right; reflexivity].
  destruct (Product.stock_quantity product <? quantity);
    [intros [= <-]; left; reflexivity |].
  run_view.
  match goal with
  | |- context [create_order_items order_id rest ?s1] =>
      specialize (IH s1);
      destruct (create_order_items order_id rest s1) as [[added'| |] s2]
  end; run_view; try discriminate. exact IH.
Qed.

(** What the loop of [create_order] has done in the session when it runs to
    its end. *)
Lemma create_order_items_next (order_id : Z) (items : list ItemData.t)
    (s s' : Session) (added : list OrderItem.t) :
  create_order_items order_id items s = (Next added, s') ->
  committed s' = committed s /\
  customers (working s') = customers (working s) /\
  orders (working s') = orders (working s) /\
  length added = length items /\
  exists rows,
    order_items (working s') = order_items (working s) ++ rows /\
    length rows = length items /\
    Forall (fun r => OrderItem.order_id r = order_id /\
                     is_Some (products (working s) !! OrderItem.product_id r)) rows /\
    forall pid,
      products (working s') !! pid =
      move_stock (- quantity_for pid rows) <$> products (working s) !! pid.
Proof.
  revert s added.
  induction items as [| item_data rest IH]; intros s added; simpl.
  - intros [= <- <-].
    split; [reflexivity | split; [reflexivity | split; [reflexivity |
      split; [reflexivity |]]]].
    exists []. rewrite app_nil_r.
    split; [reflexivity | split; [reflexivity | split; [constructor |]]].
    intros pid. simpl. destruct (products (working s) !! pid) as [p|]; simpl;
      [rewrite move_stock_0 |]; reflexivity.
  - destruct (ItemData.product_id item_data) as [product_id|];
      [| discriminate].
    destruct (ItemData.quantity item_data) as [quantity|]; [| discriminate].
    run_view.
    destruct (products (working s) !! product_id) as [product|] eqn:Hp;
      [| discriminate].
    destruct (Product.stock_quantity product <? quantity) eqn:Hlt;
      [discriminate |].
    run_view.
    match goal with
    | |- context [create_order_items order_id rest ?s1] =>
        set (s1' := s1);
        destruct (create_order_items order_id rest s1') as [[added'| |] s2] eqn:Hrest
    end; try discriminate.
    run_view. intros [= <- <-].
    destruct (IH _ _ Hrest)
      as (Hc & Hcu & Ho & Hlen & rows & Hrows & Hlr & Hall & Hprod).
    subst s1'; cbn [working committed customers orders order_items products] in *.
    split; [exact Hc | split; [exact Hcu | split; [exact Ho | split]]].
    { simpl. rewrite Hlen. reflexivity. }
    eexists (_ :: rows). split; [| split; [| split]].
    + rewrite Hrows, <- app_assoc. reflexivity.
    + simpl. rewrite Hlr. reflexivity.
    + constructor.
      * simpl. split; [reflexivity | rewrite Hp; eauto].
      * eapply Forall_impl; [exact Hall |]. simpl. intros r [Hr1 Hr2].
        split; [exact Hr1 |].
        destruct (decide (product_id = OrderItem.product_id r)) as [<- | Hne].
        -- rewrite Hp; eauto.
        -- rewrite lookup_insert_ne in Hr2 by exact Hne. exact Hr2.
    + intros pid. rewrite Hprod.
      cbn [quantity_for fold_right OrderItem.row OrderItem.product_id
           OrderItem.quantity OrderItem.calculate_line_total OrderItem.new].
      fold (quantity_for pid rows).
      unfold Product.reduce_stock.
      assert (Hge : (Product.stock_quantity product >=? quantity) = true) by lia.
      rewrite Hge. cbn [snd].
      destruct (decide (product_id = pid)) as [-> | Hne].
      * rewrite lookup_insert_eq, Hp, Z.eqb_refl. simpl.
        f_equal. unfold move_stock, Product.with_stock_quantity; simpl.
        f_equal; lia.
      * rewrite lookup_insert_ne by exact Hne.
        assert (Hneb : (product_id =? pid) = false) by lia.
        rewrite Hneb. reflexivity.
Qed.

(** ** Totals *)

(** Decimals add up to a Decimal. *)
Lemma sum_decimals_from (l : list Q) (q : Q) :
  exists q',
    fold_left (fun acc x => a ← acc; Py.add a x) (map Decimal l) (Ok (Decimal q))
    = Ok (Decimal q').
Proof.
  revert q. induction l as [| x l IH]; intros q; simpl.
  - exists q. reflexivity.
  - apply IH.
Qed.

Lemma sum_line_totals_decimal (item : OrderItem.t) (items : list OrderItem.t) :
  exists q,
    Py.sum (map (fun i => Decimal (OrderItem.line_total i)) (item :: items))
    = Ok (Decimal q).
Proof.
  unfold Py.sum. simpl. rewrite <- map_map. apply sum_decimals_from.
Qed.

(** With a line item, [calculate_totals] stops at the product of the
    subtotal, a Decimal, and the float [0.08]. *)
Lemma calculate_totals_with_items (o : Order.t) (item : OrderItem.t)
    (items : list OrderItem.t) :
  Order.calculate_totals o (item :: items) = Raise TypeError.
Proof.
  unfold Order.calculate_totals.
  destruct (sum_line_totals_decimal item items) as [q ->]. reflexivity.
Qed.

(** What the loop of [cancel_order] does when every item has its product. *)
Lemma restore_stock_next (items : list OrderItem.t) (s : Session) :
  Forall (fun r => is_Some (products (working s) !! OrderItem.product_id r)) items ->
  exists s',
    restore_stock items s = (Next tt, s') /\
    committed s' = committed s /\
    customers (working s') = customers (working s) /\
    orders (working s') = orders (working s) /\
    order_items (working s') = order_items (working s) /\
    forall pid,
      products (working s') !! pid =
      move_stock (quantity_for pid items) <$> products (working s) !! pid.
Proof.
  revert s. induction items as [| item rest IH]; intros s Hall; simpl.
  - exists s. repeat split. intros pid.
    destruct (products (working s) !! pid) as [p|]; simpl;
      [rewrite move_stock_0 |]; reflexivity.
  - inversion Hall as [| ? ? [product Hp] Hrest]; subst.
    run_view. rewrite Hp. run_view.
    match goal with
    | |- context [restore_stock rest ?s1] =>
        destruct (IH s1) as (s' & Hrun & Hc & Hcu & Ho & Hi & Hprod)
    end.
    { cbn [working products].
      eapply Forall_impl; [exact Hrest |]. simpl. intros r Hr.
      destruct (decide (OrderItem.product_id item = OrderItem.product_id r))
        as [<- | Hne].
      - rewrite lookup_insert_eq. eauto.
      - rewrite lookup_insert_ne by exact Hne. exact Hr. }
    exists s'. rewrite Hrun.
    cbn [working committed customers orders order_items products] in *.
    repeat split; try assumption.
    intros pid. rewrite Hprod.
    destruct (decide (OrderItem.product_id item = pid)) as [<- | Hne].
    + rewrite lookup_insert_eq, Hp, Z.eqb_refl. simpl. f_equal.
      unfold Product.increase_stock. fold (move_stock (OrderItem.quantity item) product).
      rewrite move_stock_move_stock. reflexivity.
    + rewrite lookup_insert_ne by exact Hne.
      assert (Hneb : (OrderItem.product_id item =? pid) = false) by lia.
      rewrite Hneb. reflexivity.
Qed.

(** ** The routes, run *)

Lemma create_order_run (env : Env) (data : OrderData.t) (cid : Z)
    (item_data : ItemData.t) (rest : list ItemData.t) (c : Customer.t)
    (s : Session) :
  OrderData.customer_id data = Some cid ->
  cid <> 0 ->
  OrderData.items data = Some (item_data :: rest) ->
  customers (working s) !! cid = Some c ->
  create_order env data s =
  let order := new_order env data cid in
  if order_number_taken (Order.order_number order) (orders (working s))
  then ({| body := error_str IntegrityError; status_code := 500 |},
        session_rollback s)
  else
    let key := next_key (orders (working s)) in
    let s1 :=
      {| committed := committed s;
         working :=
           {| customers := customers (working s);
              products := products (working s);
              orders := <[key := Order.row order]> (orders (working s));
              order_items := order_items (working s) |} |} in
    match create_order_items key (item_data :: rest) s1 with
    | (Next added, s2) =>
        match Order.calculate_totals order added with
        | Ok order' =>
            let row := Order.row order' in
            let w :=
              {| customers := customers (working s2);
                 products := products (working s2);
                 orders := <[key := row]> (orders (working s2));
                 order_items := order_items (working s2) |} in
            match items_to_dict (items_of key (order_items (working s2)))
                    {| committed := w; working := w |} with
            | (Next items_json, s3) =>
                ({| body := order_dict key row items_json; status_code := 201 |},
                 s3)
            | (Returned r, s3) => (r, s3)
            | (Raised e, s3) =>
                ({| body := error_str e; status_code := 500 |},
                 session_rollback s3)
            end
        | Raise e =>
            ({| body := error_str e; status_code := 500 |}, session_rollback s2)
        end
    | (Returned r, s2) => (r, s2)
    | (Raised e, s2) =>
        ({| body := error_str e; status_code := 500 |}, session_rollback s2)
    end.
Proof.
  intros Hcid Hnz Hitems Hc.
  unfold create_order, try_except. rewrite Hcid.
  assert (Hnzb : (cid =? 0) = false) by lia. rewrite Hnzb, Hitems.
  remember (item_data :: rest) as items eqn:Heq. clear Heq.
  run_view. rewrite Hc. run_view.
  cbv zeta.
  destruct (order_number_taken _ _); [reflexivity |].
  run_view.
  match goal with
  | |- context [create_order_items ?k items ?s1] =>
      destruct (create_order_items k items s1) as [[added| |] s2]
  end; [| reflexivity | reflexivity].
  run_view.
  destruct (Order.calculate_totals _ added) as [order'|e]; cbn [lift].
  - run_view. rewrite lookup_insert_eq.
    destruct (items_to_dict _ _) as [[items_json| |] s3]; reflexivity.
  - run_view. reflexivity.
Qed.

Lemma cancel_order_run (env : Env) (key : Z) (s : Session) :
  cancel_order env key s =
  match orders (working s) !! key with
  | None =>
      ({| body := error_str NotFound; status_code := 500 |}, session_rollback s)
  | Some order =>
      if negb (String.eqb (Order.status order) Order.STATUS_PENDING)
      then ({| body := error "Only pending orders can be cancelled";
               status_code := 400 |}, s)
      else
        match restore_stock (items_of key (order_items (working s))) s with
        | (Next _, s1) =>
            let w :=
              {| customers := customers (working s1);
                 products := products (working s1);
                 orders :=
                   <[key := snd (Order.update_status order
                                   Order.STATUS_CANCELLED (utcnow env))]>
                     (orders (working s1));
                 order_items := order_items (working s1) |} in
            ({| body := message "Order cancelled successfully";
                status_code := 200 |},
             {| committed := w; working := w |})
        | (Returned r, s1) => (r, s1)
        | (Raised e, s1) =>
            ({| body := error_str e; status_code := 500 |}, session_rollback s1)
        end
  end.
Proof.
  unfold cancel_order, try_except. run_view.
  destruct (orders (working s) !! key) as [order|]; [| reflexivity].
  destruct (negb (String.eqb (Order.status order) Order.STATUS_PENDING));
    [reflexivity |].
  run_view.
  destruct (restore_stock _ s) as [[[]| |] s1]; reflexivity.
Qed.

Lemma update_order_status_run (env : Env) (key : Z) (data : StatusData.t)
    (s : Session) :
  update_order_status env key data s =
  match orders (working s) !! key with
  | None =>
      ({| body := error_str NotFound; status_code := 500 |}, session_rollback s)
  | Some order =>
      match StatusData.status data with
      | None | Some EmptyString =>
          ({| body := error "status is required"; status_code := 400 |}, s)
      | Some new_status =>
          if negb (str_in new_status Order.VALID_STATUSES)
          then ({| body := error "Invalid status. Valid options: ['Pending', 'Processing', 'Shipped', 'Delivered', 'Cancelled']";
                   status_code := 400 |}, s)
          else if negb (Order.can_transition_to order new_status)
          then ({| body := error ("Cannot transition from " ++ Order.status order
                                    ++ " to " ++ new_status);
                   status_code := 400 |}, s)
          else
            let row := Order.set_status order new_status (utcnow env) in
            let w :=
              {| customers := customers (working s);
                 products := products (working s);
                 orders := <[key := row]> (orders (working s));
                 order_items := order_items (working s) |} in
            match items_to_dict (items_of key (order_items (working s)))
                    {| committed := w; working := w |} with
            | (Next items_json, s') =>
                ({| body := order_dict key row items_json; status_code := 200 |},
                 s')
            | (Returned r, s') => (r, s')
            | (Raised e, s') =>
                ({| body := error_str e; status_code := 500 |},
                 session_rollback s')
            end
      end
  end.
Proof.
  unfold update_order_status, try_except. run_view.
  destruct (orders (working s) !! key) as [order|]; [| reflexivity].
  destruct (StatusData.status data) as [[| a new_status]|];
    [reflexivity | | reflexivity].
  destruct (negb (str_in _ Order.VALID_STATUSES)); [reflexivity |].
  unfold Order.update_status.
  destruct (negb (Order.can_transition_to order _)); [reflexivity |].
  cbn [negb]. run_view. rewrite lookup_insert_eq.
  destruct (items_to_dict _ _) as [[items_json| |] s']; reflexivity.
Qed.


(** ** The stock ledger *)

(** C4.  [reduce_stock] succeeds if and only if the stock is at least the
    requested quantity (the same condition [create_order] tests before it
    reserves); on success the stock goes down by exactly that quantity and
    nothing else of the product changes; on failure the product is
    unchanged; and for a non-negative quantity a non-negative stock stays
    non-negative. *)
Theorem reduce_stock_reserves (p : Product.t) (quantity : Z) :
  let ok := fst (Product.reduce_stock p quantity) in
  let p' := snd (Product.reduce_stock p quantity) in
  (ok = true <-> Product.stock_quantity p >= quantity) /\
  (Product.stock_quantity p <? quantity) = negb ok /\
  (ok = true ->
     Product.stock_quantity p' = Product.stock_quantity p - quantity /\
     p' = Product.with_stock_quantity p (Product.stock_quantity p - quantity)) /\
  (ok = false -> p' = p) /\
  (0 <= quantity -> 0 <= Product.stock_quantity p ->
     0 <= Product.stock_quantity p').
Proof.
  unfold Product.reduce_stock.
  destruct (Z.geb_spec (Product.stock_quantity p) quantity) as [Hge | Hlt]; simpl.
  - repeat split; try lia; try discriminate.
  - repeat split; try lia; try discriminate; try reflexivity.
Qed.

(** C6, at an order with a line item.  The subtotal of the line totals is
    a Decimal, and [calculate_totals] multiplies it by the float [0.08]:
    the method raises [TypeError] and assigns neither [tax_amount] nor
    [total_amount].  It returns only for an order without line items. *)
Theorem calculate_totals_raises_type_error (o : Order.t) (item : OrderItem.t)
    (items : list OrderItem.t) :
  (exists q,
     Py.sum (map (fun i => Decimal (OrderItem.line_total i)) (item :: items))
     = Ok (Decimal q) /\
     Py.mul (Decimal q) (Float 0.08) = Raise TypeError) /\
  Order.calculate_totals o (item :: items) = Raise TypeError /\
  Order.calculate_totals first_order [first_line] = Raise TypeError.
Proof.
  split; [| split].
  - destruct (sum_line_totals_decimal item items) as [q Hq].
    exists q. split; [exact Hq | reflexivity].
  - apply calculate_totals_with_items.
  - apply calculate_totals_with_items.
Qed.

(** ** The status state machine *)

Ltac case_status s :=
  repeat match goal with
  | |- context [String.eqb s ?c] =>
      destruct (String.eqb_spec s c); [subst s |]
  end.

Lemma can_transition_to_table (o : Order.t) (new_status : string) :
  Order.can_transition_to o new_status = true <->
  transition_table (Order.status o) new_status.
Proof.
  unfold Order.can_transition_to, transition_table.
  generalize (Order.status o) as current; intros current.
  unfold str_in, Order.valid_transitions, Order.STATUS_PENDING,
    Order.STATUS_PROCESSING, Order.STATUS_SHIPPED, Order.STATUS_DELIVERED,
    Order.STATUS_CANCELLED.
  cbn [dict_get].
  case_status current; cbn [existsb]; case_status new_status;
    cbn [orb]; split; intros H; try discriminate; try reflexivity;
    try solve [intuition congruence].
Qed.

Lemma transition_table_valid (current target : string) :
  transition_table current target ->
  str_in target Order.VALID_STATUSES = true /\ target <> EmptyString.
Proof.
  unfold transition_table.
  intros [[_ [-> | ->]] | [[_ [-> | ->]] | [_ ->]]]; split;
    solve [reflexivity | discriminate].
Qed.

(** A valid transition through the route: the row is committed, and the
    answer is the order when its lines can be rendered, the division by
    zero of [profit_margin] when they cannot. *)
Lemma update_order_status_valid (env : Env) (key : Z) (db : DB) (o : Order.t)
    (new_status : string) :
  orders db !! key = Some o ->
  Order.can_transition_to o new_status = true ->
  let row := Order.set_status o new_status (utcnow env) in
  let db' :=
    {| customers := customers db;
       products := products db;
       orders := <[key := row]> (orders db);
       order_items := order_items db |} in
  snd (handle (update_order_status env key
                 {| StatusData.status := Some new_status |}) db) = db' /\
  (renders db (items_of key (order_items db)) ->
   fst (handle (update_order_status env key
                  {| StatusData.status := Some new_status |}) db) =
   {| body := order_dict key row (items_of key (order_items db));
      status_code := 200 |}) /\
  (~ renders db (items_of key (order_items db)) ->
   fst (handle (update_order_status env key
                  {| StatusData.status := Some new_status |}) db) =
   {| body := error_str DivisionByZero; status_code := 500 |}).
Proof.
  intros Ho Hcan row db'.
  destruct (transition_table_valid _ _
              (proj1 (can_transition_to_table o new_status) Hcan))
    as [Hvalid Hne].
  unfold handle. rewrite update_order_status_run.
  cbn [working session_begin StatusData.status]. rewrite Ho.
  destruct new_status as [| a rest]; [contradiction |].
  rewrite Hvalid, Hcan. cbn [negb]. fold row. fold db'.
  destruct (items_to_dict_run (items_of key (order_items db))
              {| committed := db'; working := db' |}) as [[Hr ->] | [Hr ->]];
    unfold renders in Hr; cbn [working products] in Hr;
    fold (renders db (items_of key (order_items db))) in Hr;
    cbn [fst snd session_remove session_rollback committed].
  - split; [reflexivity | split; [reflexivity |]].
    intros H. contradiction.
  - split; [reflexivity | split; [| reflexivity]].
    intros H. contradiction.
Qed.

Lemma set_status_fields (o : Order.t) (new_status : string) (now : Z) :
  let o' := Order.set_status o new_status now in
  Order.status o' = new_status /\
  Order.updated_at o' = now /\
  Order.shipped_date o' =
    (if decide (new_status = "Shipped"%string) then Some now
     else Order.shipped_date o) /\
  Order.delivered_date o' =
    (if decide (new_status = "Delivered"%string) then Some now
     else Order.delivered_date o) /\
  same_order_details o o'.
Proof.
  cbn [Order.set_status Order.status Order.updated_at Order.shipped_date
       Order.delivered_date].
  unfold Order.STATUS_SHIPPED, Order.STATUS_DELIVERED.
  repeat split.
  - destruct (String.eqb_spec new_status "Shipped"), (decide (new_status = "Shipped"%string));
      congruence.
  - destruct (String.eqb_spec new_status "Shipped") as [-> |];
      [destruct (decide ("Shipped"%string = "Delivered"%string)); [discriminate | reflexivity] |].
    destruct (String.eqb_spec new_status "Delivered"), (decide (new_status = "Delivered"%string));
      congruence.
Qed.

(** C3.  For an order [o] stored under [key] and a target status:
    [update_status] succeeds exactly when the target is in the transition
    table for the order's status (so never for the same status, nor for
    Pending to Shipped).  When it fails, the order is unchanged, the route
    answers 400 (with "Cannot transition from ... to ..." for every target
    among the valid statuses) and leaves the store as it was.  When it
    succeeds, the order gets the new status and [updated_at], [shipped_date]
    when the target is Shipped, [delivered_date] when it is Delivered, and
    keeps every other field; the route commits that row, so that the store
    differs only in it, and then renders its answer: 200 with that order
    when the lines of the order can be rendered, 500 with the division by
    zero of [profit_margin] when one of them is on a product with a price
    of zero and a positive cost.  In all cases the products, and with them
    every stock quantity, are unchanged. *)
Theorem update_status_follows_transition_table
    (env : Env) (key : Z) (db : DB) (o : Order.t) (new_status : string) :
  orders db !! key = Some o ->
  let now := utcnow env in
  let ok := fst (Order.update_status o new_status now) in
  let o' := snd (Order.update_status o new_status now) in
  let result :=
    handle (update_order_status env key {| StatusData.status := Some new_status |}) db in
  (ok = true <-> transition_table (Order.status o) new_status) /\
  ~ transition_table (Order.status o) (Order.status o) /\
  ~ transition_table "Pending" "Shipped" /\
  (ok = false ->
     o' = o /\
     status_code (fst result) = 400 /\
     (In new_status Order.VALID_STATUSES ->
        body (fst result) =
        error ("Cannot transition from " ++ Order.status o ++ " to " ++ new_status)) /\
     snd result = db) /\
  (ok = true ->
     Order.status o' = new_status /\
     Order.updated_at o' = now /\
     Order.shipped_date o' =
       (if decide (new_status = "Shipped"%string) then Some now
        else Order.shipped_date o) /\
     Order.delivered_date o' =
       (if decide (new_status = "Delivered"%string) then Some now
        else Order.delivered_date o) /\
     same_order_details o o' /\
     (renders db (items_of key (order_items db)) ->
      fst result =
        {| body := order_dict key o' (items_of key (order_items db));
           status_code := 200 |}) /\
     (~ renders db (items_of key (order_items db)) ->
      fst result =
        {| body := error_str DivisionByZero; status_code := 500 |}) /\
     snd result =
       {| customers := customers db;
          products := products db;
          orders := <[key := o']> (orders db);
          order_items := order_items db |}) /\
  products (snd result) = products db.
Proof.
  intros Ho now ok o' result.
  assert (Hok : ok = Order.can_transition_to o new_status).
  { unfold ok, Order.update_status.
    destruct (Order.can_transition_to o new_status); reflexivity. }
  assert (Hfail :
    Order.can_transition_to o new_status = false ->
    result =
    match new_status with
    | EmptyString =>
        ({| body := error "status is required"; status_code := 400 |}, db)
    | _ =>
        if negb (str_in new_status Order.VALID_STATUSES)
        then ({| body := error "Invalid status. Valid options: ['Pending', 'Processing', 'Shipped', 'Delivered', 'Cancelled']";
                 status_code := 400 |}, db)
        else ({| body := error ("Cannot transition from " ++ Order.status o
                                  ++ " to " ++ new_status);
                 status_code := 400 |}, db)
    end).
  { intros Hfalse. unfold result, handle. rewrite update_order_status_run.
    cbn [working session_begin StatusData.status]. rewrite Ho.
    destruct new_status as [| a rest]; [reflexivity |].
    destruct (negb (str_in _ _)); [reflexivity |].
    rewrite Hfalse. reflexivity. }
  split; [| split; [| split; [| split; [| split]]]].
  - rewrite Hok. apply can_transition_to_table.
  - unfold transition_table.
    intros [[-> [H | H]] | [[-> [H | H]] | [-> H]]]; discriminate.
  - unfold transition_table.
    intros [[_ [H | H]] | [[H _] | [H _]]]; discriminate.
  - intros Hfalse. rewrite Hok in Hfalse. specialize (Hfail Hfalse).
    split; [| split; [| split]].
    + unfold o', Order.update_status. rewrite Hfalse. reflexivity.
    + rewrite Hfail. destruct new_status; [reflexivity |].
      destruct (negb (str_in _ _)); reflexivity.
    + intros Hin. rewrite Hfail.
      assert (Hv : str_in new_status Order.VALID_STATUSES = true).
      { unfold str_in. apply existsb_exists. exists new_status.
        split; [exact Hin | apply String.eqb_refl]. }
      destruct new_status; [simpl in Hv; discriminate |].
      rewrite Hv. reflexivity.
    + rewrite Hfail. destruct new_status; [reflexivity |].
      destruct (negb (str_in _ _)); reflexivity.
  - intros Htrue. rewrite Hok in Htrue.
    assert (Ho' : o' = Order.set_status o new_status now).
    { unfold o', Order.update_status. rewrite Htrue. reflexivity. }
    rewrite Ho'.
    destruct (set_status_fields o new_status now) as (H1 & H2 & H3 & H4 & H5).
    repeat (split; [assumption |]).
    destruct (update_order_status_valid env key db o new_status Ho Htrue)
      as (Hstore & Hrender & Hraise).
    split; [exact Hrender | split; [exact Hraise | exact Hstore]].
  - destruct (Order.can_transition_to o new_status) eqn:Hcan.
    + destruct (update_order_status_valid env key db o new_status Ho Hcan)
        as (Hstore & _).
      unfold result. rewrite Hstore. reflexivity.
    + rewrite (Hfail eq_refl). destruct new_status; [reflexivity |].
      destruct (negb (str_in _ _)); reflexivity.
Qed.

(** The lines of the sample order can be rendered. *)
Lemma shop_with_order_renders :
  renders shop_with_order (items_of 1 (order_items shop_with_order)).
Proof.
  change (items_of 1 (order_items shop_with_order)) with [first_line].
  constructor; [| constructor].
  intros p Hp. vm_compute in Hp. injection Hp as <-.
  intros (_ & c & Hc & _). discriminate Hc.
Qed.

(** The sample sold for nothing cannot. *)
Lemma shop_with_sample_order_does_not_render :
  ~ renders shop_with_sample_order
      (items_of 1 (order_items shop_with_sample_order)).
Proof.
  change (items_of 1 (order_items shop_with_sample_order)) with [sample_line].
  intros H. inversion H as [| item rest Hitem _]; subst.
  apply (Hitem free_sample); [vm_compute; reflexivity |].
  split; [reflexivity | exists 2.50%Q; split; reflexivity].
Qed.

(** The order of the sample shop goes from Pending to Processing, not to
    Shipped; and the order of one free sample goes to Processing with an
    answer of 500. *)
Lemma update_status_follows_transition_table_witness :
  exists o,
    orders shop_with_order !! 1 = Some o /\
    Order.status o = "Pending"%string /\
    status_code
      (fst (handle (update_order_status tuesday 1
                      {| StatusData.status := Some "Processing"%string |})
              shop_with_order)) = 200 /\
    status_code
      (fst (handle (update_order_status tuesday 1
                      {| StatusData.status := Some "Shipped"%string |})
              shop_with_order)) = 400 /\
    fst (handle (update_order_status tuesday 1
                   {| StatusData.status := Some "Processing"%string |})
           shop_with_sample_order) =
      {| body := error_str DivisionByZero; status_code := 500 |} /\
    Order.status <$>
      orders (snd (handle (update_order_status tuesday 1
                             {| StatusData.status := Some "Processing"%string |})
                     shop_with_sample_order)) !! 1 = Some "Processing"%string.
Proof.
  destruct (orders shop_with_order !! 1) as [o|] eqn:Ho;
    [| vm_compute in Ho; discriminate].
  exists o.
  pose proof (update_status_follows_transition_table tuesday 1 shop_with_order o
                "Processing" Ho) as Hp.
  pose proof (update_status_follows_transition_table tuesday 1 shop_with_order o
                "Shipped" Ho) as Hs.
  assert (Ho' : orders shop_with_sample_order !! 1 = Some first_order)
    by (vm_compute; reflexivity).
  pose proof (update_status_follows_transition_table tuesday 1
                shop_with_sample_order first_order "Processing" Ho') as Hf.
  assert (Hst : Order.status o = "Pending"%string).
  { vm_compute in Ho. injection Ho as <-. reflexivity. }
  cbv zeta in Hp, Hs, Hf.
  destruct Hp as (Hp1 & _ & _ & _ & Hp5 & _).
  destruct Hs as (Hs1 & _ & Hs3 & Hs4 & _).
  destruct Hf as (_ & _ & _ & _ & Hf5 & _).
  split; [reflexivity | split; [exact Hst | split; [| split; [| split]]]].
  - destruct Hp5 as (_ & _ & _ & _ & _ & Hr & _).
    + apply Hp1. rewrite Hst. left. split; [reflexivity | left; reflexivity].
    + rewrite (Hr shop_with_order_renders). reflexivity.
  - apply Hs4.
    destruct (fst (Order.update_status o "Shipped" (utcnow tuesday))) eqn:E;
      [| reflexivity].
    exfalso. apply Hs3. rewrite <- Hst. apply Hs1. reflexivity.
  - destruct (Hf5 eq_refl) as (_ & _ & _ & _ & _ & _ & Hraise & _).
    exact (Hraise shop_with_sample_order_does_not_render).
  - destruct (Hf5 eq_refl) as (_ & _ & _ & _ & _ & _ & _ & Hstore).
    rewrite Hstore. cbn [orders]. rewrite lookup_insert_eq. reflexivity.
Defined.

(** ** Order creation *)

(** An answer other than 201 comes with a store that is not written.  The
    early returns and the exceptions before the commit leave the committed
    store alone.  Past the commit the answer could still be the 500 of a
    rendering that raises, with the order stored; the route does not get
    there: when the loop ends it has added an item, and [calculate_totals]
    raises on it. *)
Lemma create_order_committed (env : Env) (data : OrderData.t) (s : Session) :
  status_code (fst (create_order env data s)) <> 201 ->
  committed (snd (create_order env data s)) = committed s.
Proof.
  destruct (OrderData.customer_id data) as [cid|] eqn:Hcid.
  2: { unfold create_order, try_except. rewrite Hcid. reflexivity. }
  destruct (Z.eqb_spec cid 0) as [-> | Hnz].
  { unfold create_order, try_except. rewrite Hcid. reflexivity. }
  destruct (OrderData.items data) as [[| item_data rest]|] eqn:Hitems.
  1, 3: unfold create_order, try_except; rewrite Hcid, Hitems;
        destruct (cid =? 0); reflexivity.
  destruct (customers (working s) !! cid) as [c|] eqn:Hc.
  2: { unfold create_order, try_except. rewrite Hcid, Hitems.
       destruct (cid =? 0); [reflexivity |].
       run_view. rewrite Hc. reflexivity. }
  rewrite (create_order_run env data cid item_data rest c s Hcid Hnz Hitems Hc).
  cbv zeta.
  destruct (order_number_taken _ _); [reflexivity |].
  match goal with
  | |- context [create_order_items ?k ?l ?s1] =>
      pose proof (create_order_items_committed k l s1) as Hcm;
      destruct (create_order_items k l s1) as [[added| |] s2] eqn:Hloop
  end; cbn [fst snd status_code committed session_rollback] in *.
  - destruct (create_order_items_added _ _ _ _ _ _ Hloop) as (item & added' & ->).
    rewrite calculate_totals_with_items.
    cbn [fst snd status_code committed session_rollback].
    intros _. exact Hcm.
  - intros _. exact Hcm.
  - intros _. exact Hcm.
Qed.

(** No request gets as far as the commit: the loop has added an item when
    it ends, and [calculate_totals] raises on it. *)
Lemma create_order_never_created (env : Env) (data : OrderData.t) (s : Session) :
  status_code (fst (create_order env data s)) <> 201.
Proof.
  destruct (OrderData.customer_id data) as [cid|] eqn:Hcid.
  2: { unfold create_order, try_except. rewrite Hcid. discriminate. }
  destruct (Z.eqb_spec cid 0) as [-> | Hnz].
  { unfold create_order, try_except. rewrite Hcid. discriminate. }
  destruct (OrderData.items data) as [[| item_data rest]|] eqn:Hitems.
  1, 3: unfold create_order, try_except; rewrite Hcid, Hitems;
        destruct (cid =? 0); discriminate.
  destruct (customers (working s) !! cid) as [c|] eqn:Hc.
  2: { unfold create_order, try_except. rewrite Hcid, Hitems.
       destruct (cid =? 0); [discriminate |].
       run_view. rewrite Hc. discriminate. }
  rewrite (create_order_run env data cid item_data rest c s Hcid Hnz Hitems Hc).
  cbv zeta.
  destruct (order_number_taken _ _); [discriminate |].
  match goal with
  | |- context [create_order_items ?k ?l ?s1] =>
      pose proof (create_order_items_no_raise k l s1) as Hnr;
      destruct (create_order_items k l s1) as [[added| |] s2] eqn:Hloop
  end; cbn [fst] in *.
  - destruct (create_order_items_added _ _ _ _ _ _ Hloop) as (item & added' & ->).
    rewrite calculate_totals_with_items. discriminate.
  - match type of Hloop with
    | create_order_items ?k ?l ?s1 = _ =>
        destruct (create_order_items_returns k l s1 r) as [E | E];
          [rewrite Hloop; reflexivity | |]; rewrite E; discriminate
    end.
  - exfalso. apply (Hnr e). reflexivity.
Qed.

Lemma create_order_unchanged (env : Env) (data : OrderData.t) (db : DB) :
  snd (handle (create_order env data) db) = db.
Proof.
  unfold handle.
  pose proof (create_order_committed env data (session_begin db)) as H.
  pose proof (create_order_never_created env data (session_begin db)) as H'.
  destruct (create_order env data (session_begin db)) as [r s].
  exact (H H').
Qed.

(** C1.  [create_order] is all-or-nothing: whenever the response is not the
    201 of a created order (an entry without product_id or quantity, a
    product that is not found, insufficient stock on any line, or any other
    failure), the store after the request is the store before it; no order,
    no line item and no stock change of an earlier line is kept. *)
Theorem create_order_all_or_nothing (env : Env) (data : OrderData.t) (db : DB) :
  status_code (fst (handle (create_order env data) db)) <> 201 ->
  snd (handle (create_order env data) db) = db.
Proof.
  unfold handle.
  pose proof (create_order_committed env data (session_begin db)) as H.
  destruct (create_order env data (session_begin db)) as [r s].
  exact H.
Qed.

(** Three lines, the third of which asks for more than the stock: when the
    view returns, its session holds the reservations of the first two lines
    (widgets 10 to 8, gadgets 4 to 3); the store never sees them. *)
Lemma create_order_all_or_nothing_witness :
  let data := order_data (Some 1) (Some [line 1 2; line 2 1; line 3 100]) in
  fst (handle (create_order monday data) shop) =
    {| body := error "Insufficient stock for product Gizmo"; status_code := 400 |} /\
  stock_of (working (snd (create_order monday data (session_begin shop)))) 1 = 8 /\
  stock_of (working (snd (create_order monday data (session_begin shop)))) 2 = 3 /\
  snd (handle (create_order monday data) shop) = shop.
Proof.
  split; [| split; [| split]].
  - vm_compute. reflexivity.
  - vm_compute. reflexivity.
  - vm_compute. reflexivity.
  - apply create_order_all_or_nothing. vm_compute. discriminate.
Defined.

(** C9, as the code has it.  [create_order] checks, in this order: that
    [customer_id] is present and not zero, that [items] is a non-empty
    list, and then that the customer exists.  For a request whose customer
    does not resolve the response is therefore 400 "customer_id is
    required" when the id is absent or zero, 400 "items array is required"
    when the items are absent, not a list or empty, and 404 "Customer not
    found" otherwise (whatever the entries of the list; they are checked
    later); the store is unchanged in every case. *)
Theorem create_order_validation_order (env : Env) (data : OrderData.t) (db : DB) :
  (forall cid, OrderData.customer_id data = Some cid -> customers db !! cid = None) ->
  handle (create_order env data) db =
  (match OrderData.customer_id data with
   | None => {| body := error "customer_id is required"; status_code := 400 |}
   | Some cid =>
       if cid =? 0
       then {| body := error "customer_id is required"; status_code := 400 |}
       else
         match OrderData.items data with
         | None | Some [] =>
             {| body := error "items array is required"; status_code := 400 |}
         | Some (_ :: _) =>
             {| body := error "Customer not found"; status_code := 404 |}
         end
   end, db).
Proof.
  intros Hnone. unfold handle, create_order, try_except.
  destruct (OrderData.customer_id data) as [cid|]; [| reflexivity].
  specialize (Hnone cid eq_refl).
  destruct (cid =? 0); [reflexivity |].
  destruct (OrderData.items data) as [[| item_data rest]|]; try reflexivity.
  run_view. rewrite Hnone. reflexivity.
Qed.

Lemma create_order_validation_order_witness :
  handle (create_order monday (order_data (Some 99) (Some [line 1 2]))) shop =
  ({| body := error "Customer not found"; status_code := 404 |}, shop).
Proof.
  apply (create_order_validation_order monday
           (order_data (Some 99) (Some [line 1 2])) shop).
  intros cid [= <-]. vm_compute. reflexivity.
Defined.

(** C9, as stated, fails: customer 99 does not resolve, and with an empty or
    a missing items list the response is the 400 of the items check, not
    "Customer not found". *)
Lemma create_order_items_checked_before_customer :
  customers shop !! 99 = None /\
  fst (handle (create_order monday (order_data (Some 99) (Some []))) shop) =
    {| body := error "items array is required"; status_code := 400 |} /\
  fst (handle (create_order monday (order_data (Some 99) None)) shop) =
    {| body := error "items array is required"; status_code := 400 |} /\
  fst (handle (create_order monday (order_data (Some 99) (Some []))) shop) <>
    {| body := error "Customer not found"; status_code := 404 |}.
Proof. vm_compute. repeat split. discriminate. Qed.

(** C8, as the code has it.  When the insert of the new order is refused
    because its generated number is already in the table, [create_order]
    makes no second attempt: it rolls back and answers 500 with the text of
    the exception, and the store is unchanged. *)
Theorem create_order_number_conflict (env : Env) (data : OrderData.t) (db : DB)
    (cid : Z) (c : Customer.t) (item_data : ItemData.t) (rest : list ItemData.t) :
  OrderData.customer_id data = Some cid ->
  cid <> 0 ->
  OrderData.items data = Some (item_data :: rest) ->
  customers db !! cid = Some c ->
  order_number_taken
    (Order.generate_order_number (utcnow env) (random_choices env))
    (orders db) = true ->
  handle (create_order env data) db =
  ({| body := error_str IntegrityError; status_code := 500 |}, db).
Proof.
  intros Hcid Hnz Hitems Hc Htaken. unfold handle.
  rewrite (create_order_run env data cid item_data rest c (session_begin db)
             Hcid Hnz Hitems Hc).
  cbn [working session_begin new_order Order.order_number].
  cbv zeta. cbn [Order.order_number]. rewrite Htaken. reflexivity.
Qed.

Lemma create_order_number_conflict_witness :
  handle (create_order monday (order_data (Some 1) (Some [line 2 1]))) shop_with_order =
  ({| body := error_str IntegrityError; status_code := 500 |}, shop_with_order).
Proof.
  apply (create_order_number_conflict monday
           (order_data (Some 1) (Some [line 2 1])) shop_with_order
           1 ada (line 2 1) []).
  - reflexivity.
  - lia.
  - reflexivity.
  - vm_compute. reflexivity.
  - vm_compute. reflexivity.
Defined.

(** C8, as stated, fails: the number generated on [monday] is taken, the
    one a second attempt would generate from [monday_again] is free, and
    the caller gets the conflict of the first attempt as a 500; a retry
    would not have ended on that conflict. *)
Lemma create_order_does_not_retry :
  let data := order_data (Some 1) (Some [line 2 1]) in
  order_number_taken
    (Order.generate_order_number (utcnow monday) (random_choices monday))
    (orders shop_with_order) = true /\
  order_number_taken
    (Order.generate_order_number (utcnow monday_again) (random_choices monday_again))
    (orders shop_with_order) = false /\
  fst (handle (create_order monday data) shop_with_order) =
    {| body := error_str IntegrityError; status_code := 500 |} /\
  body (fst (create_order_with_retry monday monday_again data shop_with_order)) <>
    error_str IntegrityError.
Proof.
  vm_compute. repeat split. discriminate.
Qed.

(** ** The effect of a request on the store *)

Lemma quantity_for_absent (pid : Z) (rows : list OrderItem.t) :
  Forall (fun r => OrderItem.product_id r <> pid) rows ->
  quantity_for pid rows = 0.
Proof.
  induction 1 as [| r rows Hr _ IH]; [reflexivity |].
  simpl. fold (quantity_for pid rows). rewrite IH.
  assert (E : (OrderItem.product_id r =? pid) = false) by lia.
  rewrite E. reflexivity.
Qed.

(** The store after [cancel_order] of a Pending order whose line items
    have their products. *)
Lemma cancel_order_pending (env : Env) (key : Z) (db : DB) (o : Order.t) :
  orders db !! key = Some o ->
  Order.status o = "Pending"%string ->
  Forall (fun r => is_Some (products db !! OrderItem.product_id r))
         (items_of key (order_items db)) ->
  exists products',
    (forall pid,
       products' !! pid =
       move_stock (quantity_for pid (items_of key (order_items db)))
         <$> products db !! pid) /\
    handle (cancel_order env key) db =
    ({| body := message "Order cancelled successfully"; status_code := 200 |},
     {| customers := customers db;
        products := products';
        orders := <[key := Order.set_status o "Cancelled" (utcnow env)]> (orders db);
        order_items := order_items db |}).
Proof.
  intros Ho Hst Hall.
  destruct (restore_stock_next _ (session_begin db) Hall)
    as (s' & Hrun & Hc & Hcu & Hor & Hit & Hprod).
  cbn [working session_begin] in *.
  exists (products (working s')). split; [exact Hprod |].
  unfold handle. rewrite cancel_order_run.
  cbn [working session_begin]. rewrite Ho, Hst.
  cbn [String.eqb Ascii.eqb Bool.eqb negb Order.STATUS_PENDING].
  rewrite Hrun.
  unfold Order.update_status, Order.can_transition_to. rewrite Hst.
  cbn [session_remove committed snd]. rewrite Hcu, Hor, Hit. reflexivity.
Qed.

Lemma cancel_order_not_pending (env : Env) (key : Z) (db : DB) (o : Order.t) :
  orders db !! key = Some o ->
  Order.status o <> "Pending"%string ->
  handle (cancel_order env key) db =
  ({| body := error "Only pending orders can be cancelled"; status_code := 400 |},
   db).
Proof.
  intros Ho Hst. unfold handle. rewrite cancel_order_run.
  cbn [working session_begin]. rewrite Ho.
  destruct (String.eqb_spec (Order.status o) Order.STATUS_PENDING) as [E | _];
    [contradiction |].
  reflexivity.
Qed.

Lemma cancel_order_missing (env : Env) (key : Z) (db : DB) :
  orders db !! key = None ->
  handle (cancel_order env key) db =
  ({| body := error_str NotFound; status_code := 500 |}, db).
Proof.
  intros Ho. unfold handle. rewrite cancel_order_run.
  cbn [working session_begin]. rewrite Ho. reflexivity.
Qed.

(** ** Cancellation *)

(** C5.  For an order [o] stored under [key]: when its status is not
    Pending (Processing included), [cancel_order] answers 400 "Only pending
    orders can be cancelled" and leaves the store unchanged.  When it is
    Pending and the products of its line items are in the store, the route
    answers 200, every product's stock goes up by the quantities of the
    order's lines for that product, the order becomes Cancelled and nothing
    else changes; a second cancellation of the same order fails with the
    400 above. *)
Theorem cancel_order_only_pending
    (env : Env) (key : Z) (db : DB) (o : Order.t) :
  orders db !! key = Some o ->
  let result := handle (cancel_order env key) db in
  let lines := items_of key (order_items db) in
  (Order.status o <> "Pending"%string ->
     result =
     ({| body := error "Only pending orders can be cancelled";
         status_code := 400 |}, db)) /\
  (Order.status o = "Pending"%string ->
   Forall (fun r => is_Some (products db !! OrderItem.product_id r)) lines ->
     fst result =
       {| body := message "Order cancelled successfully"; status_code := 200 |} /\
     customers (snd result) = customers db /\
     order_items (snd result) = order_items db /\
     orders (snd result) =
       <[key := Order.set_status o "Cancelled" (utcnow env)]> (orders db) /\
     (forall pid,
        products (snd result) !! pid =
        move_stock (quantity_for pid lines) <$> products db !! pid) /\
     (forall env',
        handle (cancel_order env' key) (snd result) =
        ({| body := error "Only pending orders can be cancelled";
            status_code := 400 |}, snd result))).
Proof.
  intros Ho result lines. split.
  - intros Hst. apply (cancel_order_not_pending env key db o Ho Hst).
  - intros Hst Hall.
    destruct (cancel_order_pending env key db o Ho Hst Hall)
      as (products' & Hprod & Hres).
    unfold result. rewrite Hres.
    cbn [fst snd customers products orders order_items].
    repeat split; try assumption.
    intros env'.
    apply (cancel_order_not_pending env' key _
             (Order.set_status o "Cancelled" (utcnow env))).
    + cbn [orders]. apply lookup_insert_eq.
    + discriminate.
Qed.

(** The order of the sample shop, cancelled on [tuesday]: the two widgets
    go back to the shelf. *)
Lemma cancel_order_only_pending_witness :
  exists o,
    orders shop_with_order !! 1 = Some o /\
    stock_of shop_with_order 1 = 8 /\
    stock_of (snd (handle (cancel_order tuesday 1) shop_with_order)) 1 = 10 /\
    fst (handle (cancel_order tuesday 1)
           (snd (handle (cancel_order tuesday 1) shop_with_order))) =
      {| body := error "Only pending orders can be cancelled";
         status_code := 400 |}.
Proof.
  destruct (orders shop_with_order !! 1) as [o|] eqn:Ho;
    [| vm_compute in Ho; discriminate].
  exists o.
  assert (Hst : Order.status o = "Pending"%string).
  { vm_compute in Ho. injection Ho as <-. reflexivity. }
  destruct (cancel_order_only_pending tuesday 1 shop_with_order o Ho)
    as [_ Hpending].
  destruct (Hpending Hst) as (_ & _ & _ & _ & _ & Hagain).
  { vm_compute. repeat constructor. eexists. reflexivity. }
  split; [reflexivity | split; [| split]].
  - vm_compute. reflexivity.
  - vm_compute. reflexivity.
  - rewrite Hagain. reflexivity.
Defined.

(** ** Conservation of stock *)

Lemma stock_of_moved (db db' : DB) (pid n : Z) :
  products db' !! pid = move_stock n <$> products db !! pid ->
  (products db !! pid = None -> n = 0) ->
  stock_of db' pid = stock_of db pid + n.
Proof.
  unfold stock_of. intros -> Hn.
  destruct (products db !! pid) as [p|]; simpl; [reflexivity |].
  rewrite Hn by reflexivity. reflexivity.
Qed.

Lemma quantity_for_missing_product (db : DB) (pid : Z) (rows : list OrderItem.t) :
  Forall (fun r => is_Some (products db !! OrderItem.product_id r)) rows ->
  products db !! pid = None ->
  quantity_for pid rows = 0.
Proof.
  intros Hall Hnone. apply quantity_for_absent.
  eapply Forall_impl; [exact Hall |]. simpl.
  intros r [p Hp] E. rewrite E, Hnone in Hp. discriminate.
Qed.

Lemma is_Some_moved {n : Z} (m m' : gmap Z Product.t) (pid : Z) :
  m' !! pid = move_stock n <$> m !! pid ->
  is_Some (m' !! pid) <-> is_Some (m !! pid).
Proof. intros ->. apply fmap_is_Some. Qed.

Lemma cancel_order_conserves (env : Env) (key : Z) (db : DB) :
  foreign_keys_ok db ->
  foreign_keys_ok (snd (handle (cancel_order env key) db)) /\
  (forall pid,
     is_Some (products (snd (handle (cancel_order env key) db)) !! pid) <->
     is_Some (products db !! pid)) /\
  (forall pid,
     stock_of (snd (handle (cancel_order env key) db)) pid
       + active_quantity (snd (handle (cancel_order env key) db)) pid =
     stock_of db pid + active_quantity db pid).
Proof.
  intros Hfk.
  destruct (orders db !! key) as [o|] eqn:Ho.
  2: { rewrite cancel_order_missing by exact Ho.
       split; [exact Hfk | split; intros; reflexivity]. }
  destruct (decide (Order.status o = "Pending"%string)) as [Hst | Hst].
  2: { rewrite (cancel_order_not_pending env key db o Ho Hst).
       split; [exact Hfk | split; intros; reflexivity]. }
  assert (Hall : Forall (fun r => is_Some (products db !! OrderItem.product_id r))
                        (items_of key (order_items db))).
  { apply List.Forall_forall. intros r Hr.
    apply List.filter_In in Hr. destruct Hr as [Hr _].
    apply (Hfk r Hr). }
  destruct (cancel_order_pending env key db o Ho Hst Hall)
    as (products' & Hprod & ->).
  cbn [snd].
  set (o' := Order.set_status o "Cancelled" (utcnow env)).
  assert (Hdom : forall pid,
            is_Some (products' !! pid) <-> is_Some (products db !! pid)).
  { intros pid. eapply is_Some_moved. apply Hprod. }
  split; [| split; [exact Hdom |]].
  - intros r Hr. cbn [order_items orders products] in *.
    destruct (Hfk r Hr) as [Hor Hp]. rewrite Hdom. split; [| exact Hp].
    destruct (decide (key = OrderItem.order_id r)) as [<- | Hne].
    + rewrite lookup_insert_eq. eauto.
    + rewrite lookup_insert_ne by exact Hne. exact Hor.
  - intros pid.
    match goal with
    | |- stock_of ?d pid + _ = _ => set (db' := d)
    end.
    assert (Hstock : stock_of db' pid =
                     stock_of db pid + quantity_for pid (items_of key (order_items db))).
    { apply stock_of_moved; [apply Hprod |].
      intros Hnone. apply (quantity_for_missing_product db); assumption. }
    assert (Hact : active_quantity db pid =
                   active_quantity db' pid
                     + quantity_for pid (items_of key (order_items db))).
    { unfold active_quantity, items_of. cbn [order_items db'].
      apply quantity_for_filter_split. intros r _.
      unfold order_active. cbn [orders db'].
      destruct (Z.eqb_spec (OrderItem.order_id r) key) as [-> | Hne].
      - rewrite lookup_insert_eq, Ho, Hst. split; reflexivity.
      - rewrite lookup_insert_ne by (intros E; apply Hne; symmetry; exact E).
        rewrite orb_false_r, andb_false_r. split; reflexivity. }
    lia.
Qed.

Lemma quantity_for_app (pid : Z) (l l' : list OrderItem.t) :
  quantity_for pid (l ++ l') = quantity_for pid l + quantity_for pid l'.
Proof.
  induction l as [| r l IH]; simpl; [reflexivity |].
  fold (quantity_for pid (l ++ l')). fold (quantity_for pid l).
  rewrite IH. destruct (OrderItem.product_id r =? pid); lia.
Qed.

Lemma filter_all {A} (f : A -> bool) (l : list A) :
  Forall (fun x => f x = true) l -> List.filter f l = l.
Proof.
  induction 1 as [| x l Hx _ IH]; simpl; [reflexivity |].
  rewrite Hx, IH. reflexivity.
Qed.

Lemma filter_none {A} (f : A -> bool) (l : list A) :
  Forall (fun x => f x = false) l -> List.filter f l = [].
Proof.
  induction 1 as [| x l Hx _ IH]; simpl; [reflexivity |].
  rewrite Hx, IH. reflexivity.
Qed.

(** The session of [create_order] once the order is added and the loop
    has run to its end, against the store it started from: the rows added
    are the order's, they hold what has left the stock, and the order is
    active. *)
Lemma create_order_reserves (env : Env) (data : OrderData.t) (cid : Z) (db : DB)
    (items : list ItemData.t) (key : Z) (s1 s2 : Session)
    (added : list OrderItem.t) :
  foreign_keys_ok db ->
  add_order (new_order env data cid) (session_begin db) = (Next key, s1) ->
  create_order_items key items s1 = (Next added, s2) ->
  committed s2 = db /\
  order_active (working s2) key = true /\
  length (items_of key (order_items (working s2))) = length items /\
  forall pid,
    stock_of (working s2) pid =
      stock_of db pid - quantity_for pid (items_of key (order_items (working s2))) /\
    active_quantity (working s2) pid =
      active_quantity db pid
        + quantity_for pid (items_of key (order_items (working s2))).
Proof.
  intros Hfk Hadd Hloop.
  rewrite add_order_run in Hadd. cbn [working committed session_begin] in Hadd.
  destruct (order_number_taken _ _); [discriminate |].
  injection Hadd as <- <-.
  set (key := next_key (orders db)) in *.
  destruct (create_order_items_next _ _ _ _ _ Hloop)
    as (Hc & _ & Ho & _ & rows & Hrows & Hlr & Hall & Hprod).
  cbn [working committed customers products orders order_items] in *.
  assert (Hfresh : orders db !! key = None) by apply next_key_fresh.
  assert (Hold : Forall (fun r => OrderItem.order_id r <> key) (order_items db)).
  { apply List.Forall_forall. intros r Hr E.
    destruct (Hfk r Hr) as [[o Hor] _]. rewrite E, Hfresh in Hor. discriminate. }
  assert (Hitems : items_of key (order_items (working s2)) = rows).
  { unfold items_of. rewrite Hrows, List.filter_app.
    rewrite filter_none, filter_all; [reflexivity | |].
    - eapply Forall_impl; [exact Hall |]. simpl. intros r [E _]. lia.
    - eapply Forall_impl; [exact Hold |]. simpl. intros r E. lia. }
  assert (Hact : order_active (working s2) key = true).
  { unfold order_active. rewrite Ho, lookup_insert_eq. reflexivity. }
  rewrite Hitems.
  split; [exact Hc | split; [exact Hact | split; [exact Hlr |]]].
  intros pid. split.
  - replace (stock_of db pid - quantity_for pid rows)
      with (stock_of db pid + - quantity_for pid rows) by lia.
    apply stock_of_moved; [apply Hprod |].
    intros Hnone.
    assert (quantity_for pid rows = 0); [| lia].
    apply quantity_for_absent.
    eapply Forall_impl; [exact Hall |]. simpl.
    intros r [_ [p Hp]] E. rewrite E, Hnone in Hp. discriminate.
  - unfold active_quantity. rewrite Hrows, List.filter_app, quantity_for_app.
    f_equal.
    + f_equal. apply List.filter_ext_in. intros r Hr.
      unfold order_active. rewrite Ho.
      rewrite lookup_insert_ne; [reflexivity |].
      intros E. rewrite List.Forall_forall in Hold.
      apply (Hold r Hr). symmetry. exact E.
    + rewrite filter_all; [reflexivity |].
      eapply Forall_impl; [exact Hall |]. simpl.
      intros r [E _]. rewrite E. exact Hact.
Qed.



(** ** The loop, one line at a time *)

(** One turn of the loop of [create_order] on a line that passes the stock
    check, from any state of the session: the item is added, the stock
    moves, and the loop goes on with the rest of the lines. *)
Lemma create_order_items_step (order_id pid quantity : Z) (rest : list ItemData.t)
    (s : Session) (p : Product.t) :
  products (working s) !! pid = Some p ->
  (Product.stock_quantity p <? quantity) = false ->
  create_order_items order_id (line pid quantity :: rest) s =
  let item :=
    OrderItem.calculate_line_total
      (OrderItem.new order_id pid quantity (Product.price p)) in
  (added ← create_order_items order_id rest; mret (item :: added))
    {| committed := committed s;
       working :=
         {| customers := customers (working s);
            products := <[pid := move_stock (- quantity) p]> (products (working s));
            orders := orders (working s);
            order_items :=
              order_items (working s)
                ++ [OrderItem.row (next_item_id (order_items (working s))) item] |} |}.
Proof.
  intros Hp Hlt.
  cbn [create_order_items line ItemData.product_id ItemData.quantity].
  rewrite bind_run, Product_query_get_run, Hp, Hlt.
  rewrite bind_run, write_product_run, bind_run, add_order_item_run.
  unfold Product.reduce_stock.
  assert (Hge : (Product.stock_quantity p >=? quantity) = true) by lia.
  rewrite Hge. reflexivity.
Qed.

(** ** The end-to-end example *)

(** C7, at its own input.  Customer 1 exists, the widget costs 19.99 and 10
    are in stock, the request asks for 3 with no shipping amount.  The loop
    reserves the stock in the session, then [calculate_totals] raises
    [TypeError] on the product of the Decimal subtotal and the float
    [0.08]; the route rolls back and answers 500: no order, and the stock
    is still 10.  The same holds of every request: none is answered 201 and
    none changes the store. *)
Theorem create_order_example_raises :
  let data := order_data (Some 1) (Some [line 1 3]) in
  customers shop !! 1 = Some ada /\
  products shop !! 1 = Some (product "Widget" "W-1" 19.99 10) /\
  handle (create_order monday data) shop =
    ({| body := error_str TypeError; status_code := 500 |}, shop) /\
  stock_of (snd (handle (create_order monday data) shop)) 1 = 10 /\
  (forall env data' db,
     status_code (fst (handle (create_order env data') db)) <> 201 /\
     snd (handle (create_order env data') db) = db).
Proof.
  cbv zeta. split; [vm_compute; reflexivity |].
  split; [vm_compute; reflexivity |].
  split; [vm_compute; reflexivity |].
  split; [vm_compute; reflexivity |].
  intros env data' db. split.
  - unfold handle.
    pose proof (create_order_never_created env data' (session_begin db)) as H.
    destruct (create_order env data' (session_begin db)). exact H.
  - apply create_order_unchanged.
Qed.

(** ** Quantities that are not positive *)

(** C10, at a line of quantity -4 for the widget (stock 10).  The line
    passes the stock check and the loop, whatever the state of the session,
    adds the line item and moves the stock by 4 in the session; then
    [calculate_totals] raises [TypeError], the route rolls back and answers
    500, and the store has neither the line item nor the stock of 14.
    Cancelling an order that holds such a line does take the 4 back. *)
Theorem create_order_nonpositive_quantity_rolled_back :
  let data := order_data (Some 1) (Some [line 1 (-4)]) in
  (Product.stock_quantity (product "Widget" "W-1" 19.99 10) <? -4) = false /\
  (forall order_id pid q rest s p,
     products (working s) !! pid = Some p ->
     0 <= Product.stock_quantity p ->
     q <= 0 ->
     create_order_items order_id (line pid q :: rest) s =
     let item :=
       OrderItem.calculate_line_total
         (OrderItem.new order_id pid q (Product.price p)) in
     (added ← create_order_items order_id rest; mret (item :: added))
       {| committed := committed s;
          working :=
            {| customers := customers (working s);
               products := <[pid := move_stock (- q) p]> (products (working s));
               orders := orders (working s);
               order_items :=
                 order_items (working s)
                   ++ [OrderItem.row (next_item_id (order_items (working s))) item] |} |}) /\
  stock_of (working (snd (create_order_items 1 [line 1 (-4)] (session_begin shop)))) 1 = 14 /\
  handle (create_order monday data) shop =
    ({| body := error_str TypeError; status_code := 500 |}, shop) /\
  stock_of (snd (handle (create_order monday data) shop)) 1 = 10 /\
  order_items (snd (handle (create_order monday data) shop)) = [] /\
  stock_of shop_with_negative_order 1 = 14 /\
  stock_of (snd (handle (cancel_order tuesday 1) shop_with_negative_order)) 1 = 10.
Proof.
  cbv zeta. split; [reflexivity |].
  split.
  { intros order_id pid q rest s p Hp Hstock Hq.
    apply create_order_items_step; [exact Hp | lia]. }
  repeat (split; [vm_compute; reflexivity |]).
  vm_compute. reflexivity.
Qed.

(** * Further properties of the code *)

(** ** The life of an order *)

(** The five pairs of the transition table. *)
Lemma transition_table_cases (current target : string) :
  transition_table current target ->
  (current = "Pending"%string /\ target = "Processing"%string) \/
  (current = "Pending"%string /\ target = "Cancelled"%string) \/
  (current = "Processing"%string /\ target = "Shipped"%string) \/
  (current = "Processing"%string /\ target = "Cancelled"%string) \/
  (current = "Shipped"%string /\ target = "Delivered"%string).
Proof. unfold transition_table. intuition. Qed.

Lemma update_status_success (o : Order.t) (new_status : string) (now : Z) :
  fst (Order.update_status o new_status now) = true ->
  transition_table (Order.status o) new_status /\
  snd (Order.update_status o new_status now) = Order.set_status o new_status now.
Proof.
  unfold Order.update_status.
  destruct (Order.can_transition_to o new_status) eqn:E; [| discriminate].
  intros _. split; [apply can_transition_to_table; exact E | reflexivity].
Qed.

Lemma update_status_run_length (targets : list (string * Z)) :
  forall (o o' : Order.t),
    update_status_run o targets = Some o' ->
    (length targets <=
     if String.eqb (Order.status o) "Pending" then 3
     else if String.eqb (Order.status o) "Processing" then 2
     else if String.eqb (Order.status o) "Shipped" then 1
     else 0)%nat.
Proof.
  induction targets as [| [new_status now] rest IH]; intros o o' Hrun.
  - simpl. lia.
  - simpl in Hrun.
    destruct (fst (Order.update_status o new_status now)) eqn:Hok;
      [| discriminate].
    destruct (update_status_success o new_status now Hok) as [Htable Hset].
    specialize (IH _ _ Hrun). rewrite Hset in IH.
    cbn [Order.set_status Order.status] in IH.
    destruct (transition_table_cases _ _ Htable)
      as [[Hc Ht] | [[Hc Ht] | [[Hc Ht] | [[Hc Ht] | [Hc Ht]]]]];
      rewrite Hc; rewrite Ht in IH; simpl in *; lia.
Qed.

(** X1.  However the targets are chosen, at most three [update_status]
    calls in a row can succeed on an order (at most two once it is
    Processing, one once it is Shipped, none once it is Delivered or
    Cancelled), and no successful call leads to Pending: an order never
    goes back, and every order comes to rest. *)
Theorem update_status_run_bounded (o o' : Order.t) (targets : list (string * Z)) :
  update_status_run o targets = Some o' ->
  (length targets <= 3)%nat /\
  (Order.status o = "Processing"%string -> (length targets <= 2)%nat) /\
  (Order.status o = "Shipped"%string -> (length targets <= 1)%nat) /\
  (Order.status o = "Delivered"%string \/ Order.status o = "Cancelled"%string ->
     targets = [] /\ o' = o) /\
  (targets <> [] -> Order.status o' <> "Pending"%string).
Proof.
  intros Hrun. pose proof (update_status_run_length targets o o' Hrun) as Hlen.
  split; [| split; [| split; [| split]]].
  - destruct (String.eqb (Order.status o) "Pending"); [exact Hlen |].
    destruct (String.eqb (Order.status o) "Processing"); [lia |].
    destruct (String.eqb (Order.status o) "Shipped"); lia.
  - intros E. rewrite E in Hlen. exact Hlen.
  - intros E. rewrite E in Hlen. exact Hlen.
  - intros E.
    assert (Hnil : targets = []).
    { destruct E as [E | E]; rewrite E in Hlen; simpl in Hlen;
        destruct targets; [reflexivity | simpl in Hlen; lia
                          | reflexivity | simpl in Hlen; lia]. }
    subst targets. simpl in Hrun. injection Hrun as <-. split; reflexivity.
  - clear Hlen. revert o Hrun.
    induction targets as [| [new_status now] rest IH]; intros o Hrun Hne;
      [contradiction |].
    simpl in Hrun.
    destruct (fst (Order.update_status o new_status now)) eqn:Hok;
      [| discriminate].
    destruct (update_status_success o new_status now Hok) as [Htable Hset].
    destruct rest as [| t rest'].
    + simpl in Hrun. injection Hrun as <-. rewrite Hset.
      cbn [Order.set_status Order.status].
      destruct (transition_table_cases _ _ Htable)
        as [[_ Ht] | [[_ Ht] | [[_ Ht] | [[_ Ht] | [_ Ht]]]]];
        rewrite Ht; discriminate.
    + apply (IH _ Hrun). discriminate.
Qed.

(** The order of the sample shop goes all the way to Delivered. *)
Lemma update_status_run_bounded_witness :
  exists o',
    update_status_run first_order
      [("Processing"%string, 10); ("Shipped"%string, 20); ("Delivered"%string, 30)]
    = Some o' /\
    Order.status o' = "Delivered"%string /\
    update_status_run o' [("Cancelled"%string, 40)] = None.
Proof.
  destruct (update_status_run first_order
              [("Processing"%string, 10); ("Shipped"%string, 20);
               ("Delivered"%string, 30)]) as [o'|] eqn:Hrun;
    [| vm_compute in Hrun; discriminate].
  exists o'.
  pose proof (update_status_run_bounded first_order o' _ Hrun) as [Hlen _].
  split; [reflexivity |].
  vm_compute in Hrun. injection Hrun as <-.
  split; reflexivity.
Defined.

(** X2.  [update_status] keeps the dates in step with the status: if a
    Shipped order has its [shipped_date] and a Delivered one both its
    dates, the same is true after any call, successful or not; and no call
    on a Shipped order changes its [shipped_date]. *)
Theorem update_status_keeps_dates (o : Order.t) (new_status : string) (now : Z) :
  dates_stamped o ->
  dates_stamped (snd (Order.update_status o new_status now)) /\
  (Order.status o = "Shipped"%string ->
   Order.shipped_date (snd (Order.update_status o new_status now)) =
   Order.shipped_date o).
Proof.
  intros [Hshipped Hdelivered].
  unfold Order.update_status.
  destruct (Order.can_transition_to o new_status) eqn:E; cbn [negb snd].
  2: { split; [split; assumption | reflexivity]. }
  apply can_transition_to_table in E.
  destruct (set_status_fields o new_status now) as (Hst & _ & Hsh & Hdel & _).
  unfold dates_stamped. rewrite Hst, Hsh, Hdel.
  destruct (transition_table_cases _ _ E)
    as [[Hc ->] | [[Hc ->] | [[Hc ->] | [[Hc ->] | [Hc ->]]]]].
  - split; [split; discriminate | rewrite Hc; discriminate].
  - split; [split; discriminate | rewrite Hc; discriminate].
  - split; [split; [intros _; simpl; eauto | discriminate]
           | rewrite Hc; discriminate].
  - split; [split; discriminate | rewrite Hc; discriminate].
  - split; [split; [discriminate |] |].
    + intros _. simpl. split; [apply Hshipped; exact Hc | eauto].
    + intros _. reflexivity.
Qed.

(** The sample order, Pending and without dates, is shipped. *)
Lemma update_status_keeps_dates_witness :
  dates_stamped first_order /\
  dates_stamped
    (snd (Order.update_status
            (snd (Order.update_status first_order "Processing" 10)) "Shipped" 20)).
Proof.
  assert (H0 : dates_stamped first_order).
  { split; intros E; vm_compute in E; discriminate. }
  split; [exact H0 |].
  apply update_status_keeps_dates.
  apply (update_status_keeps_dates first_order "Processing" 10 H0).
Defined.

(** ** The stock ledger, continued *)

(** X3.  Reserving and releasing undo each other: after a successful
    [reduce_stock], [increase_stock] of the same quantity gives the product
    back; and after [increase_stock], [reduce_stock] of the same quantity
    succeeds and gives the product back exactly when the stock was not
    negative to begin with. *)
Theorem reduce_increase_round_trip (p : Product.t) (quantity : Z) :
  (fst (Product.reduce_stock p quantity) = true ->
   Product.increase_stock (snd (Product.reduce_stock p quantity)) quantity = p) /\
  (0 <= Product.stock_quantity p ->
   Product.reduce_stock (Product.increase_stock p quantity) quantity = (true, p)) /\
  (Product.stock_quantity p < 0 ->
   Product.reduce_stock (Product.increase_stock p quantity) quantity =
   (false, Product.increase_stock p quantity)).
Proof.
  unfold Product.reduce_stock, Product.increase_stock.
  split; [| split].
  - destruct (Z.geb_spec (Product.stock_quantity p) quantity); [| discriminate].
    intros _. cbn [snd]. destruct p; unfold Product.with_stock_quantity; simpl.
    f_equal. lia.
  - intros H. cbn [Product.with_stock_quantity Product.stock_quantity].
    assert (E : (Product.stock_quantity p + quantity >=? quantity) = true) by lia.
    rewrite E. f_equal.
    destruct p; unfold Product.with_stock_quantity; simpl. f_equal. lia.
  - intros H. cbn [Product.with_stock_quantity Product.stock_quantity].
    assert (E : (Product.stock_quantity p + quantity >=? quantity) = false) by lia.
    rewrite E. reflexivity.
Qed.

Lemma reduce_increase_round_trip_witness :
  Product.increase_stock
    (snd (Product.reduce_stock (product "Widget" "W-1" 19.99 10) 4)) 4
  = product "Widget" "W-1" 19.99 10 /\
  Product.reduce_stock
    (Product.increase_stock (product "Widget" "W-1" 19.99 10) 4) 4
  = (true, product "Widget" "W-1" 19.99 10).
Proof.
  destruct (reduce_increase_round_trip (product "Widget" "W-1" 19.99 10) 4)
    as (H1 & H2 & _).
  split; [apply H1; reflexivity | apply H2; simpl; lia].
Defined.

(** X4.  [increase_stock] has no guard, and [reduce_stock] none on the sign
    of the quantity.  Taking more than the stock is refused by
    [reduce_stock] and goes through as [increase_stock] of the negated
    quantity, which leaves a negative stock; and [reduce_stock] of a
    negative quantity succeeds on a non-negative stock and raises it. *)
Theorem stock_guard_is_one_sided (p : Product.t) (quantity : Z) :
  0 <= Product.stock_quantity p ->
  Product.stock_quantity p < quantity ->
  Product.reduce_stock p quantity = (false, p) /\
  Product.stock_quantity (Product.increase_stock p (- quantity)) =
    Product.stock_quantity p - quantity /\
  Product.stock_quantity (Product.increase_stock p (- quantity)) < 0 /\
  fst (Product.reduce_stock p (- quantity)) = true /\
  Product.stock_quantity (snd (Product.reduce_stock p (- quantity))) =
    Product.stock_quantity p + quantity.
Proof.
  intros Hpos Hlt. unfold Product.reduce_stock, Product.increase_stock.
  assert (E1 : (Product.stock_quantity p >=? quantity) = false) by lia.
  assert (E2 : (Product.stock_quantity p >=? - quantity) = true) by lia.
  rewrite E1, E2. simpl. repeat split; lia.
Qed.

Lemma stock_guard_is_one_sided_witness :
  Product.reduce_stock (product "Widget" "W-1" 19.99 10) 15 =
    (false, product "Widget" "W-1" 19.99 10) /\
  Product.stock_quantity
    (Product.increase_stock (product "Widget" "W-1" 19.99 10) (- 15)) = -5.
Proof.
  destruct (stock_guard_is_one_sided (product "Widget" "W-1" 19.99 10) 15)
    as (H1 & H2 & _); [simpl; lia | simpl; lia |].
  split; [exact H1 | exact H2].
Defined.

(** X5.  Low stock and reordering.  When the low-stock threshold is not
    above the reorder point (10 and 20 by default), a product that is low
    on stock also needs reordering.  Taking a non-negative quantity out
    never ends either condition, and putting a non-negative quantity in
    never starts one. *)
Theorem low_stock_is_monotone (p : Product.t) (quantity : Z) :
  0 <= quantity ->
  (Product.low_stock_threshold p <= Product.reorder_point p ->
   Product.is_low_stock p = true -> Product.needs_reorder p = true) /\
  (Product.is_low_stock p = true ->
   Product.is_low_stock (snd (Product.reduce_stock p quantity)) = true) /\
  (Product.needs_reorder p = true ->
   Product.needs_reorder (snd (Product.reduce_stock p quantity)) = true) /\
  (Product.is_low_stock p = false ->
   Product.is_low_stock (Product.increase_stock p quantity) = false) /\
  (Product.needs_reorder p = false ->
   Product.needs_reorder (Product.increase_stock p quantity) = false).
Proof.
  intros Hq.
  unfold Product.is_low_stock, Product.needs_reorder, Product.reduce_stock,
    Product.increase_stock.
  destruct (Product.stock_quantity p >=? quantity);
    cbn [snd Product.with_stock_quantity Product.stock_quantity
         Product.low_stock_threshold Product.reorder_point];
    repeat split; intros; lia.
Qed.

Lemma low_stock_is_monotone_witness :
  Product.is_low_stock (product "Widget" "W-1" 19.99 10) = true /\
  Product.needs_reorder (product "Widget" "W-1" 19.99 10) = true /\
  Product.is_low_stock
    (snd (Product.reduce_stock (product "Widget" "W-1" 19.99 10) 3)) = true.
Proof.
  destruct (low_stock_is_monotone (product "Widget" "W-1" 19.99 10) 3)
    as (H1 & H2 & _); [lia |].
  split; [reflexivity | split].
  - apply H1; [simpl; lia | reflexivity].
  - apply H2. reflexivity.
Defined.

(** ** Cancellation, continued *)

Lemma restore_stock_committed (items : list OrderItem.t) (s : Session) :
  committed (snd (restore_stock items s)) = committed s.
Proof.
  revert s. induction items as [| item rest IH]; intros s; simpl;
    [reflexivity |].
  run_view.
  destruct (products (working s) !! OrderItem.product_id item) as [product|];
    [| reflexivity].
  run_view.
  match goal with
  | |- context [restore_stock rest ?s1] =>
      specialize (IH s1); destruct (restore_stock rest s1) as [[[]| |] s2]
  end; exact IH.
Qed.

Lemma cancel_order_committed (env : Env) (key : Z) (s : Session) :
  status_code (fst (cancel_order env key s)) <> 200 ->
  committed (snd (cancel_order env key s)) = committed s.
Proof.
  rewrite cancel_order_run.
  destruct (orders (working s) !! key) as [order|]; [| reflexivity].
  destruct (negb (String.eqb (Order.status order) Order.STATUS_PENDING));
    [reflexivity |].
  pose proof (restore_stock_committed (items_of key (order_items (working s))) s)
    as Hcm.
  destruct (restore_stock _ s) as [[[]| |] s1]; cbn [fst snd status_code] in *.
  - intros H. contradiction H. reflexivity.
  - intros _. exact Hcm.
  - intros _. exact Hcm.
Qed.

Lemma restore_stock_no_return (items : list OrderItem.t) (s : Session)
    (r : Response) (s' : Session) :
  restore_stock items s <> (Returned r, s').
Proof.
  revert s. induction items as [| item rest IH]; intros s; simpl.
  - discriminate.
  - run_view.
    destruct (products (working s) !! OrderItem.product_id item) as [product|];
      [| discriminate].
    run_view.
    match goal with
    | |- context [restore_stock rest ?s1] =>
        specialize (IH s1); destruct (restore_stock rest s1) as [[[]| |] s2]
    end; try discriminate.
    exact IH.
Qed.

(** After its 200, the order is in the store, Cancelled. *)
Lemma cancel_order_success (env : Env) (key : Z) (db : DB) :
  status_code (fst (handle (cancel_order env key) db)) = 200 ->
  exists o, orders (snd (handle (cancel_order env key) db)) !! key = Some o /\
            Order.status o = "Cancelled"%string.
Proof.
  unfold handle. rewrite cancel_order_run. cbn [working session_begin].
  destruct (orders db !! key) as [order|]; [| discriminate].
  destruct (String.eqb_spec (Order.status order) Order.STATUS_PENDING)
    as [Hst | Hst]; [| discriminate].
  cbn [negb].
  pose proof (restore_stock_no_return (items_of key (order_items db))
                (session_begin db)) as Hnr.
  destruct (restore_stock _ (session_begin db)) as [[[]| r |] s1].
  - intros _. cbn [fst snd session_remove committed orders].
    eexists. split; [apply lookup_insert_eq |].
    unfold Order.update_status, Order.can_transition_to. rewrite Hst.
    reflexivity.
  - exfalso. exact (Hnr r s1 eq_refl).
  - discriminate.
Qed.

(** The response of [cancel_order] does not depend on the clock. *)
Lemma cancel_order_response (env env' : Env) (key : Z) (s : Session) :
  fst (cancel_order env key s) = fst (cancel_order env' key s).
Proof.
  rewrite !cancel_order_run.
  destruct (orders (working s) !! key) as [order|]; [| reflexivity].
  destruct (negb (String.eqb (Order.status order) Order.STATUS_PENDING));
    [reflexivity |].
  destruct (restore_stock _ s) as [[[]| |] s1]; reflexivity.
Qed.

(** X6.  [cancel_order] is all-or-nothing: whenever the response is not its
    200, the store after the request is the store before it.  That covers
    an order that is missing or not Pending, and an order with a line whose
    product is gone: the stock the loop has given back for the lines before
    it is rolled back. *)
Theorem cancel_order_all_or_nothing (env : Env) (key : Z) (db : DB) :
  status_code (fst (handle (cancel_order env key) db)) <> 200 ->
  snd (handle (cancel_order env key) db) = db.
Proof.
  unfold handle.
  pose proof (cancel_order_committed env key (session_begin db)) as H.
  destruct (cancel_order env key (session_begin db)) as [r s].
  exact H.
Qed.

(** An order of two lines; the product of the second is not in the store. *)
Lemma cancel_order_all_or_nothing_witness :
  fst (handle (cancel_order tuesday 1) shop_with_orphan_line) =
    {| body := error_str AttributeError; status_code := 500 |} /\
  snd (handle (cancel_order tuesday 1) shop_with_orphan_line) =
    shop_with_orphan_line.
Proof.
  split.
  - vm_compute. reflexivity.
  - apply cancel_order_all_or_nothing. vm_compute. discriminate.
Defined.

(** X7.  Cancelling twice is cancelling once: whatever the store, the
    order and the times of the two requests, the second [cancel_order] of
    the same order leaves the store as the first has left it. *)
Theorem cancel_order_idempotent (env env' : Env) (key : Z) (db : DB) :
  snd (handle (cancel_order env' key) (snd (handle (cancel_order env key) db))) =
  snd (handle (cancel_order env key) db).
Proof.
  destruct (decide (status_code (fst (handle (cancel_order env key) db)) = 200))
    as [H200 | Hne].
  - destruct (cancel_order_success env key db H200) as [o [Ho Hst]].
    rewrite (cancel_order_not_pending env' key _ o Ho); [reflexivity |].
    rewrite Hst. discriminate.
  - assert (Hsame : snd (handle (cancel_order env key) db) = db).
    { unfold handle.
      pose proof (cancel_order_committed env key (session_begin db)) as H.
      unfold handle in Hne.
      destruct (cancel_order env key (session_begin db)) as [r s].
      exact (H Hne). }
    rewrite Hsame.
    unfold handle in *.
    pose proof (cancel_order_committed env' key (session_begin db)) as H.
    rewrite (cancel_order_response env' env key (session_begin db)) in H.
    destruct (cancel_order env key (session_begin db)) as [r s].
    destruct (cancel_order env' key (session_begin db)) as [r' s'].
    exact (H Hne).
Qed.

(** ** The order routes, continued *)

(** X8.  An order id that is not in the store: [get_or_404] raises inside
    the [try], the handler for [Exception] catches it, and both
    [update_order_status] and [cancel_order] answer 500 with the text of
    the exception, not 404; the body of the request is not looked at.
    [get_order], whose handler answers 404 for every exception, does give
    404 for the same id.  None of them changes the store. *)
Theorem unknown_order_is_a_500 (env : Env) (key : Z) (data : StatusData.t) (db : DB) :
  orders db !! key = None ->
  handle (update_order_status env key data) db =
    ({| body := error_str NotFound; status_code := 500 |}, db) /\
  handle (cancel_order env key) db =
    ({| body := error_str NotFound; status_code := 500 |}, db) /\
  handle (get_order key) db =
    ({| body := error_str NotFound; status_code := 404 |}, db).
Proof.
  intros Ho. split; [| split].
  - unfold handle. rewrite update_order_status_run.
    cbn [working session_begin]. rewrite Ho. reflexivity.
  - apply cancel_order_missing. exact Ho.
  - unfold handle, get_order. run_view.
    cbn [working session_begin]. rewrite Ho. reflexivity.
Qed.

Lemma unknown_order_is_a_500_witness :
  handle (update_order_status tuesday 5 {| StatusData.status := None |})
         shop_with_order =
    ({| body := error_str NotFound; status_code := 500 |}, shop_with_order) /\
  handle (cancel_order tuesday 5) shop_with_order =
    ({| body := error_str NotFound; status_code := 500 |}, shop_with_order) /\
  handle (get_order 5) shop_with_order =
    ({| body := error_str NotFound; status_code := 404 |}, shop_with_order).
Proof.
  apply (unknown_order_is_a_500 tuesday 5 {| StatusData.status := None |}
           shop_with_order).
  vm_compute. reflexivity.
Defined.

(** X9.  The checks of [update_order_status] on the body, for an order
    that exists, whatever its status: a status that is missing or empty is
    answered 400 "status is required"; a status that is not one of the five
    names, written as they are, is answered 400 "Invalid status..." before
    the transition is looked at.  Neither changes the store. *)
Theorem update_order_status_checks_body
    (env : Env) (key : Z) (db : DB) (o : Order.t) (new_status : string) :
  orders db !! key = Some o ->
  handle (update_order_status env key {| StatusData.status := None |}) db =
    ({| body := error "status is required"; status_code := 400 |}, db) /\
  handle (update_order_status env key {| StatusData.status := Some EmptyString |}) db =
    ({| body := error "status is required"; status_code := 400 |}, db) /\
  (new_status <> EmptyString ->
   ~ In new_status Order.VALID_STATUSES ->
   handle (update_order_status env key {| StatusData.status := Some new_status |}) db =
     ({| body := error "Invalid status. Valid options: ['Pending', 'Processing', 'Shipped', 'Delivered', 'Cancelled']";
         status_code := 400 |}, db)).
Proof.
  intros Ho. unfold handle. rewrite !update_order_status_run.
  cbn [working session_begin StatusData.status]. rewrite Ho.
  split; [reflexivity | split; [reflexivity |]].
  intros Hne Hnot.
  destruct new_status as [| a rest]; [contradiction |].
  assert (Hin : str_in (String a rest) Order.VALID_STATUSES = false).
  { unfold str_in. apply Bool.not_true_is_false. intros H.
    apply existsb_exists in H. destruct H as [x [Hx Heq]].
    apply String.eqb_eq in Heq. subst x. exact (Hnot Hx). }
  rewrite Hin. reflexivity.
Qed.

Lemma update_order_status_checks_body_witness :
  handle (update_order_status tuesday 1 {| StatusData.status := Some "pending"%string |})
         shop_with_order =
    ({| body := error "Invalid status. Valid options: ['Pending', 'Processing', 'Shipped', 'Delivered', 'Cancelled']";
        status_code := 400 |}, shop_with_order).
Proof.
  refine (proj2 (proj2 (update_order_status_checks_body tuesday 1 shop_with_order
                          first_order "pending"%string _)) _ _).
  - vm_compute. reflexivity.
  - discriminate.
  - cbn. intros H.
    repeat (destruct H as [H | H]; [discriminate H |]). exact H.
Defined.

Lemma order_active_after_status (db : DB) (key : Z) (row : Order.t) (k : Z) :
  let db' :=
    {| customers := customers db;
       products := products db;
       orders := <[key := row]> (orders db);
       order_items := order_items db |} in
  Order.status row = "Cancelled"%string ->
  order_active db' k = if k =? key then false else order_active db k.
Proof.
  intros db' Hst. unfold order_active, db'. cbn [orders].
  destruct (Z.eqb_spec k key) as [-> | Hne].
  - rewrite lookup_insert_eq, Hst. reflexivity.
  - rewrite lookup_insert_ne by congruence. reflexivity.
Qed.

(** X10.  Cancelling through the status route is not [cancel_order]: for a
    Pending or Processing order, [update_order_status] with Cancelled
    commits the order as Cancelled, but the stock its lines reserved is not
    given back.  Every product is as before, while the quantity held by
    active orders drops by the order's lines; and [cancel_order] on the
    order afterwards is refused, so the route that restores stock can no
    longer be used for it.  The answer is 200 when the lines of the order
    can be rendered; when one is on a product with a price of zero and a
    positive cost it is 500, after the same commit. *)
Theorem status_route_cancellation_keeps_stock
    (env : Env) (key : Z) (db : DB) (o : Order.t) :
  orders db !! key = Some o ->
  Order.status o = "Pending"%string \/ Order.status o = "Processing"%string ->
  let result :=
    handle (update_order_status env key
              {| StatusData.status := Some "Cancelled"%string |}) db in
  (renders db (items_of key (order_items db)) ->
   status_code (fst result) = 200) /\
  (~ renders db (items_of key (order_items db)) ->
   fst result = {| body := error_str DivisionByZero; status_code := 500 |}) /\
  products (snd result) = products db /\
  order_active db key = true /\
  order_active (snd result) key = false /\
  (forall pid,
     stock_of (snd result) pid = stock_of db pid /\
     active_quantity (snd result) pid =
       active_quantity db pid - quantity_for pid (items_of key (order_items db))) /\
  (forall env',
     handle (cancel_order env' key) (snd result) =
     ({| body := error "Only pending orders can be cancelled";
         status_code := 400 |}, snd result)).
Proof.
  intros Ho Hst result.
  assert (Hcan : Order.can_transition_to o "Cancelled" = true).
  { apply can_transition_to_table. unfold transition_table.
    destruct Hst as [-> | ->]; [left | right; left]; split; auto. }
  assert (Hact : order_active db key = true).
  { unfold order_active. rewrite Ho.
    destruct Hst as [-> | ->]; reflexivity. }
  destruct (update_order_status_valid env key db o "Cancelled" Ho Hcan)
    as (Hstore & Hrender & Hraise).
  fold result in Hstore, Hrender, Hraise. cbv zeta in Hstore, Hrender.
  pose proof (order_active_after_status db key
                (Order.set_status o "Cancelled" (utcnow env))) as Hafter.
  cbv zeta in Hafter.
  split; [intros Hr; rewrite (Hrender Hr); reflexivity |].
  split; [exact Hraise |].
  rewrite Hstore. cbn [products].
  split; [reflexivity | split; [exact Hact | split]].
  - rewrite Hafter by reflexivity. rewrite Z.eqb_refl. reflexivity.
  - split.
    + intros pid. split; [reflexivity |].
      unfold active_quantity. cbn [order_items].
      rewrite (quantity_for_filter_split pid
                 (fun r => order_active db (OrderItem.order_id r))
                 (fun r => order_active
                             {| customers := customers db;
                                products := products db;
                                orders := <[key := Order.set_status o "Cancelled"
                                                     (utcnow env)]> (orders db);
                                order_items := order_items db |}
                             (OrderItem.order_id r))
                 (fun r => OrderItem.order_id r =? key)).
      * unfold items_of. lia.
      * intros r _. rewrite Hafter by reflexivity.
        destruct (Z.eqb_spec (OrderItem.order_id r) key) as [-> | Hne].
        -- rewrite Hact. split; reflexivity.
        -- split; [rewrite Bool.orb_false_r | rewrite Bool.andb_false_r];
             reflexivity.
    + intros env'. eapply cancel_order_not_pending.
      * cbn [orders]. apply lookup_insert_eq.
      * discriminate.
Qed.

(** The sample order of two widgets, cancelled through the status route:
    the eight widgets left stay eight. *)
Lemma status_route_cancellation_keeps_stock_witness :
  let result :=
    handle (update_order_status tuesday 1
              {| StatusData.status := Some "Cancelled"%string |}) shop_with_order in
  status_code (fst result) = 200 /\
  stock_of (snd result) 1 = stock_of shop_with_order 1 /\
  active_quantity shop_with_order 1 = 2 /\
  active_quantity (snd result) 1 = 0.
Proof.
  assert (Ho : orders shop_with_order !! 1 = Some first_order)
    by (vm_compute; reflexivity).
  assert (Hst : Order.status first_order = "Pending"%string \/
                Order.status first_order = "Processing"%string)
    by (left; reflexivity).
  destruct (status_route_cancellation_keeps_stock tuesday 1 shop_with_order
              first_order Ho Hst) as (H200 & _ & _ & _ & _ & Hq & _).
  destruct (Hq 1) as [Hs Ha].
  cbv zeta.
  split; [exact (H200 shop_with_order_renders) | split; [exact Hs | split]].
  - vm_compute. reflexivity.
  - rewrite Ha. vm_compute. reflexivity.
Defined.

(** ** The loop of [create_order], inside the session *)

(** X11.  When the loop over the requested lines runs to its end, the
    session holds exactly this: one row per requested line, appended to
    [order_items], each pointing to the new order and to a product of the
    store; every product's stock lowered by the quantities of the rows
    added for it, and nothing else of it changed; customers and orders as
    they were.  The store itself is not written: that is left to the
    commit, which [create_order] reaches only after [calculate_totals]. *)
Theorem create_order_items_effect (order_id : Z) (items : list ItemData.t)
    (s s' : Session) (added : list OrderItem.t) :
  create_order_items order_id items s = (Next added, s') ->
  committed s' = committed s /\
  customers (working s') = customers (working s) /\
  orders (working s') = orders (working s) /\
  length added = length items /\
  exists rows,
    order_items (working s') = order_items (working s) ++ rows /\
    length rows = length items /\
    Forall (fun r => OrderItem.order_id r = order_id /\
                     is_Some (products (working s) !! OrderItem.product_id r)) rows /\
    forall pid,
      products (working s') !! pid =
      move_stock (- quantity_for pid rows) <$> products (working s) !! pid.
Proof.
  apply create_order_items_next.
Qed.

(** Three widgets and then four more, in one request on the sample shop:
    the session has the ten widgets down to three, the store still ten. *)
Lemma create_order_items_effect_witness :
  let run := create_order_items 1 [line 1 3; line 1 4] (session_begin shop) in
  stock_of (working (snd run)) 1 = 3 /\
  stock_of (committed (snd run)) 1 = 10 /\
  length (order_items (working (snd run))) = 2%nat.
Proof.
  cbv zeta.
  destruct (create_order_items 1 [line 1 3; line 1 4] (session_begin shop))
    as [[added| |] s'] eqn:Hrun;
    try (vm_compute in Hrun; discriminate Hrun).
  destruct (create_order_items_effect 1 _ _ _ _ Hrun)
    as (Hc & _ & _ & _ & rows & Hrows & Hlr & _ & Hprod).
  cbn [snd].
  assert (E : s' = snd (create_order_items 1 [line 1 3; line 1 4]
                          (session_begin shop))) by (rewrite Hrun; reflexivity).
  split; [| split].
  - rewrite E. vm_compute. reflexivity.
  - rewrite Hc. vm_compute. reflexivity.
  - rewrite Hrows, length_app, Hlr. reflexivity.
Defined.

(** X12.  The stock check is all the loop needs to keep stocks from going
    below zero: if no stock of the session is negative before the loop,
    none is after it, however it ends and whatever the quantities asked
    for, negative ones included (those raise the stock). *)
Theorem create_order_items_keeps_stocks_non_negative
    (order_id : Z) (items : list ItemData.t) (s : Session) :
  stocks_non_negative (working s) ->
  stocks_non_negative (working (snd (create_order_items order_id items s))).
Proof.
  revert s. induction items as [| item_data rest IH]; intros s Hs; simpl;
    [exact Hs |].
  destruct (ItemData.product_id item_data) as [product_id|]; [| exact Hs].
  destruct (ItemData.quantity item_data) as [quantity|]; [| exact Hs].
  run_view.
  destruct (products (working s) !! product_id) as [product|] eqn:Hp;
    [| exact Hs].
  destruct (Product.stock_quantity product <? quantity) eqn:Hlt; [exact Hs |].
  run_view.
  match goal with
  | |- context [create_order_items order_id rest ?s1] =>
      assert (Hs1 : stocks_non_negative (working s1));
      [| specialize (IH s1 Hs1);
         destruct (create_order_items order_id rest s1) as [[added'| |] s2] ]
  end.
  - intros pid p. cbn [working products].
    destruct (decide (product_id = pid)) as [-> | Hne].
    + rewrite lookup_insert_eq. intros [= <-].
      unfold Product.reduce_stock.
      assert (Hge : (Product.stock_quantity product >=? quantity) = true) by lia.
      rewrite Hge. cbn. lia.
    + rewrite lookup_insert_ne by exact Hne. apply Hs.
  - run_view. exact IH.
  - exact IH.
  - exact IH.
Qed.

Lemma create_order_items_keeps_stocks_non_negative_witness :
  stocks_non_negative
    (working (snd (create_order_items 1 [line 1 3; line 1 (-4); line 1 12]
                     (session_begin shop)))).
Proof.
  apply create_order_items_keeps_stocks_non_negative.
  assert (H : map_Forall (fun _ p => 0 <= Product.stock_quantity p)
                (products shop)).
  { intros k q Hq.
    destruct (decide (k = 1)) as [-> | H1];
      [vm_compute in Hq; injection Hq as <-; vm_compute; discriminate |].
    destruct (decide (k = 2)) as [-> | H2];
      [vm_compute in Hq; injection Hq as <-; vm_compute; discriminate |].
    destruct (decide (k = 3)) as [-> | H3];
      [vm_compute in Hq; injection Hq as <-; vm_compute; discriminate |].
    unfold shop in Hq. cbn [products] in Hq.
    rewrite !lookup_insert_ne in Hq by congruence.
    rewrite lookup_singleton_ne in Hq by congruence. discriminate Hq. }
  intros pid p Hp. exact (H pid p Hp).
Defined.

(** ** Totals, continued *)


(** ** Order numbers *)

Lemma length_append (s1 s2 : string) :
  String.length (s1 ++ s2) = (String.length s1 + String.length s2)%nat.
Proof.
  induction s1 as [| a s1 IH]; simpl; [reflexivity | rewrite IH; reflexivity].
Qed.

Lemma length_substring (n m : nat) (s : string) :
  (n + m <= String.length s)%nat ->
  String.length (String.substring n m s) = m.
Proof.
  revert n m. induction s as [| a s IH]; intros n m H; simpl in *.
  - assert (n = 0%nat /\ m = 0%nat) as [-> ->] by lia. reflexivity.
  - destruct n as [| n].
    + destruct m as [| m]; [reflexivity |].
      simpl. rewrite (IH 0%nat m) by lia. reflexivity.
    + apply IH. lia.
Qed.

Lemma length_last_chars (n : nat) (s : string) :
  String.length (last_chars n s) = Nat.min n (String.length s).
Proof.
  unfold last_chars. apply length_substring. lia.
Qed.

Lemma prefix_append (s t : string) : String.prefix s (s ++ t) = true.
Proof.
  induction s as [| a s IH]; simpl; [destruct t; reflexivity |].
  destruct (Ascii.ascii_dec a a) as [_ | Hne]; [exact IH | contradiction].
Qed.

Lemma substring_all (s : string) :
  String.substring 0 (String.length s) s = s.
Proof.
  induction s as [| a s IH]; simpl; [reflexivity | rewrite IH; reflexivity].
Qed.

Lemma substring_after_append (s t : string) :
  String.substring (String.length s) (String.length t) (s ++ t) = t.
Proof.
  induction s as [| a s IH]; simpl; [apply substring_all | exact IH].
Qed.

Lemma substring_split (s : string) (k : nat) :
  (k <= String.length s)%nat ->
  s = (String.substring 0 k s ++ String.substring k (String.length s - k) s)%string.
Proof.
  revert k. induction s as [| a s IH]; intros k Hk.
  - destruct k; [reflexivity | simpl in Hk; lia].
  - destruct k as [| k].
    + simpl. rewrite substring_all. reflexivity.
    + simpl in Hk.
      change (String a s =
              String a (String.substring 0 k s
                        ++ String.substring k (String.length s - k) s)%string).
      f_equal. apply IH. lia.
Qed.

(** [s[-n:]] is the end of [s]. *)
Lemma last_chars_suffix (n : nat) (s : string) :
  s = (String.substring 0 (String.length s - n) s ++ last_chars n s)%string.
Proof.
  unfold last_chars.
  replace (Nat.min n (String.length s))
    with (String.length s - (String.length s - n))%nat by lia.
  apply substring_split. lia.
Qed.

(** X14.  An order number is [ORD], then the last six characters of the
    time as [str] writes it (all of them when it has fewer), then the
    random part as drawn: the time ends with the characters between the
    prefix and the random part, and there are six of them, or as many as
    the time has.  So the length of the number is 3 plus at most 6 plus the
    length of the random part: with the three digits of [random.choices] at
    most 12, within the 20 characters of the column. *)
Theorem generate_order_number_format (now : Z) (random_part : string) :
  let number := Order.generate_order_number now random_part in
  (exists before timestamp,
     str_int now = (before ++ timestamp)%string /\
     String.length timestamp = Nat.min 6 (String.length (str_int now)) /\
     number = ("ORD" ++ timestamp ++ random_part)%string) /\
  String.prefix "ORD" number = true /\
  String.length number =
    (3 + Nat.min 6 (String.length (str_int now)) + String.length random_part)%nat /\
  (String.length random_part = 3%nat -> (String.length number <= 12)%nat) /\
  String.substring (3 + Nat.min 6 (String.length (str_int now)))
    (String.length random_part) number = random_part.
Proof.
  cbv zeta. unfold Order.generate_order_number.
  set (timestamp := last_chars 6 (str_int now)).
  assert (Hts : String.length ("ORD" ++ timestamp) =
                (3 + Nat.min 6 (String.length (str_int now)))%nat).
  { rewrite length_append. unfold timestamp. rewrite length_last_chars.
    reflexivity. }
  assert (Hlen : String.length ("ORD" ++ timestamp ++ random_part) =
                 (3 + Nat.min 6 (String.length (str_int now))
                    + String.length random_part)%nat).
  { change ("ORD" ++ timestamp ++ random_part)%string
      with (("ORD" ++ timestamp) ++ random_part)%string.
    rewrite length_append, Hts. reflexivity. }
  split; [| split; [| split; [exact Hlen | split]]].
  - exists (String.substring 0 (String.length (str_int now) - 6) (str_int now)),
           timestamp.
    split; [apply last_chars_suffix | split; [apply length_last_chars |]].
    reflexivity.
  - apply prefix_append.
  - rewrite Hlen. lia.
  - rewrite <- Hts.
    change ("ORD" ++ timestamp ++ random_part)%string
      with (("ORD" ++ timestamp) ++ random_part)%string.
    apply substring_after_append.
Qed.

(** The number of the sample order: its time ends in 000123. *)
Lemma generate_order_number_format_witness :
  Order.generate_order_number 1730000123 "042" = "ORD000123042"%string /\
  (String.length (Order.generate_order_number 1730000123 "042") <= 12)%nat.
Proof.
  split; [vm_compute; reflexivity |].
  apply (proj1 (proj2 (proj2 (proj2
           (generate_order_number_format 1730000123 "042"))))).
  reflexivity.
Defined.

(** ** The shipping address *)

Lemma present_parts_non_empty (parts : list (option string)) :
  Forall (fun s => s <> EmptyString) (present_parts parts).
Proof.
  induction parts as [| part parts IH]; [constructor |].
  unfold present_parts in *. cbn [omap list_omap].
  destruct part as [[| a s]|]; cbn.
  - exact IH.
  - constructor; [discriminate | exact IH].
  - exact IH.
Qed.

Lemma present_parts_nil (parts : list (option string)) :
  present_parts parts = [] <->
  Forall (fun part => part = None \/ part = Some EmptyString) parts.
Proof.
  induction parts as [| part parts IH].
  - split; [constructor | reflexivity].
  - unfold present_parts in *. cbn [omap list_omap].
    destruct part as [[| a s]|]; cbn.
    + rewrite IH. split.
      * intros H. constructor; [right; reflexivity | exact H].
      * intros H. inversion H; assumption.
    + split; [discriminate |].
      intros H. inversion H as [| x l [Hx | Hx] _]; discriminate Hx.
    + rewrite IH. split.
      * intros H. constructor; [left; reflexivity | exact H].
      * intros H. inversion H; assumption.
Qed.

Lemma concat_empty (sep : string) (l : list string) :
  Forall (fun s => s <> EmptyString) l ->
  String.concat sep l = EmptyString -> l = [].
Proof.
  intros Hl. destruct Hl as [| x l Hx Hl]; [reflexivity |].
  destruct x as [| a x]; [contradiction |].
  destruct l; simpl; discriminate.
Qed.

Lemma length_concat (sep : string) (l : list string) :
  String.length (String.concat sep l) =
  (list_sum (map String.length l) + String.length sep * (length l - 1))%nat.
Proof.
  induction l as [| x l IH]; [simpl; lia |].
  destruct l as [| y l].
  - simpl. lia.
  - change (String.concat sep (x :: y :: l))
      with (x ++ sep ++ String.concat sep (y :: l))%string.
    rewrite !length_append, IH. simpl. lia.
Qed.

(** X15.  [full_shipping_address] joins the parts that are present: it is
    empty exactly when each of the five fields is missing or empty, and
    its length is that of the parts present plus two for each separator
    between them, so no separator stands before the first part, after the
    last, or for a part left out. *)
Theorem full_shipping_address_parts (o : Order.t) :
  let parts :=
    [ Order.shipping_address o; Order.shipping_city o; Order.shipping_state o;
      Order.shipping_zip o; Order.shipping_country o ] in
  (full_shipping_address o = EmptyString <->
   Forall (fun part => part = None \/ part = Some EmptyString) parts) /\
  String.length (full_shipping_address o) =
    (list_sum (map String.length (present_parts parts))
     + 2 * (length (present_parts parts) - 1))%nat.
Proof.
  intros parts. unfold full_shipping_address. fold parts. split.
  - rewrite <- present_parts_nil. split.
    + apply concat_empty, present_parts_non_empty.
    + intros ->. reflexivity.
  - apply length_concat.
Qed.

(** ** The stock route *)

Lemma commit_product_store (pid : Z) (p : Product.t) (s : Session) :
  session_remove (snd (commit_product pid p s)) =
  {| customers := customers (working s);
     products := <[pid := p]> (products (working s));
     orders := orders (working s);
     order_items := order_items (working s) |}.
Proof.
  unfold commit_product. destruct (Product.to_dict p) as [[p' margin]|e];
    reflexivity.
Qed.

Lemma commit_product_status (pid : Z) (p : Product.t) (s : Session) :
  product_status_code (fst (commit_product pid p s)) <> 400.
Proof.
  unfold commit_product. destruct (Product.to_dict p) as [[p' margin]|e];
    discriminate.
Qed.

(** What [update_stock] does with an [add] it accepts. *)
Lemma update_stock_add (pid q : Z) (db : DB) (p : Product.t) :
  products db !! pid = Some p ->
  q <> 0 ->
  handle_product (update_stock pid (stock_data "add" q)) db =
  (fst (commit_product pid (Product.increase_stock p q) (session_begin db)),
   {| customers := customers db;
      products := <[pid := Product.increase_stock p q]> (products db);
      orders := orders db;
      order_items := order_items db |}).
Proof.
  intros Hp Hq. unfold handle_product, update_stock.
  cbn [working session_begin stock_data StockData.action StockData.quantity].
  rewrite Hp.
  assert (E : (q =? 0) = false) by lia. rewrite E.
  cbn [String.eqb Ascii.eqb Bool.eqb orb andb].
  pose proof (commit_product_store pid (Product.increase_stock p q)
                (session_begin db)) as Hst.
  destruct (commit_product pid _ (session_begin db)) as [r s].
  cbn [fst snd] in *. rewrite Hst. reflexivity.
Qed.

(** What [update_stock] does with a [subtract] that the stock covers. *)
Lemma update_stock_subtract (pid q : Z) (db : DB) (p : Product.t) :
  products db !! pid = Some p ->
  q <> 0 ->
  q <= Product.stock_quantity p ->
  handle_product (update_stock pid (stock_data "subtract" q)) db =
  (fst (commit_product pid (move_stock (- q) p) (session_begin db)),
   {| customers := customers db;
      products := <[pid := move_stock (- q) p]> (products db);
      orders := orders db;
      order_items := order_items db |}).
Proof.
  intros Hp Hq Hle. unfold handle_product, update_stock.
  cbn [working session_begin stock_data StockData.action StockData.quantity].
  rewrite Hp.
  assert (E : (q =? 0) = false) by lia. rewrite E.
  cbn [String.eqb Ascii.eqb Bool.eqb orb andb].
  unfold Product.reduce_stock.
  assert (Hge : (Product.stock_quantity p >=? q) = true) by lia.
  rewrite Hge. cbn [fst snd negb].
  change (Product.with_stock_quantity p (Product.stock_quantity p - q))
    with (move_stock (- q) p).
  pose proof (commit_product_store pid (move_stock (- q) p)
                (session_begin db)) as Hst.
  destruct (commit_product pid _ (session_begin db)) as [r s].
  cbn [fst snd] in *. rewrite Hst. reflexivity.
Qed.

(** A [subtract] of more than the stock. *)
Lemma update_stock_subtract_refused (pid q : Z) (db : DB)
    (p : Product.t) :
  products db !! pid = Some p ->
  q <> 0 ->
  q > Product.stock_quantity p ->
  handle_product (update_stock pid (stock_data "subtract" q)) db =
  ({| product_body := product_error "Insufficient stock";
      product_status_code := 400 |}, db).
Proof.
  intros Hp Hq Hgt. unfold handle_product, update_stock.
  cbn [working session_begin stock_data StockData.action StockData.quantity].
  rewrite Hp.
  assert (E : (q =? 0) = false) by lia. rewrite E.
  cbn [String.eqb Ascii.eqb Bool.eqb orb andb].
  unfold Product.reduce_stock.
  assert (Hge : (Product.stock_quantity p >=? q) = false) by lia.
  rewrite Hge. reflexivity.
Qed.

(** X16.  A 400 of [update_stock] leaves the store as it was: a missing
    or empty action, a missing or zero quantity, an action that is neither
    [add] nor [subtract], and a [subtract] of more than the stock. *)
Theorem update_stock_refusal_leaves_store
    (pid : Z) (data : StockData.t) (db : DB) :
  product_status_code
    (fst (handle_product (update_stock pid data) db)) = 400 ->
  snd (handle_product (update_stock pid data) db) = db.
Proof.
  unfold handle_product, update_stock. cbn [working session_begin].
  destruct (products db !! pid) as [p|]; [| discriminate].
  destruct (StockData.action data) as [action|]; [| reflexivity].
  destruct (StockData.quantity data) as [quantity|]; [| reflexivity].
  destruct (String.eqb action EmptyString || (quantity =? 0)); [reflexivity |].
  destruct (String.eqb action "add").
  { pose proof (commit_product_status pid (Product.increase_stock p quantity)
                  (session_begin db)) as H.
    destruct (commit_product pid _ _) as [r s]. intros H'. contradiction. }
  destruct (String.eqb action "subtract"); [| reflexivity].
  destruct (negb (fst (Product.reduce_stock p quantity))); [reflexivity |].
  pose proof (commit_product_status pid (snd (Product.reduce_stock p quantity))
                (session_begin db)) as H.
  destruct (commit_product pid _ _) as [r s]. intros H'. contradiction.
Qed.

Lemma update_stock_refusal_leaves_store_witness :
  fst (handle_product (update_stock 2 (stock_data "subtract" 5)) shop) =
    {| product_body := product_error "Insufficient stock";
       product_status_code := 400 |} /\
  snd (handle_product (update_stock 2 (stock_data "subtract" 5)) shop) = shop.
Proof.
  split.
  - vm_compute. reflexivity.
  - apply update_stock_refusal_leaves_store. vm_compute. reflexivity.
Defined.

(** X17.  A 500 of [update_stock] can come after its commit.  For a
    product whose price is zero and whose cost is positive, an [add] is
    written and committed, and then rendering the product divides by the
    price in [profit_margin]: the answer is 500 with the text of the
    exception, the rollback of the handler has nothing left to undo, and
    the store keeps the new stock. *)
Theorem update_stock_commits_before_rendering
    (cost : Q) (pid q : Z) (db : DB) (p : Product.t) :
  products db !! pid = Some p ->
  (Product.price p == 0)%Q ->
  Product.cost p = Some cost ->
  (0 < cost)%Q ->
  q <> 0 ->
  let result :=
    handle_product (update_stock pid (stock_data "add" q)) db in
  fst result =
    {| product_body := product_error_str DivisionByZero;
       product_status_code := 500 |} /\
  products (snd result) = <[pid := Product.increase_stock p q]> (products db) /\
  stock_of (snd result) pid = Product.stock_quantity p + q.
Proof.
  intros Hp Hprice Hc Hcost Hq result. unfold result.
  rewrite (update_stock_add pid q db p Hp Hq).
  cbn [fst snd products]. split; [| split].
  - unfold commit_product, Product.to_dict.
    destruct (profit_margin_outcome (Product.increase_stock p q))
      as [[_ ->] | [Hnot _]]; [reflexivity |].
    exfalso. apply Hnot. split; [exact Hprice | exists cost; auto].
  - reflexivity.
  - unfold stock_of. cbn [products]. rewrite lookup_insert_eq. reflexivity.
Qed.

Lemma update_stock_commits_before_rendering_witness :
  let result :=
    handle_product (update_stock 4 (stock_data "add" 1))
                   shop_with_free_sample in
  product_status_code (fst result) = 500 /\
  stock_of shop_with_free_sample 4 = 6 /\
  stock_of (snd result) 4 = 7.
Proof.
  assert (Hp : products shop_with_free_sample !! 4 = Some free_sample)
    by (vm_compute; reflexivity).
  assert (Hprice : (Product.price free_sample == 0)%Q) by reflexivity.
  assert (Hc : Product.cost free_sample = Some 2.50%Q) by reflexivity.
  assert (Hcost : (0 < 2.50)%Q) by reflexivity.
  assert (Hq : 1 <> 0) by lia.
  destruct (update_stock_commits_before_rendering 2.50%Q 4 1
              shop_with_free_sample _ Hp Hprice Hc Hcost Hq) as (Hr & _ & Hs).
  cbv zeta. rewrite Hr, Hs. split; [reflexivity | split; reflexivity].
Defined.

(** X18.  [add] has no guard of its own: any quantity other than zero is
    added to the stock as it is, so a negative one lowers it, below zero
    when it exceeds the stock; while a [subtract], of whatever sign, never
    takes a stock that is not negative below zero. *)
Theorem update_stock_add_is_unchecked
    (pid q : Z) (db : DB) (p : Product.t) :
  products db !! pid = Some p ->
  q <> 0 ->
  let added :=
    snd (handle_product (update_stock pid (stock_data "add" q)) db) in
  let subtracted :=
    snd (handle_product (update_stock pid (stock_data "subtract" q)) db) in
  stock_of added pid = Product.stock_quantity p + q /\
  (Product.stock_quantity p + q < 0 -> ~ stocks_non_negative added) /\
  (0 <= Product.stock_quantity p -> 0 <= stock_of subtracted pid).
Proof.
  intros Hp Hq added subtracted.
  assert (Ha : stock_of added pid = Product.stock_quantity p + q).
  { unfold added. rewrite (update_stock_add pid q db p Hp Hq).
    unfold stock_of. cbn [snd products]. rewrite lookup_insert_eq. reflexivity. }
  split; [exact Ha | split].
  - intros Hneg Hnn. unfold stock_of in Ha.
    destruct (products added !! pid) as [p'|] eqn:Hp'; [| lia].
    specialize (Hnn pid p' Hp'). lia.
  - intros Hnn. unfold subtracted.
    destruct (Z_le_gt_dec q (Product.stock_quantity p)) as [Hle | Hgt].
    + rewrite (update_stock_subtract pid q db p Hp Hq Hle).
      unfold stock_of. cbn [snd products]. rewrite lookup_insert_eq.
      cbn. lia.
    + rewrite (update_stock_subtract_refused pid q db p Hp Hq Hgt).
      unfold stock_of. cbn [snd]. rewrite Hp. exact Hnn.
Qed.

(** Five gadgets taken off the four in stock by an [add]. *)
Lemma update_stock_add_is_unchecked_witness :
  stock_of (snd (handle_product (update_stock 2 (stock_data "add" (-5))) shop)) 2
    = -1 /\
  0 <= stock_of
         (snd (handle_product (update_stock 2 (stock_data "subtract" (-5))) shop)) 2.
Proof.
  assert (Hp : products shop !! 2 = Some (product "Gadget" "G-1" 5.00 4))
    by (vm_compute; reflexivity).
  assert (Hq : -5 <> 0) by lia.
  destruct (update_stock_add_is_unchecked 2 (-5) shop _ Hp Hq)
    as (Ha & _ & Hs).
  split; [rewrite Ha; reflexivity | apply Hs; cbn; lia].
Defined.

Lemma move_stock_back (n : Z) (p : Product.t) :
  move_stock (- n) (move_stock n p) = p.
Proof.
  rewrite move_stock_move_stock.
  replace (n + - n) with 0 by lia. apply move_stock_0.
Qed.

Lemma insert_back (pid : Z) (p p' : Product.t) (db : DB) :
  products db !! pid = Some p ->
  {| customers := customers db;
     products := <[pid := p]> (<[pid := p']> (products db));
     orders := orders db;
     order_items := order_items db |} = db.
Proof.
  intros Hp. rewrite insert_insert_eq, insert_id by exact Hp.
  destruct db; reflexivity.
Qed.

(** X19.  The two actions of [update_stock] undo each other on the store:
    an [add] followed by a [subtract] of the same quantity gives back the
    store when the stock was not negative, and a [subtract] followed by an
    [add] when the stock covered the quantity; whatever the two requests
    answer. *)
Theorem update_stock_round_trip
    (pid q : Z) (db : DB) (p : Product.t) :
  products db !! pid = Some p ->
  q <> 0 ->
  (0 <= Product.stock_quantity p ->
   snd (handle_product (update_stock pid (stock_data "subtract" q))
          (snd (handle_product (update_stock pid (stock_data "add" q)) db)))
   = db) /\
  (q <= Product.stock_quantity p ->
   snd (handle_product (update_stock pid (stock_data "add" q))
          (snd (handle_product (update_stock pid (stock_data "subtract" q)) db)))
   = db).
Proof.
  intros Hp Hq. split.
  - intros Hnn.
    rewrite (update_stock_add pid q db p Hp Hq). cbn [snd].
    rewrite (update_stock_subtract pid q _ (Product.increase_stock p q));
      [| cbn [products]; apply lookup_insert_eq | exact Hq | cbn; lia].
    cbn [snd customers products orders order_items].
    change (Product.increase_stock p q) with (move_stock q p).
    rewrite move_stock_back. apply insert_back. exact Hp.
  - intros Hle.
    rewrite (update_stock_subtract pid q db p Hp Hq Hle). cbn [snd].
    rewrite (update_stock_add pid q _ (move_stock (- q) p));
      [| cbn [products]; apply lookup_insert_eq | exact Hq].
    cbn [snd customers products orders order_items].
    change (Product.increase_stock (move_stock (- q) p) q)
      with (move_stock q (move_stock (- q) p)).
    replace (move_stock q (move_stock (- q) p)) with p.
    + apply insert_back. exact Hp.
    + rewrite move_stock_move_stock.
      replace (- q + q) with 0 by lia. symmetry. apply move_stock_0.
Qed.

Lemma update_stock_round_trip_witness :
  snd (handle_product (update_stock 2 (stock_data "subtract" 7))
         (snd (handle_product (update_stock 2 (stock_data "add" 7)) shop)))
  = shop.
Proof.
  assert (Hp : products shop !! 2 = Some (product "Gadget" "G-1" 5.00 4))
    by (vm_compute; reflexivity).
  assert (Hq : 7 <> 0) by lia.
  apply (proj1 (update_stock_round_trip 2 7 shop _ Hp Hq)).
  cbn. lia.
Defined.

(** ** The profit margin *)

From Stdlib Require Import Lqa Qpower.

(** *** Rounding to significant digits *)

Lemma ilog_fuel_spec (fuel : nat) (base n : Z) :
  2 <= base -> 1 <= n -> n < 2 ^ Z.of_nat fuel ->
  0 <= ilog_fuel fuel base n /\
  base ^ ilog_fuel fuel base n <= n < base ^ (ilog_fuel fuel base n + 1).
Proof.
  intros Hb. revert n. induction fuel as [| fuel IH]; intros n Hn Hlt.
  - simpl in Hlt. lia.
  - cbn [ilog_fuel]. destruct (Z.ltb_spec n base) as [Hnb | Hnb].
    + simpl. lia.
    + assert (Hq : 1 <= n / base).
      { apply Z.div_le_lower_bound; lia. }
      assert (Hq2 : n / base < 2 ^ Z.of_nat fuel).
      { apply Z.div_lt_upper_bound; [lia |].
        rewrite Nat2Z.inj_succ, Z.pow_succ_r in Hlt by lia. nia. }
      destruct (IH (n / base) Hq Hq2) as (H0 & Hlo & Hhi).
      set (k := ilog_fuel fuel base (n / base)) in *.
      split; [lia |].
      replace (1 + k) with (k + 1) by lia.
      rewrite !Z.pow_add_r, Z.pow_1_r in * by lia.
      pose proof (Z.mul_div_le n base ltac:(lia)) as Hm.
      pose proof (Z.mul_succ_div_gt n base ltac:(lia)) as Hm'.
      split; nia.
Qed.

Lemma ilog_spec (base n : Z) :
  2 <= base -> 1 <= n ->
  0 <= ilog base n /\ base ^ ilog base n <= n < base ^ (ilog base n + 1).
Proof.
  intros Hb Hn. apply ilog_fuel_spec; [exact Hb | exact Hn |].
  rewrite Nat2Z.inj_succ, Z2Nat.id by apply Z.log2_nonneg.
  apply Z.log2_spec. lia.
Qed.

Lemma round_half_even_spec (n d : Z) :
  0 <= n -> 0 < d ->
  2 * (round_half_even n d * d - n) <= d /\
  2 * (n - round_half_even n d * d) <= d.
Proof.
  intros Hn Hd. unfold round_half_even.
  pose proof (Z.div_mod n d ltac:(lia)) as Hdm.
  pose proof (Z.mod_pos_bound n d Hd) as Hr.
  destruct (Z.ltb_spec (2 * (n mod d)) d);
    [| destruct (Z.ltb_spec d (2 * (n mod d)));
       [| destruct (Z.even (n / d))]]; nia.
Qed.

Lemma scale_spec (base e n d : Z) :
  2 <= base -> 0 <= n -> 0 < d ->
  0 <= fst (scale base e n d) /\
  0 < snd (scale base e n d) /\
  (inject_Z (fst (scale base e n d)) ==
   inject_Z n / inject_Z d / inject_Z base ^ e
   * inject_Z (snd (scale base e n d)))%Q.
Proof.
  intros Hb Hn Hd. unfold scale.
  assert (HB : ~ (inject_Z base == 0)%Q).
  { intros H. apply (inject_Z_injective base 0) in H. lia. }
  assert (HD : ~ (inject_Z d == 0)%Q).
  { intros H. apply (inject_Z_injective d 0) in H. lia. }
  destruct (Z.leb_spec 0 e) as [He | He]; cbn [fst snd].
  - assert (Hp : 0 < base ^ e) by (apply Z.pow_pos_nonneg; lia).
    split; [lia | split; [nia |]].
    rewrite inject_Z_mult, Zpower_Qpower by lia.
    field. repeat split; try exact HD; apply Qpower_not_0; exact HB.
  - assert (Hp : 0 < base ^ (- e)) by (apply Z.pow_pos_nonneg; lia).
    split; [nia | split; [lia |]].
    rewrite inject_Z_mult, Zpower_Qpower, Qpower_opp by lia.
    field. repeat split; try exact HD; apply Qpower_not_0; exact HB.
Qed.

Lemma ratio_bounds (y Pa Pb N D B : Q) :
  (0 < Pa -> 0 < Pb -> 0 < D -> 1 < B ->
   Pa <= N -> N < Pa * B -> Pb <= D -> D < Pb * B ->
   y * Pa * D == N * Pb ->
   0 < y /\ 1 < y * B /\ y < B)%Q.
Proof.
  intros HPa HPb HD HB Hlo Hhi Hlo' Hhi' Hy.
  assert (HPaD : (0 < Pa * D)%Q) by nra.
  assert (HNPb : (0 < N * Pb)%Q) by nra.
  assert (Hy0 : (0 < y)%Q).
  { destruct (Qlt_le_dec 0 y) as [H | H]; [exact H | exfalso].
    assert ((y * (Pa * D) <= 0)%Q) by nra. nra. }
  assert (HyPa : (0 < y * Pa)%Q) by nra.
  split; [exact Hy0 | split].
  - destruct (Qlt_le_dec 1 (y * B)) as [H | H]; [exact H | exfalso].
    assert (H1 : (y * Pa * D < y * Pa * (Pb * B))%Q) by nra.
    assert (H2 : (y * B * (Pa * Pb) <= 1 * (Pa * Pb))%Q) by nra.
    assert (H3 : (Pa * Pb <= N * Pb)%Q) by nra.
    nra.
  - destruct (Qlt_le_dec y B) as [H | H]; [exact H | exfalso].
    assert (H1 : (B * (Pa * D) <= y * (Pa * D))%Q) by nra.
    assert (H2 : (N * Pb < Pa * B * Pb)%Q) by nra.
    assert (H3 : (Pa * B * Pb <= Pa * B * D)%Q) by nra.
    nra.
Qed.

Lemma round_magnitude_spec (base precision n d : Z) :
  2 <= base -> 1 <= precision -> 0 < n -> 0 < d ->
  let x := (inject_Z n / inject_Z d)%Q in
  let v := round_magnitude base precision n d in
  (0 < v)%Q /\
  (v <= x * (1 + 1 / (2 * inject_Z base ^ (precision - 1))))%Q.
Proof.
  intros Hb Hp Hn Hd x v.
  set (B := inject_Z base).
  assert (HB1 : (1 < B)%Q).
  { unfold B. change 1%Q with (inject_Z 1). rewrite <- Zlt_Qlt. lia. }
  assert (HB0 : ~ (B == 0)%Q) by (intros H; rewrite H in HB1; discriminate HB1).
  assert (Hnq : (0 < inject_Z n)%Q)
    by (change 0%Q with (inject_Z 0); rewrite <- Zlt_Qlt; lia).
  assert (Hdq : (0 < inject_Z d)%Q)
    by (change 0%Q with (inject_Z 0); rewrite <- Zlt_Qlt; lia).
  assert (Hx : (0 < x)%Q).
  { unfold x. apply Qlt_shift_div_l; [exact Hdq |]. rewrite Qmult_0_l. exact Hnq. }
  (* the integer logarithms *)
  destruct (ilog_spec base n Hb ltac:(lia)) as (Ha0 & Halo & Hahi).
  destruct (ilog_spec base d Hb ltac:(lia)) as (Hb0 & Hblo & Hbhi).
  set (a := ilog base n) in *. set (b := ilog base d) in *.
  assert (Halo' : (B ^ a <= inject_Z n)%Q).
  { unfold B. rewrite <- Zpower_Qpower by lia. rewrite <- Zle_Qle. exact Halo. }
  assert (Hahi' : (inject_Z n < B ^ a * B)%Q).
  { rewrite <- (Qpower_1_r B) at 2. rewrite <- Qpower_plus by exact HB0.
    unfold B. rewrite <- Zpower_Qpower by lia. rewrite <- Zlt_Qlt. exact Hahi. }
  assert (Hblo' : (B ^ b <= inject_Z d)%Q).
  { unfold B. rewrite <- Zpower_Qpower by lia. rewrite <- Zle_Qle. exact Hblo. }
  assert (Hbhi' : (inject_Z d < B ^ b * B)%Q).
  { rewrite <- (Qpower_1_r B) at 2. rewrite <- Qpower_plus by exact HB0.
    unfold B. rewrite <- Zpower_Qpower by lia. rewrite <- Zlt_Qlt. exact Hbhi. }
  pose proof (Qpower_0_lt B a ltac:(lra)) as Hpa.
  pose proof (Qpower_0_lt B b ltac:(lra)) as Hpb.
  (* x / B^k lies strictly between 1/B and B *)
  set (k := a - b) in *.
  assert (Hk : (B ^ k == B ^ a / B ^ b)%Q) by (apply Qpower_minus; exact HB0).
  pose proof (Qpower_0_lt B k ltac:(lra)) as Hpk.
  set (y := (x / B ^ k)%Q).
  assert (Hy : (y * B ^ a * inject_Z d == inject_Z n * B ^ b)%Q).
  { unfold y, x. rewrite Hk. field. repeat split; lra. }
  destruct (ratio_bounds y (B ^ a) (B ^ b) (inject_Z n) (inject_Z d) B
              Hpa Hpb Hdq HB1 Halo' Hahi' Hblo' Hbhi' Hy) as (Hy0 & Hylo & Hyhi).
  (* the exponent of the leading digit *)
  unfold v, round_magnitude. fold a b k.
  destruct (scale_spec base k n d Hb ltac:(lia) Hd) as (Hn1 & Hd1 & Hs1).
  fold B x y in Hs1.
  destruct (scale base k n d) as [n1 d1]. cbn [fst snd] in *.
  assert (Hd1q : (0 < inject_Z d1)%Q)
    by (change 0%Q with (inject_Z 0); rewrite <- Zlt_Qlt; lia).
  set (lead := if d1 <=? n1 then k else k - 1).
  assert (Hlead : exists z, (z == x / B ^ lead /\ 1 <= z /\ z < B)%Q).
  { unfold lead. destruct (Z.leb_spec d1 n1) as [Hle | Hgt].
    - exists y. split; [reflexivity |]. split; [| exact Hyhi].
      rewrite Zle_Qle, Hs1 in Hle. nra.
    - exists (y * B)%Q. split; [| split; [lra |]].
      + unfold y. rewrite Qpower_minus, Qpower_1_r by exact HB0.
        field. split; [lra | apply Qpower_not_0; exact HB0].
      + rewrite Zlt_Qlt, Hs1 in Hgt. nra. }
  destruct Hlead as (z & Hz & Hz1 & HzB).
  clearbody lead. clear Hs1 Hn1 Hd1 Hd1q n1 d1.
  (* the digits *)
  set (e := lead - (precision - 1)).
  set (P := (B ^ (precision - 1))%Q).
  assert (HP : (1 <= P)%Q) by (apply Qpower_1_le; [lra | lia]).
  pose proof (Qpower_0_lt B e ltac:(lra)) as Hpe.
  pose proof (Qpower_0_lt B lead ltac:(lra)) as Hpl.
  assert (He : (B ^ e == B ^ lead / P)%Q)
    by (apply Qpower_minus; exact HB0).
  destruct (scale_spec base e n d Hb ltac:(lia) Hd) as (Hn2 & Hd2 & Hs2).
  fold B x in Hs2.
  destruct (scale base e n d) as [n2 d2]. cbn [fst snd] in *.
  assert (Hd2q : (0 < inject_Z d2)%Q)
    by (change 0%Q with (inject_Z 0); rewrite <- Zlt_Qlt; lia).
  destruct (round_half_even_spec n2 d2 Hn2 Hd2) as (Hup & Hdown).
  set (m := round_half_even n2 d2) in *.
  assert (Hw : (inject_Z n2 == z * P * inject_Z d2)%Q).
  { rewrite Hs2, He, Hz. field. repeat split; lra. }
  assert (Hup' : (2 * (inject_Z m * inject_Z d2 - inject_Z n2) <= inject_Z d2)%Q).
  { replace (m * d2 - n2)%Z with (m * d2 + - n2)%Z in Hup by lia.
    rewrite Zle_Qle in Hup.
    rewrite !inject_Z_mult, inject_Z_plus, inject_Z_opp, inject_Z_mult in Hup.
    exact Hup. }
  assert (Hdown' : (2 * (inject_Z n2 - inject_Z m * inject_Z d2) <= inject_Z d2)%Q).
  { replace (n2 - m * d2)%Z with (n2 + - (m * d2))%Z in Hdown by lia.
    rewrite Zle_Qle in Hdown.
    rewrite !inject_Z_mult, inject_Z_plus, inject_Z_opp, inject_Z_mult in Hdown.
    exact Hdown. }
  assert (Hm_hi : (inject_Z m <= z * P + (1 # 2))%Q) by nra.
  assert (Hm_lo : (z * P - (1 # 2) <= inject_Z m)%Q) by nra.
  assert (Hv : ((if 0 <=? e then inject_Z (m * base ^ e)
                 else m # Z.to_pos (base ^ (- e))) == inject_Z m * B ^ e)%Q).
  { destruct (Z.leb_spec 0 e) as [He0 | He0].
    - rewrite inject_Z_mult, Zpower_Qpower by lia. reflexivity.
    - assert (Hpos : (0 < base ^ (- e))%Z) by (apply Z.pow_pos_nonneg; lia).
      rewrite Qmake_Qdiv, Z2Pos.id by exact Hpos.
      rewrite Zpower_Qpower, Qpower_opp by lia. fold B.
      field. lra. }
  rewrite Hv.
  assert (Hxe : (x == z * P * B ^ e)%Q).
  { rewrite He, Hz. field. repeat split; lra. }
  split.
  - assert ((0 < inject_Z m)%Q) by nra. nra.
  - fold P.
    assert (Hstep : (inject_Z m * B ^ e <= (z * P + (1 # 2)) * B ^ e)%Q) by nra.
    assert (Hhalf : (B ^ e <= z * P * B ^ e / P)%Q).
    { apply Qle_shift_div_l; [lra |]. nra. }
    rewrite Hxe.
    assert (E : (z * P * B ^ e * (1 + 1 / (2 * P)) ==
                 z * P * B ^ e + (z * P * B ^ e / P) / 2)%Q) by (field; lra).
    rewrite E. clear E.
    set (t := (z * P * B ^ e / P)%Q) in *.
    set (r := (B ^ e)%Q) in *.
    set (im := inject_Z m) in *.
    clearbody t r im P. clear - Hstep Hhalf.
    assert (E1 : ((z * P + (1 # 2)) * r == z * P * r + r * (1 # 2))%Q) by ring.
    assert (E2 : (t / 2 == t * (1 # 2))%Q) by field.
    rewrite E1 in Hstep. rewrite E2. lra.
Qed.

Lemma round_digits_positive (base precision : Z) (q : Q) :
  2 <= base -> 1 <= precision -> (0 < q)%Q ->
  (0 < round_digits base precision q)%Q /\
  (round_digits base precision q <=
   q * (1 + 1 / (2 * inject_Z base ^ (precision - 1))))%Q.
Proof.
  intros Hb Hp Hq. unfold round_digits.
  assert (Hn : 0 < Qnum q).
  { unfold Qlt in Hq. simpl in Hq. lia. }
  assert (E1 : (Z.abs (Qnum q) =? 0) = false) by lia.
  assert (E2 : (Qnum q <? 0) = false) by lia.
  rewrite E1, E2, Z.abs_eq by lia.
  destruct (round_magnitude_spec base precision (Qnum q) (Z.pos (Qden q))
              Hb Hp Hn ltac:(lia)) as [H0 Hup].
  cbv zeta in *. split; [exact H0 |].
  rewrite <- Qmake_Qdiv in Hup. destruct q as [n d]. exact Hup.
Qed.

Lemma round_digits_negative (base precision : Z) (q : Q) :
  2 <= base -> 1 <= precision -> (q < 0)%Q ->
  (round_digits base precision q < 0)%Q.
Proof.
  intros Hb Hp Hq. unfold round_digits.
  assert (Hn : Qnum q < 0).
  { unfold Qlt in Hq. simpl in Hq. lia. }
  assert (E1 : (Z.abs (Qnum q) =? 0) = false) by lia.
  assert (E2 : (Qnum q <? 0) = true) by lia.
  rewrite E1, E2.
  destruct (round_magnitude_spec base precision (Z.abs (Qnum q)) (Z.pos (Qden q))
              Hb Hp ltac:(lia) ltac:(lia)) as [H0 _].
  cbv zeta in H0. lra.
Qed.

Lemma round_digits_zero (base precision : Z) (q : Q) :
  (q == 0)%Q -> round_digits base precision q = 0%Q.
Proof.
  intros Hq. unfold round_digits.
  assert (Hn : Qnum q = 0).
  { unfold Qeq in Hq. simpl in Hq. lia. }
  rewrite Hn. reflexivity.
Qed.

Lemma decimal_context_bounds (q : Q) :
  (0 < q)%Q ->
  (0 < decimal_context q)%Q /\
  (decimal_context q <= q * (1 + (1 # 2000000000000000000000000000)))%Q.
Proof.
  intros Hq. unfold decimal_context.
  destruct (round_digits_positive 10 28 q ltac:(lia) ltac:(lia) Hq) as [H0 H1].
  split; [exact H0 |].
  assert (E : (1 + 1 / (2 * inject_Z 10 ^ (28 - 1)) ==
               1 + (1 # 2000000000000000000000000000))%Q)
    by (vm_compute; reflexivity).
  rewrite E in H1. exact H1.
Qed.

Lemma float_bounds (q : Q) :
  (0 < q)%Q ->
  (0 < float_ q)%Q /\ (float_ q <= q * (1 + (1 # 9007199254740992)))%Q.
Proof.
  intros Hq. unfold float_.
  destruct (round_digits_positive 2 53 q ltac:(lia) ltac:(lia) Hq) as [H0 H1].
  split; [exact H0 |].
  assert (E : (1 + 1 / (2 * inject_Z 2 ^ (53 - 1)) ==
               1 + (1 # 9007199254740992))%Q)
    by (vm_compute; reflexivity).
  rewrite E in H1. exact H1.
Qed.

(** *** The margin *)

(** The sign of the margin is the sign of [price - cost], for a positive
    price. *)
Lemma margin_sign (price cost : Q) :
  (0 < price)%Q ->
  let m :=
    float_ (decimal_context
              (decimal_context (decimal_context (price - cost) / price) * 100))%Q in
  ((cost < price)%Q -> (0 < m)%Q) /\
  ((price == cost)%Q -> m = 0%Q) /\
  ((price < cost)%Q -> (m < 0)%Q).
Proof.
  intros Hp m. unfold m. split; [| split].
  - intros H.
    destruct (decimal_context_bounds (price - cost) ltac:(lra)) as [H1 _].
    set (d := decimal_context (price - cost)) in *.
    assert (H2 : (0 < d / price)%Q).
    { apply Qlt_shift_div_l; [exact Hp | lra]. }
    destruct (decimal_context_bounds (d / price) H2) as [H3 _].
    set (r := decimal_context (d / price)) in *.
    destruct (decimal_context_bounds (r * 100) ltac:(lra)) as [H4 _].
    apply float_bounds. exact H4.
  - intros H.
    assert (E1 : decimal_context (price - cost) = 0%Q).
    { apply round_digits_zero. lra. }
    rewrite E1.
    assert (E2 : decimal_context (0 / price) = 0%Q).
    { apply round_digits_zero. unfold Qdiv. apply Qmult_0_l. }
    rewrite E2. reflexivity.
  - intros H.
    assert (H1 : (decimal_context (price - cost) < 0)%Q).
    { apply round_digits_negative; [lia | lia | lra]. }
    set (d := decimal_context (price - cost)) in *.
    assert (H2 : (d / price < 0)%Q).
    { apply Qlt_shift_div_r; [exact Hp | lra]. }
    assert (H3 : (decimal_context (d / price) < 0)%Q).
    { apply round_digits_negative; [lia | lia | exact H2]. }
    set (r := decimal_context (d / price)) in *.
    assert (H4 : (decimal_context (r * 100) < 0)%Q).
    { apply round_digits_negative; [lia | lia | lra]. }
    apply round_digits_negative; [lia | lia | exact H4].
Qed.

(** For column values, a cost of at least a cent and a price of at most
    [10^8], the four roundings leave the margin below 100. *)
Lemma margin_below_100 (price cost : Q) :
  (cost < price)%Q -> (price <= 100000000)%Q -> (1 # 100 <= cost)%Q ->
  (float_ (decimal_context
             (decimal_context (decimal_context (price - cost) / price) * 100))
   < 100)%Q.
Proof.
  intros Hlt Hmax Hcent.
  assert (Hp : (0 < price)%Q) by lra.
  destruct (decimal_context_bounds (price - cost) ltac:(lra)) as [Hd0 Hd].
  set (d := decimal_context (price - cost)) in *.
  assert (Hd' : (d <= (1 - (9 # 100000000000)) * price)%Q) by lra.
  assert (Hx0 : (0 < d / price)%Q).
  { apply Qlt_shift_div_l; [exact Hp | lra]. }
  assert (Hx : (d / price <= 1 - (9 # 100000000000))%Q).
  { apply Qle_shift_div_r; [exact Hp | exact Hd']. }
  destruct (decimal_context_bounds (d / price) Hx0) as [Hr0 Hr].
  set (x := (d / price)%Q) in *. clearbody x.
  set (r := decimal_context x) in *.
  destruct (decimal_context_bounds (r * 100) ltac:(lra)) as [Hc0 Hc].
  set (c := decimal_context (r * 100)) in *.
  destruct (float_bounds c Hc0) as [_ Hf].
  set (m := float_ c) in *. clearbody m c r d.
  lra.
Qed.

(** X20.  [profit_margin] by cases.  It is [None] exactly when the cost is
    missing or not positive.  With a positive cost it raises exactly when
    the price is zero (which no check of [update_product] rules out), and
    then [DivisionByZero].  Otherwise it returns a float, rounded four
    times on the way, which for a positive price is negative exactly when
    the product sells below its cost, zero exactly when it sells at cost,
    and below 100 for values the columns can hold: a cost of a cent or more
    and a price of at most 10^8. *)
Theorem profit_margin_cases (p : Product.t) :
  (Product.profit_margin p = Ok None <->
   Product.cost p = None \/ exists c, Product.cost p = Some c /\ (c <= 0)%Q) /\
  (forall e, Product.profit_margin p = Raise e <->
             e = DivisionByZero /\ sold_for_nothing p) /\
  (forall m, Product.profit_margin p = Ok (Some m) ->
     exists c, Product.cost p = Some c /\ (0 < c)%Q /\
       ~ (Product.price p == 0)%Q /\
       ((0 < Product.price p)%Q ->
          ((m < 0)%Q <-> (Product.price p < c)%Q) /\
          ((m == 0)%Q <-> (Product.price p == c)%Q) /\
          ((Product.price p <= 100000000)%Q -> (1 # 100 <= c)%Q ->
           (m < 100)%Q))).
Proof.
  unfold sold_for_nothing, Product.profit_margin.
  destruct (Product.cost p) as [c|].
  2: { split; [| split].
       - split; [left; reflexivity | reflexivity].
       - intros e. split; [discriminate |].
         intros (_ & _ & c & H & _). discriminate H.
       - discriminate. }
  pose proof (cost_test c) as Hc.
  destruct (negb (Qeq_bool c 0) && negb (Qle_bool c 0)).
  - assert (Hpos : (0 < c)%Q) by (apply Hc; reflexivity).
    destruct (Qeq_bool (Product.price p) 0) eqn:Hprice.
    + apply Qeq_bool_iff in Hprice. split; [| split].
      * split; [discriminate |].
        intros [H | (c' & [= <-] & Hle)]; [discriminate H |].
        exfalso. exact (Qlt_not_le _ _ Hpos Hle).
      * intros e. split.
        -- intros [= <-]. split; [reflexivity |].
           split; [exact Hprice | exists c; auto].
        -- intros [-> _]. reflexivity.
      * discriminate.
    + apply Qeq_bool_neq in Hprice. split; [| split].
      * split; [discriminate |].
        intros [H | (c' & [= <-] & Hle)]; [discriminate H |].
        exfalso. exact (Qlt_not_le _ _ Hpos Hle).
      * intros e. split; [discriminate |].
        intros (_ & H & _). contradiction.
      * intros m [= <-]. exists c.
        split; [reflexivity | split; [exact Hpos | split; [exact Hprice |]]].
        intros Hp.
        destruct (margin_sign (Product.price p) c Hp) as (Hgt & Heq & Hlt).
        cbv zeta in Hgt, Heq, Hlt.
        destruct (Q_dec (Product.price p) c) as [[Hcmp | Hcmp] | Hcmp].
        -- specialize (Hlt Hcmp).
           split; [split; [intros _; exact Hcmp | intros _; exact Hlt] |].
           split; [split; intros H; exfalso; lra |].
           intros _ _. lra.
        -- specialize (Hgt Hcmp).
           split; [split; intros H; exfalso; lra |].
           split; [split; intros H; exfalso; lra |].
           intros Hmax Hcent.
           apply margin_below_100; assumption.
        -- specialize (Heq Hcmp). rewrite Heq.
           split; [split; intros H; exfalso; lra |].
           split; [split; [intros _; exact Hcmp | intros _; reflexivity] |].
           intros _ _. reflexivity.
  - assert (Hle : (c <= 0)%Q).
    { apply Qnot_lt_le. intros H. apply Hc in H. discriminate H. }
    split; [| split].
    + split; [| reflexivity]. intros _. right. exists c. auto.
    + intros e. split; [discriminate |].
      intros (_ & _ & c' & [= <-] & Hpos). exfalso.
      exact (Qlt_not_le _ _ Hpos Hle).
    + discriminate.
Qed.

(** The widget at 19.99 bought at 12.00: Python prints the margin as
    39.96998499249625, the double below.  And the sample given away. *)
Lemma profit_margin_cases_witness :
  (exists m,
     Product.profit_margin widget_at_cost = Ok (Some m) /\
     (m == 1406318824361019 # 35184372088832)%Q /\
     (m < 100)%Q /\ ~ (m < 0)%Q) /\
  Product.profit_margin free_sample = Raise DivisionByZero.
Proof.
  split.
  - destruct (Product.profit_margin widget_at_cost) as [[m|]|e] eqn:Hm;
      try (vm_compute in Hm; discriminate Hm).
    exists m. split; [reflexivity |].
    destruct (proj2 (proj2 (profit_margin_cases widget_at_cost)) m Hm)
      as (c & Hc & _ & _ & Hpos).
    injection Hc as <-.
    destruct (Hpos ltac:(reflexivity)) as (Hneg & _ & Hbound).
    split; [| split].
    + vm_compute in Hm. injection Hm as <-. reflexivity.
    + apply Hbound; [discriminate | discriminate].
    + intros H. apply Hneg in H. revert H. discriminate.
  - apply (proj1 (proj2 (profit_margin_cases free_sample))).
    split; [reflexivity |].
    split; [reflexivity | exists 2.50%Q; split; reflexivity].
Defined.

(** ** Soft deletion *)

Lemma delete_product_run (pid : Z) (s : Session) :
  delete_product pid s =
  match products (working s) !! pid with
  | None =>
      ({| body := error_str NotFound; status_code := 500 |}, session_rollback s)
  | Some product =>
      let w :=
        {| customers := customers (working s);
           products := <[pid := set_is_active product false]> (products (working s));
           orders := orders (working s);
           order_items := order_items (working s) |} in
      ({| body := message "Product deleted successfully"; status_code := 200 |},
       {| committed := w; working := w |})
  end.
Proof.
  unfold delete_product, try_except, Product_query_get_or_404. run_view.
  destruct (products (working s) !! pid) as [product|]; [| reflexivity].
  run_view. reflexivity.
Qed.

(** X21.  [delete_product] is a soft delete: the product stays in the
    store with its stock, only [is_active] is cleared, and a second delete
    changes nothing more.  Nothing in the order workflow reads that flag:
    the loop of [create_order] still finds the product afterwards and
    reserves its stock for a line that the stock covers. *)
Theorem delete_product_keeps_product_orderable
    (pid : Z) (db : DB) (p : Product.t) (order_id quantity : Z) :
  products db !! pid = Some p ->
  quantity <= Product.stock_quantity p ->
  let result := handle (delete_product pid) db in
  fst result =
    {| body := message "Product deleted successfully"; status_code := 200 |} /\
  products (snd result) = <[pid := set_is_active p false]> (products db) /\
  stock_of (snd result) pid = stock_of db pid /\
  snd (handle (delete_product pid) (snd result)) = snd result /\
  exists added s',
    create_order_items order_id [line pid quantity] (session_begin (snd result)) =
      (Next added, s') /\
    length added = 1%nat /\
    stock_of (working s') pid = Product.stock_quantity p - quantity.
Proof.
  intros Hp Hle result.
  assert (Hres : result =
    ({| body := message "Product deleted successfully"; status_code := 200 |},
     {| customers := customers db;
        products := <[pid := set_is_active p false]> (products db);
        orders := orders db;
        order_items := order_items db |})).
  { unfold result, handle. rewrite delete_product_run.
    cbn [working session_begin]. rewrite Hp. reflexivity. }
  rewrite Hres. cbn [fst snd].
  split; [reflexivity | split; [reflexivity | split; [| split]]].
  - unfold stock_of. cbn [products]. rewrite lookup_insert_eq, Hp. reflexivity.
  - unfold handle. rewrite delete_product_run.
    cbn [working session_begin products]. rewrite lookup_insert_eq.
    cbn [snd session_remove committed customers products orders order_items].
    rewrite insert_insert_eq. reflexivity.
  - rewrite (create_order_items_step order_id pid quantity []
               _ (set_is_active p false));
      [| cbn [working session_begin products]; apply lookup_insert_eq
       | cbn; lia].
    cbv zeta. rewrite bind_run.
    cbn [create_order_items]. 
    eexists _, _. split; [reflexivity |].
    split; [reflexivity |].
    unfold stock_of. cbn [working products]. rewrite lookup_insert_eq.
    cbn. lia.
Qed.

Lemma delete_product_keeps_product_orderable_witness :
  let result := handle (delete_product 1) shop in
  stock_of (snd result) 1 = 10 /\
  exists added s',
    create_order_items 1 [line 1 3] (session_begin (snd result)) =
      (Next added, s') /\
    length added = 1%nat /\
    stock_of (working s') 1 = 10 - 3.
Proof.
  assert (Hp : products shop !! 1 = Some (product "Widget" "W-1" 19.99 10))
    by (vm_compute; reflexivity).
  assert (Hle : 3 <= Product.stock_quantity (product "Widget" "W-1" 19.99 10))
    by (cbn; lia).
  destruct (delete_product_keeps_product_orderable 1 shop _ 1 3 Hp Hle)
    as (_ & _ & Hs & _ & Hloop).
  cbv zeta. split; [rewrite Hs; vm_compute; reflexivity | exact Hloop].
Defined.

(** ** Line totals *)

(** A value with two decimals is kept as it is by a [Numeric(10, 2)]
    column. *)
Lemma numeric_10_2_exact (q : Q) (m : Z) :
  (q == m # 100)%Q -> (numeric_10_2 q == q)%Q.
Proof.
  intros Hq. rewrite Hq at 2.
  unfold numeric_10_2, round_half_away.
  unfold Qeq in Hq. cbn [Qnum Qden] in Hq.
  assert (Hnum : Qnum (q * 100) = m * Z.pos (Qden q)).
  { cbn [Qmult Qnum Qden inject_Z]. lia. }
  assert (Hden : Z.pos (Qden (q * 100)) = Z.pos (Qden q)).
  { cbn [Qmult Qnum Qden inject_Z]. lia. }
  rewrite Hnum, Hden.
  set (d := Z.pos (Qden q)) in *.
  assert (Hd : 0 < d) by (unfold d; lia).
  assert (E : (2 * Z.abs (m * d) + d) / (2 * d) = Z.abs m).
  { rewrite Z.abs_mul, (Z.abs_eq d) by lia.
    replace (2 * (Z.abs m * d) + d) with (d * (2 * Z.abs m + 1)) by lia.
    replace (2 * d) with (d * 2) by lia.
    rewrite Z.div_mul_cancel_l by lia.
    replace (2 * Z.abs m + 1) with (1 + Z.abs m * 2) by lia.
    rewrite Z.div_add by lia. reflexivity. }
  rewrite E.
  assert (S : Z.sgn (m * d) = Z.sgn m).
  { rewrite Z.sgn_mul, (Z.sgn_pos d) by lia. lia. }
  rewrite S.
  replace (Z.sgn m * Z.abs m) with m by (destruct m; simpl; lia).
  reflexivity.
Qed.

(** X22.  A line total is stored without rounding.  For a unit price with
    two decimals, as every price read from a product is, the product of
    the quantity and the price that [calculate_line_total] assigns has two
    decimals again, so the row of the item keeps both the price and the
    total exactly. *)
Theorem line_total_is_exact (order_id product_id quantity key cents : Z)
    (unit_price : Q) :
  (unit_price == cents # 100)%Q ->
  let item :=
    OrderItem.row key
      (OrderItem.calculate_line_total
         (OrderItem.new order_id product_id quantity unit_price)) in
  (OrderItem.unit_price item == unit_price)%Q /\
  (OrderItem.line_total item == inject_Z quantity * unit_price)%Q /\
  (OrderItem.line_total item == (quantity * cents) # 100)%Q /\
  OrderItem.quantity item = quantity.
Proof.
  intros Hp item. unfold item.
  cbn [OrderItem.row OrderItem.calculate_line_total OrderItem.new
       OrderItem.unit_price OrderItem.line_total OrderItem.quantity].
  assert (Hline : (inject_Z quantity * unit_price == (quantity * cents) # 100)%Q).
  { rewrite Hp. unfold Qeq. cbn [Qmult Qnum Qden inject_Z]. lia. }
  split; [| split; [| split]].
  - apply (numeric_10_2_exact unit_price cents Hp).
  - apply (numeric_10_2_exact _ (quantity * cents) Hline).
  - rewrite (numeric_10_2_exact _ (quantity * cents) Hline). exact Hline.
  - reflexivity.
Qed.

(** Three widgets at 19.99. *)
Lemma line_total_is_exact_witness :
  (OrderItem.line_total
     (OrderItem.row 1
        (OrderItem.calculate_line_total (OrderItem.new 1 1 3 19.99)))
   == 59.97)%Q.
Proof.
  assert (Hp : (19.99 == 1999 # 100)%Q) by reflexivity.
  destruct (line_total_is_exact 1 1 3 1 1999 19.99 Hp) as (_ & _ & H & _).
  rewrite H. reflexivity.
Defined.
